(** * Fake pages: memory shadowing on second-level address translation

    A shallow embedding of [FU_Hypervisor/fake_page.cpp] and the properties of
    its shadow registry, violation dispatcher, single-step handler and CPUID
    cache.

    The code runs in VMX root mode on one logical processor.  A [Machine] is
    what that processor sees: its control registers, the fields of its VMCS
    the code reads and writes, guest memory behind the page tables, the pool
    pages that back [Page] objects, the second-level page table it was handed
    ([ept_data]), and the two data blocks of this file
    ([SharedFakePageData], [ProcessorFakePageData]).  Every function of the
    source is a computation in the monad [Vmx]; a computation either returns
    ([Done]) or stops the processor ([Halt]) and in both cases says in which
    machine it did. *)

From Stdlib Require Import ZArith List Bool Lia.
From stdpp Require Import base gmap list.

Local Open Scope Z_scope.

(** ** Addresses and pages *)

Definition PAGE_SIZE : Z := 4096.
Definition PAGE_SHIFT : Z := 12.

(** [ULONG64] arithmetic wraps. *)
Definition wrap64 (z : Z) : Z := z mod 2 ^ 64.

(** [int] is 32 bits wide, two's complement. *)
Definition int32 (z : Z) : Z := (z + 2 ^ 31) mod 2 ^ 32 - 2 ^ 31.

(** [PAGE_ALIGN(Va)] is [Va & ~(PAGE_SIZE - 1)]; [BYTE_OFFSET(Va)] is
    [Va & (PAGE_SIZE - 1)]. *)
Definition PAGE_ALIGN (va : Z) : Z := Z.land va (Z.lnot (PAGE_SIZE - 1)).
Definition BYTE_OFFSET (va : Z) : Z := Z.land va (PAGE_SIZE - 1).

Definition UtilPfnFromPa (pa : Z) : Z := Z.shiftr pa PAGE_SHIFT.

(** The walk of the page tables rooted at [root]: the frame of the virtual
    page, then the offset in the page. *)
Definition translate (tables : Z -> Z -> Z) (root va : Z) : Z :=
  Z.lor (Z.shiftl (tables root (Z.shiftr va PAGE_SHIFT)) PAGE_SHIFT)
        (BYTE_OFFSET va).

(** ** Types of the source *)

(** The bit fields of the unions the source reads, by field name. *)
Record EptViolationQualification := {
  qual_read_access : bool;
  qual_write_access : bool;
  qual_execute_access : bool;
  ept_readable : bool;
  ept_writeable : bool;
  ept_executable : bool;
  caused_by_translation : bool
}.

Record EptCommonEntry := {
  read_access : bool;
  write_access : bool;
  execute_access : bool;
  physial_address : Z
}.

Record Cr0 := { wp : bool; cr0_other : Z }.

Record VmxProcessorBasedControls := {
  monitor_trap_flag : bool;
  procctl_other : Z
}.

(** A [Page] is named by the pool block it owns; the block's bytes live in
    the machine ([pool]).  Two [std::shared_ptr<Page>] that share an object
    carry the same name. *)
Definition PagePtr := nat.

Record FakePageData := {
  patch_address : Z;
  target_cr3 : Z;
  shadow_page_base_for_exec : PagePtr;
  pa_base_for_rw : Z;
  pa_base_for_exec : Z;
  original_bytes : list Z
}.

Record Cpuinfo := {
  index : Z;
  ecx : Z;
  cpui : list Z
}.

Record SharedFakePageData := {
  cpuinfo : list Cpuinfo;
  all_fp_data : list FakePageData
}.

Record ProcessorFakePageData := {
  last_fp_data : option FakePageData;
  fault_va : Z
}.

(** ** The machine

    [page_tables root vpn] is the frame of a virtual page in the address
    space rooted at [root], and [present root vpn] says whether that page
    is mapped there. *)

(** What happened to the second-level page table, newest first. *)
Inductive EptEvent :=
| EvEptStore (pfn : Z)
| EvInvept.

Record Machine := {
  cr3 : Z;
  cr0 : Cr0;
  kGuestCr3 : Z;
  kExitQualification : EptViolationQualification;
  kCpuBasedVmExecControl : VmxProcessorBasedControls;
  host_cpuid : Z -> Z -> list Z;
  page_tables : Z -> Z -> Z;
  present : Z -> Z -> bool;
  memory : Z -> Z;
  pool : gmap nat (Z -> Z);
  pool_free : nat;
  pool_va : nat -> Z;
  ept_data : Z -> EptCommonEntry;
  journal : list EptEvent;
  shared_fp_data : option SharedFakePageData;
  processor_fp_data : ProcessorFakePageData
}.

Definition set_cr3 (v : Z) (m : Machine) : Machine :=
  {| cr3 := v; cr0 := cr0 m; kGuestCr3 := kGuestCr3 m;
     kExitQualification := kExitQualification m;
     kCpuBasedVmExecControl := kCpuBasedVmExecControl m;
     host_cpuid := host_cpuid m; page_tables := page_tables m;
     present := present m;
     memory := memory m; pool := pool m; pool_free := pool_free m;
     pool_va := pool_va m; ept_data := ept_data m; journal := journal m;
     shared_fp_data := shared_fp_data m;
     processor_fp_data := processor_fp_data m |}.

Definition set_cr0 (v : Cr0) (m : Machine) : Machine :=
  {| cr3 := cr3 m; cr0 := v; kGuestCr3 := kGuestCr3 m;
     kExitQualification := kExitQualification m;
     kCpuBasedVmExecControl := kCpuBasedVmExecControl m;
     host_cpuid := host_cpuid m; page_tables := page_tables m;
     present := present m;
     memory := memory m; pool := pool m; pool_free := pool_free m;
     pool_va := pool_va m; ept_data := ept_data m; journal := journal m;
     shared_fp_data := shared_fp_data m;
     processor_fp_data := processor_fp_data m |}.

Definition set_procctl (v : VmxProcessorBasedControls) (m : Machine) : Machine :=
  {| cr3 := cr3 m; cr0 := cr0 m; kGuestCr3 := kGuestCr3 m;
     kExitQualification := kExitQualification m;
     kCpuBasedVmExecControl := v;
     host_cpuid := host_cpuid m; page_tables := page_tables m;
     present := present m;
     memory := memory m; pool := pool m; pool_free := pool_free m;
     pool_va := pool_va m; ept_data := ept_data m; journal := journal m;
     shared_fp_data := shared_fp_data m;
     processor_fp_data := processor_fp_data m |}.

Definition set_memory (v : Z -> Z) (m : Machine) : Machine :=
  {| cr3 := cr3 m; cr0 := cr0 m; kGuestCr3 := kGuestCr3 m;
     kExitQualification := kExitQualification m;
     kCpuBasedVmExecControl := kCpuBasedVmExecControl m;
     host_cpuid := host_cpuid m; page_tables := page_tables m;
     present := present m;
     memory := v; pool := pool m; pool_free := pool_free m;
     pool_va := pool_va m; ept_data := ept_data m; journal := journal m;
     shared_fp_data := shared_fp_data m;
     processor_fp_data := processor_fp_data m |}.

Definition set_pool (v : gmap nat (Z -> Z)) (free : nat) (m : Machine) : Machine :=
  {| cr3 := cr3 m; cr0 := cr0 m; kGuestCr3 := kGuestCr3 m;
     kExitQualification := kExitQualification m;
     kCpuBasedVmExecControl := kCpuBasedVmExecControl m;
     host_cpuid := host_cpuid m; page_tables := page_tables m;
     present := present m;
     memory := memory m; pool := v; pool_free := free;
     pool_va := pool_va m; ept_data := ept_data m; journal := journal m;
     shared_fp_data := shared_fp_data m;
     processor_fp_data := processor_fp_data m |}.

Definition set_ept (v : Z -> EptCommonEntry) (j : list EptEvent) (m : Machine) : Machine :=
  {| cr3 := cr3 m; cr0 := cr0 m; kGuestCr3 := kGuestCr3 m;
     kExitQualification := kExitQualification m;
     kCpuBasedVmExecControl := kCpuBasedVmExecControl m;
     host_cpuid := host_cpuid m; page_tables := page_tables m;
     present := present m;
     memory := memory m; pool := pool m; pool_free := pool_free m;
     pool_va := pool_va m; ept_data := v; journal := j;
     shared_fp_data := shared_fp_data m;
     processor_fp_data := processor_fp_data m |}.

Definition set_shared (v : option SharedFakePageData) (m : Machine) : Machine :=
  {| cr3 := cr3 m; cr0 := cr0 m; kGuestCr3 := kGuestCr3 m;
     kExitQualification := kExitQualification m;
     kCpuBasedVmExecControl := kCpuBasedVmExecControl m;
     host_cpuid := host_cpuid m; page_tables := page_tables m;
     present := present m;
     memory := memory m; pool := pool m; pool_free := pool_free m;
     pool_va := pool_va m; ept_data := ept_data m; journal := journal m;
     shared_fp_data := v;
     processor_fp_data := processor_fp_data m |}.

Definition set_processor (v : ProcessorFakePageData) (m : Machine) : Machine :=
  {| cr3 := cr3 m; cr0 := cr0 m; kGuestCr3 := kGuestCr3 m;
     kExitQualification := kExitQualification m;
     kCpuBasedVmExecControl := kCpuBasedVmExecControl m;
     host_cpuid := host_cpuid m; page_tables := page_tables m;
     present := present m;
     memory := memory m; pool := pool m; pool_free := pool_free m;
     pool_va := pool_va m; ept_data := ept_data m; journal := journal m;
     shared_fp_data := shared_fp_data m;
     processor_fp_data := v |}.

(** ** The monad of handler code *)

Inductive Stop :=
| AssertionFailure   (* NT_ASSERT / NT_VERIFY *)
| BugCheck           (* HYPERPLATFORM_COMMON_BUG_CHECK *)
| InvalidAccess.     (* a null or dangling pointer, or a buffer left *)

Inductive Outcome (A : Type) :=
| Done (a : A) (m : Machine)
| Halt (why : Stop) (m : Machine).
Arguments Done {A} a m.
Arguments Halt {A} why m.

Definition Vmx (A : Type) : Type := Machine -> Outcome A.

Definition ret {A} (a : A) : Vmx A := fun m => Done a m.

Definition bind {A B} (c : Vmx A) (k : A -> Vmx B) : Vmx B :=
  fun m => match c m with
           | Done a m' => k a m'
           | Halt why m' => Halt why m'
           end.

Definition halt {A} (why : Stop) : Vmx A := fun m => Halt why m.

Notation "'do' x <- c ; k" := (bind c (fun x => k))
  (at level 10, x name, c at level 100, k at level 200).

(** The machine a computation ends in, returning or not. *)
Definition final {A} (o : Outcome A) : Machine :=
  match o with
  | Done _ m => m
  | Halt _ m => m
  end.

(** What a computation returned, when it did. *)
Definition result {A} (o : Outcome A) : option A :=
  match o with
  | Done a _ => Some a
  | Halt _ _ => None
  end.

Definition returns {A} (o : Outcome A) : bool :=
  match o with
  | Done _ _ => true
  | Halt _ _ => false
  end.


Fixpoint for_each {A} (l : list A) (body : A -> Vmx unit) : Vmx unit :=
  match l with
  | [] => ret tt
  | x :: l' => do _ <- body x; for_each l' body
  end.

(** Modelled from the spec: the macros [NT_ASSERT] and [NT_VERIFY] are not
    in the source file; "a fatal contract violation (raised as an
    assertion)". *)
Definition NT_ASSERT (cond : bool) : Vmx unit :=
  if cond then ret tt else halt AssertionFailure.
Definition NT_VERIFY (cond : bool) : Vmx unit := NT_ASSERT cond.

(** ** What the platform provides *)

Definition __readcr3 : Vmx Z := fun m => Done (cr3 m) m.
Definition __writecr3 (v : Z) : Vmx unit := fun m => Done tt (set_cr3 v m).
Definition __readcr0 : Vmx Cr0 := fun m => Done (cr0 m) m.
Definition __writecr0 (v : Cr0) : Vmx unit := fun m => Done tt (set_cr0 v m).

Definition __cpuidex (leaf subleaf : Z) : Vmx (list Z) :=
  fun m => Done (host_cpuid m leaf subleaf) m.
Definition __cpuid (leaf : Z) : Vmx (list Z) := __cpuidex leaf 0.

(** [UtilVmRead] and [UtilVmWrite], one per field the source names. *)
Definition UtilVmRead_kGuestCr3 : Vmx Z := fun m => Done (kGuestCr3 m) m.
Definition UtilVmRead_kExitQualification : Vmx EptViolationQualification :=
  fun m => Done (kExitQualification m) m.
Definition UtilVmRead_kCpuBasedVmExecControl : Vmx VmxProcessorBasedControls :=
  fun m => Done (kCpuBasedVmExecControl m) m.
Definition UtilVmWrite_kCpuBasedVmExecControl (v : VmxProcessorBasedControls)
  : Vmx unit := fun m => Done tt (set_procctl v m).

(** [UtilPaFromVa] walks the tables of the paging context that is active. *)
Definition UtilPaFromVa (va : Z) : Vmx Z :=
  fun m => Done (translate (page_tables m) (cr3 m) va) m.

(** Modelled from the spec: the second-level page table is "assumed
    provided, exposing get page-table entry for a physical address and
    invalidate translations".  An entry is named by the frame it maps; a
    store to one of its fields and a global invalidation are journalled. *)
Definition EptGetEptPtEntry (pa : Z) : Z := UtilPfnFromPa pa.

Definition ept_store (entry : Z) (f : EptCommonEntry -> EptCommonEntry) : Vmx unit :=
  fun m => Done tt
    (set_ept (fun k => if k =? entry then f (ept_data m k) else ept_data m k)
             (EvEptStore entry :: journal m) m).

Definition ept_load (entry : Z) : Vmx EptCommonEntry :=
  fun m => Done (ept_data m entry) m.

Definition UtilInveptGlobal : Vmx unit :=
  fun m => Done tt (set_ept (ept_data m) (EvInvept :: journal m) m).

Definition with_read_access (b : bool) (e : EptCommonEntry) : EptCommonEntry :=
  {| read_access := b; write_access := write_access e;
     execute_access := execute_access e; physial_address := physial_address e |}.
Definition with_write_access (b : bool) (e : EptCommonEntry) : EptCommonEntry :=
  {| read_access := read_access e; write_access := b;
     execute_access := execute_access e; physial_address := physial_address e |}.
Definition with_execute_access (b : bool) (e : EptCommonEntry) : EptCommonEntry :=
  {| read_access := read_access e; write_access := write_access e;
     execute_access := b; physial_address := physial_address e |}.
Definition with_physial_address (pfn : Z) (e : EptCommonEntry) : EptCommonEntry :=
  {| read_access := read_access e; write_access := write_access e;
     execute_access := execute_access e; physial_address := pfn |}.

(** ** Memory *)

(** A byte of guest memory, through the active paging context. *)
Definition peek (m : Machine) (va : Z) : Z :=
  memory m (translate (page_tables m) (cr3 m) va).

(** A read of guest memory at an address no caller supplied: it faults when
    the page is not mapped in the active paging context.  (The copies below
    take the addresses the requester handed over, which the requester is
    trusted to have mapped.) *)
Definition load (va : Z) : Vmx Z :=
  fun m =>
    if present m (cr3 m) (Z.shiftr va PAGE_SHIFT)
    then Done (peek m va) m
    else Halt InvalidAccess m.

Definition store (va b : Z) : Vmx unit :=
  fun m =>
    let pa := translate (page_tables m) (cr3 m) va in
    Done tt (set_memory (fun a => if a =? pa then b else memory m a) m).

(** [RtlCopyMemory] onto guest memory, byte after byte. *)
Fixpoint RtlCopyMemory_to_guest (dst : Z) (bytes : list Z) : Vmx unit :=
  match bytes with
  | [] => ret tt
  | b :: rest =>
      do _ <- store dst b;
      RtlCopyMemory_to_guest (wrap64 (dst + 1)) rest
  end.

(** [RtlCopyMemory] from guest memory into a local buffer. *)
Definition peek_bytes (m : Machine) (va : Z) (len : nat) : list Z :=
  map (fun i => peek m (wrap64 (va + Z.of_nat i))) (seq 0 len).

Definition RtlCopyMemory_from_guest (src : Z) (len : nat) : Vmx (list Z) :=
  fun m => Done (peek_bytes m src len) m.

(** [RtlCopyMemory] from guest memory into the block of a [Page], [len] bytes
    from offset [dst_off] on.  The block is [PAGE_SIZE] bytes long.  The
    source checks no bound; the model follows a copy inside the block only,
    and ends the computation at a copy that leaves it, saying nothing of the
    memory after the block that the source runs on into. *)
Definition RtlCopyMemory_to_page (p : PagePtr) (dst_off src len : Z) : Vmx unit :=
  fun m =>
    match pool m !! p with
    | None => Halt InvalidAccess m
    | Some block =>
        if (0 <=? dst_off) && (dst_off + len <=? PAGE_SIZE) then
          Done tt
            (set_pool
               (<[p := fun i =>
                         if (dst_off <=? i) && (i <? dst_off + len)
                         then peek m (wrap64 (src + (i - dst_off)))
                         else block i]> (pool m))
               (pool_free m) m)
        else Halt InvalidAccess m
    end.

(** The bytes [off .. off + len) of the block of a [Page].  Here too the
    source checks no bound and the model follows a read inside the block
    only. *)
Definition page_bytes (p : PagePtr) (off : Z) (len : nat) : Vmx (list Z) :=
  fun m =>
    match pool m !! p with
    | None => Halt InvalidAccess m
    | Some block =>
        if (0 <=? off) && (off + Z.of_nat len <=? PAGE_SIZE) then
          Done (map (fun i => block (off + Z.of_nat i)) (seq 0 len)) m
        else Halt InvalidAccess m
    end.

(** [Page::Page()]: a page from the non-paged pool, or a bug check. *)
Definition new_Page : Vmx PagePtr :=
  fun m =>
    match pool_free m with
    | O => Halt BugCheck m
    | S free =>
        let p := fresh (dom (pool m)) in
        Done p (set_pool (<[p := fun _ => 0]> (pool m)) free m)
    end.

(** Little-endian reading of [ULONG64]. *)
Fixpoint le_decode (bytes : list Z) : Z :=
  match bytes with
  | [] => 0
  | b :: rest => b + 256 * le_decode rest
  end.

(** ** Pointers into the data blocks of this file *)

Definition deref {A} (p : option A) : Vmx A :=
  match p with
  | Some a => ret a
  | None => halt InvalidAccess
  end.

#[global] Instance FakePageData_eq_dec : EqDecision FakePageData.
Proof. solve_decision. Defined.

(** A [const FakePageData*] points into the registry, which owns the entry.
    The pointer is modelled by the entry it points to; it reaches the entry
    while the registry holds it, and dangles once the entry is erased. *)
Definition deref_entry (shared : option SharedFakePageData)
    (p : option FakePageData) : Vmx FakePageData :=
  match shared, p with
  | Some sh, Some fp_data =>
      if bool_decide (fp_data ∈ all_fp_data sh) then ret fp_data
      else halt InvalidAccess
  | _, _ => halt InvalidAccess
  end.

Definition get_shared : Vmx (option SharedFakePageData) :=
  fun m => Done (shared_fp_data m) m.
Definition put_shared (sh : SharedFakePageData) : Vmx unit :=
  fun m => Done tt (set_shared (Some sh) m).
Definition get_processor : Vmx ProcessorFakePageData :=
  fun m => Done (processor_fp_data m) m.
Definition put_processor (p : ProcessorFakePageData) : Vmx unit :=
  fun m => Done tt (set_processor p m).

(** [std::array<UCHAR, 32>::size()] *)
Definition original_bytes_size : Z := 32.

Definition is_set {A} (p : option A) : bool :=
  match p with
  | Some _ => true
  | None => false
  end.

(** ** Allocation of the data blocks *)


Definition FpAllocateSharedProcessorData : SharedFakePageData :=
  {| cpuinfo := []; all_fp_data := [] |}.

(** ** Per-processor state *)

Definition FppIsFuActive (shared : option SharedFakePageData) : bool :=
  is_set shared.

Definition FppSetMonitorTrapFlag (enable : bool) : Vmx unit :=
  do vm_procctl <- UtilVmRead_kCpuBasedVmExecControl;
  UtilVmWrite_kCpuBasedVmExecControl
    {| monitor_trap_flag := enable;
       procctl_other := procctl_other vm_procctl |}.

Definition FppSaveLastFakePageData (fp_data : FakePageData) : Vmx unit :=
  do p <- get_processor;
  do _ <- NT_ASSERT (negb (is_set (last_fp_data p)));
  put_processor {| last_fp_data := Some fp_data; fault_va := fault_va p |}.

Definition FppRestoreLastFakePageData : Vmx (option FakePageData) :=
  do p <- get_processor;
  do _ <- NT_ASSERT (is_set (last_fp_data p));
  let fp_data := last_fp_data p in
  do _ <- put_processor {| last_fp_data := None; fault_va := fault_va p |};
  ret fp_data.

(** ** Lookups in the registry *)

Definition FppFindFakePageDataByPage (shared : option SharedFakePageData)
    (address : Z) : Vmx (option FakePageData) :=
  do guest_cr3 <- UtilVmRead_kGuestCr3;
  do sh <- deref shared;
  ret (List.find
         (fun fp_data =>
            (PAGE_ALIGN (patch_address fp_data) =? PAGE_ALIGN address)
            && (target_cr3 fp_data =? guest_cr3))
         (all_fp_data sh)).

Definition FppFindFakePageDataByPPage (shared : option SharedFakePageData)
    (paddress : Z) : Vmx (option FakePageData) :=
  do sh <- deref shared;
  ret (List.find
         (fun fp_data =>
            Z.shiftr (pa_base_for_rw fp_data) 12 =? Z.shiftr paddress 12)
         (all_fp_data sh)).

(** ** Permission controller *)

Definition FppEnableFakePageForExec (fp_data : FakePageData) : Vmx unit :=
  do old_cr3 <- __readcr3;
  do _ <- __writecr3 (target_cr3 fp_data);
  do pa <- UtilPaFromVa (patch_address fp_data);
  let ept_pt_entry := EptGetEptPtEntry pa in
  do _ <- ept_store ept_pt_entry (with_write_access false);
  do _ <- ept_store ept_pt_entry (with_read_access false);
  do _ <- ept_store ept_pt_entry
            (with_physial_address (UtilPfnFromPa (pa_base_for_exec fp_data)));
  do _ <- __writecr3 old_cr3;
  UtilInveptGlobal.

Definition FppEnableFakePageForRw (fp_data : FakePageData) : Vmx unit :=
  let ept_pt_entry := EptGetEptPtEntry (pa_base_for_rw fp_data) in
  do _ <- ept_store ept_pt_entry (with_write_access true);
  do _ <- ept_store ept_pt_entry (with_read_access true);
  do _ <- ept_store ept_pt_entry (with_execute_access true);
  do _ <- ept_store ept_pt_entry
            (with_physial_address (UtilPfnFromPa (pa_base_for_rw fp_data)));
  UtilInveptGlobal.

Definition FppDisableFakePage (fp_data : FakePageData) : Vmx unit :=
  do old_cr3 <- __readcr3;
  do _ <- __writecr3 (target_cr3 fp_data);
  let page_base := PAGE_ALIGN (patch_address fp_data) in
  do pa_base <- UtilPaFromVa page_base;
  let ept_pt_entry := EptGetEptPtEntry pa_base in
  do _ <- ept_store ept_pt_entry (with_write_access true);
  do _ <- ept_store ept_pt_entry (with_read_access true);
  do _ <- ept_store ept_pt_entry (with_physial_address (UtilPfnFromPa pa_base));
  do _ <- __writecr3 old_cr3;
  UtilInveptGlobal.

(** ** Handlers of VM exits *)

Definition FpHandleMonitorTrapFlag : Vmx unit :=
  do shared <- get_shared;
  do _ <- NT_VERIFY (FppIsFuActive shared);
  do fp_ptr <- FppRestoreLastFakePageData;
  do fp_data <- deref_entry shared fp_ptr;
  let guest_cr3 := target_cr3 fp_data in
  do vmm_cr3 <- __readcr3;
  do _ <- __writecr3 guest_cr3;
  do p <- get_processor;
  do value <- load (fault_va p);
  do _ <- __writecr3 vmm_cr3;
  do _ <- FppEnableFakePageForExec fp_data;
  FppSetMonitorTrapFlag false.

(** The copy of the branch that confirms execution: the bytes of the live
    page before and after the patched bytes, onto the shadow page. *)
Definition resynchronize (fp_data : FakePageData) : Vmx unit :=
  do vmmcr3 <- __readcr3;
  do _ <- __writecr3 (target_cr3 fp_data);
  let len :=
    int32 (wrap64 (patch_address fp_data - PAGE_ALIGN (patch_address fp_data))) in
  do _ <- RtlCopyMemory_to_page (shadow_page_base_for_exec fp_data) 0
            (PAGE_ALIGN (patch_address fp_data)) (wrap64 len);
  let len := int32 (wrap64 (PAGE_SIZE - len - original_bytes_size)) in
  do _ <- RtlCopyMemory_to_page (shadow_page_base_for_exec fp_data)
            (PAGE_SIZE - len)
            (wrap64 (patch_address fp_data + original_bytes_size))
            (wrap64 len);
  __writecr3 vmmcr3.

Definition FpHandleEptViolation (fault_va fault_pa : Z) : Vmx unit :=
  do shared <- get_shared;
  if negb (FppIsFuActive shared) then ret tt else
  do exit_qualification <- UtilVmRead_kExitQualification;
  do fp_ptr <- FppFindFakePageDataByPPage shared fault_pa;
  match fp_ptr with
  | None => ret tt
  | Some fp_data =>
      let ept_pt_entry := EptGetEptPtEntry (pa_base_for_rw fp_data) in
      if negb (caused_by_translation exit_qualification) then
        do _ <- ept_store ept_pt_entry
                  (with_physial_address (UtilPfnFromPa (pa_base_for_rw fp_data)));
        ept_store ept_pt_entry (with_execute_access false)
      else
        let read_failure :=
          qual_read_access exit_qualification
          && negb (ept_readable exit_qualification) in
        let write_failure :=
          qual_write_access exit_qualification
          && negb (ept_writeable exit_qualification) in
        do _ <- ept_store ept_pt_entry
                  (with_write_access (qual_write_access exit_qualification));
        do _ <- ept_store ept_pt_entry
                  (with_read_access (qual_read_access exit_qualification
                                     || qual_write_access exit_qualification));
        do _ <- ept_store ept_pt_entry
                  (with_execute_access (qual_execute_access exit_qualification));
        do _ <- (if write_failure || read_failure then
                   ept_store ept_pt_entry
                     (with_physial_address
                        (UtilPfnFromPa (pa_base_for_rw fp_data)))
                 else
                   do _ <- resynchronize fp_data;
                   ept_store ept_pt_entry
                     (with_physial_address
                        (UtilPfnFromPa (pa_base_for_exec fp_data))));
        do entry <- ept_load ept_pt_entry;
        if read_access entry && execute_access entry then
          do _ <- FppSetMonitorTrapFlag true;
          FppSaveLastFakePageData fp_data
        else ret tt
  end.

(** ** Lifecycle of the registry *)

Definition FppCreateFakePageData (context : Z) : Vmx FakePageData :=
  do guest_cr3 <- UtilVmRead_kGuestCr3;
  do vmm_cr3 <- __readcr3;
  do _ <- __writecr3 guest_cr3;
  do params <- RtlCopyMemory_from_guest context 48;
  let start_address := le_decode (take 8 params) in
  let params_original_bytes := drop 16 params in
  let page_base := PAGE_ALIGN start_address in
  do pa_base <- UtilPaFromVa page_base;
  do _ <- __writecr3 vmm_cr3;
  let target := guest_cr3 in
  do shared <- get_shared;
  do reusable_fp_data <- FppFindFakePageDataByPage shared start_address;
  do page <-
    match reusable_fp_data with
    | Some reusable => ret (shadow_page_base_for_exec reusable)
    | None =>
        do page <- new_Page;
        do _ <- __writecr3 target;
        do _ <- RtlCopyMemory_to_page page 0 page_base PAGE_SIZE;
        do _ <- __writecr3 vmm_cr3;
        ret page
    end;
  do va <- (fun m => Done (pool_va m page) m);
  do pa_exec <- UtilPaFromVa va;
  ret {| patch_address := start_address;
         target_cr3 := target;
         shadow_page_base_for_exec := page;
         pa_base_for_rw := pa_base;
         pa_base_for_exec := pa_exec;
         original_bytes := params_original_bytes |}.

(** [std::make_unique] never yields null: the [return false] of the source
    is not reached, and the call returns [true] whenever it returns. *)
Definition FpVmCallCreateFakePage (context : Z) : Vmx bool :=
  do fp_data <- FppCreateFakePageData context;
  do shared <- get_shared;
  do sh <- deref shared;
  do _ <- put_shared {| cpuinfo := cpuinfo sh;
                        all_fp_data := all_fp_data sh ++ [fp_data] |};
  ret true.

Definition STATUS_SUCCESS : Z := 0.

(** The body of the loop of the enable call. *)
Definition shadowing (requester_cr3 vmm_cr3 : Z) (fp_data : FakePageData)
  : Vmx unit :=
  if negb (target_cr3 fp_data =? requester_cr3) then ret tt else
  do _ <- __writecr3 (target_cr3 fp_data);
  do _ <- RtlCopyMemory_to_guest (patch_address fp_data)
            (original_bytes fp_data);
  do _ <- __writecr3 vmm_cr3;
  FppEnableFakePageForExec fp_data.

Definition FpVmCallEnableFakePages : Vmx Z :=
  do requester_cr3 <- UtilVmRead_kGuestCr3;
  do vmm_cr3 <- __readcr3;
  do cr0_old <- __readcr0;
  let cr0_new := {| wp := false; cr0_other := cr0_other cr0_old |} in
  do _ <- __writecr0 cr0_new;
  do shared <- get_shared;
  do sh <- deref shared;
  do _ <- for_each (all_fp_data sh) (shadowing requester_cr3 vmm_cr3);
  do _ <- __writecr0 cr0_old;
  ret STATUS_SUCCESS.

(** The body of the loop of the disable call. *)
Definition unshadowing (requester_cr3 vmm_cr3 : Z) (fp_data : FakePageData)
  : Vmx unit :=
  if negb (target_cr3 fp_data =? requester_cr3) then ret tt else
  do _ <- FppDisableFakePage fp_data;
  do _ <- __writecr3 (target_cr3 fp_data);
  do bytes <- page_bytes (shadow_page_base_for_exec fp_data)
                (BYTE_OFFSET (patch_address fp_data))
                (Z.to_nat original_bytes_size);
  do _ <- RtlCopyMemory_to_guest (patch_address fp_data) bytes;
  __writecr3 vmm_cr3.

Definition FpVmCallDisableFakePages : Vmx unit :=
  do requester_cr3 <- UtilVmRead_kGuestCr3;
  do vmm_cr3 <- __readcr3;
  do cr0_old <- __readcr0;
  let cr0_new := {| wp := false; cr0_other := cr0_other cr0_old |} in
  do _ <- __writecr0 cr0_new;
  do shared <- get_shared;
  do sh <- deref shared;
  do _ <- for_each (all_fp_data sh) (unshadowing requester_cr3 vmm_cr3);
  __writecr0 cr0_old.

(** [Page::~Page()], run when the last [std::shared_ptr] to the page goes. *)
Definition Page_destroy (p : PagePtr) : Vmx unit :=
  fun m =>
    match pool m !! p with
    | None => Halt InvalidAccess m
    | Some _ => Done tt (set_pool (delete p (pool m)) (S (pool_free m)) m)
    end.

(** The pages that only erased entries still owned. *)
Definition orphaned (erased kept : list FakePageData) : list PagePtr :=
  filter (fun p => p ∉ (shadow_page_base_for_exec <$> kept))
         (remove_dups (shadow_page_base_for_exec <$> erased)).

Definition FpVmCallDeleteFakePages : Vmx unit :=
  do requester_cr3 <- UtilVmRead_kGuestCr3;
  do shared <- get_shared;
  do sh <- deref shared;
  let kept := filter (fun fp_data => target_cr3 fp_data ≠ requester_cr3)
                     (all_fp_data sh) in
  let erased := filter (fun fp_data => target_cr3 fp_data = requester_cr3)
                       (all_fp_data sh) in
  do _ <- put_shared {| cpuinfo := cpuinfo sh; all_fp_data := kept |};
  for_each (orphaned erased kept) Page_destroy.

(** ** CPUID cache *)

(** What a read through a [std::unique_ptr] reaches once [std::move] has
    taken its object: nothing, as the pointer is null ([MovedNull]); or the
    object still, in a build that kept the raw pointer ([MovedStale]). *)
Inductive MovedFrom := MovedNull | MovedStale.

Definition after_move {A} (mf : MovedFrom) (p : option A) : option A :=
  match mf with
  | MovedNull => None
  | MovedStale => p
  end.

Definition push_back_cpuinfo (c : Cpuinfo) : Vmx unit :=
  do shared <- get_shared;
  do sh <- deref shared;
  put_shared {| cpuinfo := cpuinfo sh ++ [c]; all_fp_data := all_fp_data sh |}.

(** The values [i] takes in [for (int i = first; i <= last; i++)], for
    [last] below [INT_MAX]. *)
Definition leaves (first last : Z) : list Z :=
  map (fun k => first + Z.of_nat k) (seq 0 (Z.to_nat (last - first + 1))).

(** [for (int i = first; i <= bound->cpui[0]; i++) body(i)] *)
Definition for_leaves (bound : option Cpuinfo) (first : Z)
    (body : Z -> Vmx unit) : Vmx unit :=
  do c <- deref bound;
  for_each (leaves first (nth 0 (cpui c) 0)) body.

(** [cpu0] and [cpu80] are read again after they were moved into the
    vector; [cpu80] is value-initialized and only its [cpui] is assigned. *)
Definition SaveCpuinfo (mf : MovedFrom) : Vmx unit :=
  do regs <- __cpuid 0;
  let cpu0 := {| index := 0; ecx := 0; cpui := regs |} in
  do _ <- push_back_cpuinfo cpu0;
  let cpu0_ptr := after_move mf (Some cpu0) in
  do _ <- for_leaves cpu0_ptr 1 (fun i =>
            do regs <- __cpuidex i 0;
            push_back_cpuinfo {| index := i; ecx := 0; cpui := regs |});
  do regs <- __cpuid (int32 0x80000000);
  let cpu80 := {| index := 0; ecx := 0; cpui := regs |} in
  do _ <- push_back_cpuinfo cpu80;
  let cpu80_ptr := after_move mf (Some cpu80) in
  do _ <- for_leaves cpu80_ptr (int32 0x80000001) (fun i =>
            do regs <- __cpuidex i 0;
            push_back_cpuinfo {| index := i; ecx := 0; cpui := regs |});
  for_each [1; 2; 3] (fun i =>
    do regs <- __cpuidex 4 i;
    push_back_cpuinfo {| index := 4; ecx := i; cpui := regs |}).

Definition FpfindCpuid (index_ subfun : Z) : Vmx (option (list Z)) :=
  do shared <- get_shared;
  do sh <- deref shared;
  if index_ =? 4 then
    ret (cpui <$> List.find (fun c => (index c =? 4) && (ecx c =? subfun))
                            (cpuinfo sh))
  else
    ret (cpui <$> List.find (fun c => index c =? index_) (cpuinfo sh)).

Definition FpHandleCpuid (index_ subfun : Z) : Vmx (option (list Z)) :=
  FpfindCpuid index_ subfun.

(** ** A scenario

    One guest process, paging context [space_A], whose virtual page 1 is
    backed by frame 0x55.  The live page is zero but for a patch byte 0xCC at
    its start; at 0x7000 lies the record handed to the create call
    (start address 0x1000, 32 original bytes, all zero). *)

Definition space_A : Z := 0x1AB000.
Definition space_vmm : Z := 0x1AA000.

Definition scenario_tables (root vpn : Z) : Z :=
  if (root =? space_A) && (vpn =? 1) then 0x55 else vpn.

Definition scenario_memory (pa : Z) : Z :=
  if pa =? 0x55000 then 0xCC
  else if pa =? 0x7001 then 0x10
  else if pa =? 0x7008 then 0x20
  else 0.

Definition scenario_cpuid (leaf subleaf : Z) : list Z :=
  if leaf =? 0 then [2; 10; 11; 12]
  else if leaf =? int32 0x80000000 then [int32 0x80000001; 20; 21; 22]
  else [leaf; subleaf; 0; 0].

Definition qualification (r w x er ew ex tr : bool) : EptViolationQualification :=
  {| qual_read_access := r; qual_write_access := w; qual_execute_access := x;
     ept_readable := er; ept_writeable := ew; ept_executable := ex;
     caused_by_translation := tr |}.

(** The processor takes a VM exit: the hardware fills in the qualification. *)
Definition vm_exit (q : EptViolationQualification) (m : Machine) : Machine :=
  {| cr3 := cr3 m; cr0 := cr0 m; kGuestCr3 := kGuestCr3 m;
     kExitQualification := q;
     kCpuBasedVmExecControl := kCpuBasedVmExecControl m;
     host_cpuid := host_cpuid m; page_tables := page_tables m;
     present := present m;
     memory := memory m; pool := pool m; pool_free := pool_free m;
     pool_va := pool_va m; ept_data := ept_data m; journal := journal m;
     shared_fp_data := shared_fp_data m;
     processor_fp_data := processor_fp_data m |}.

Definition boot : Machine :=
  {| cr3 := space_vmm;
     cr0 := {| wp := true; cr0_other := 0x80050033 |};
     kGuestCr3 := space_A;
     kExitQualification := qualification false false false false false false false;
     kCpuBasedVmExecControl :=
       {| monitor_trap_flag := false; procctl_other := 0 |};
     host_cpuid := scenario_cpuid;
     page_tables := scenario_tables;
     present := fun _ _ => true;
     memory := scenario_memory;
     pool := ∅;
     pool_free := 4%nat;
     pool_va := fun p => 0xFFFF800000000000 + PAGE_SIZE * Z.of_nat p;
     ept_data := fun pfn =>
       {| read_access := true; write_access := true; execute_access := true;
          physial_address := pfn |};
     journal := [];
     shared_fp_data := Some FpAllocateSharedProcessorData;
     processor_fp_data := {| last_fp_data := None; fault_va := 0 |} |}.

(** After the create call, and after the enable call that follows it. *)
Definition created : Machine := final (FpVmCallCreateFakePage 0x7000 boot).
Definition enabled : Machine := final (FpVmCallEnableFakePages created).

(** The entry the create call made. *)
Definition scenario_entry : FakePageData :=
  {| patch_address := 0x1000;
     target_cr3 := space_A;
     shadow_page_base_for_exec := 0%nat;
     pa_base_for_rw := 0x55000;
     pa_base_for_exec := 0xFFFF800000000000;
     original_bytes := repeat 0 32 |}.

Definition scenario_registry : SharedFakePageData :=
  {| cpuinfo := []; all_fp_data := [scenario_entry] |}.

(** The shadow page the create call filled: the live page, byte for byte. *)
Definition scenario_block : Z -> Z :=
  fun i =>
    if (0 <=? i) && (i <? 0 + PAGE_SIZE)
    then scenario_memory
           (translate scenario_tables space_A (wrap64 (0x1000 + (i - 0))))
    else 0.

(** VM exits on the shadowed page, once it is enabled: a data write, a
    read by the instruction being fetched, a fetch that missed the
    translation. *)
Definition on_write : Machine :=
  vm_exit (qualification false true false false false true true) enabled.
Definition on_translation_miss : Machine :=
  vm_exit (qualification false false true false false true false) enabled.

(** The CPUID cache filled at boot, in a build that still reaches a moved
    object. *)
Definition cached : Machine := final (SaveCpuinfo MovedStale boot).

(** The page once the write was let through, and the fetch that follows. *)
Definition overridden : Machine :=
  final (FpHandleEptViolation 0x1000 0x55000 on_write).
Definition on_fetch : Machine :=
  vm_exit (qualification false false true true true false true) overridden.

(** A data read of the enabled page. *)
Definition on_read : Machine :=
  vm_exit (qualification true false false false false true true) enabled.

(** ** Reasoning about computations *)

(** [keeps f c]: the computation [c] leaves the component [f] of the
    machine as it found it, however it ends. *)
Definition keeps {A X} (f : Machine -> X) (c : Vmx A) : Prop :=
  forall m, f (final (c m)) = f m.

(** [steady I c]: [c] keeps the invariant [I] when it returns, and stops on
    an invalid access only. *)
Definition steady {A} (I : Machine -> Prop) (c : Vmx A) : Prop :=
  forall m, I m ->
    match c m with
    | Done _ m' => I m'
    | Halt why _ => why = InvalidAccess
    end.

(** Does the journal end with second-level stores that no invalidation
    followed? *)
Definition stale (j : list EptEvent) : bool :=
  match j with
  | [] => false
  | EvInvept :: _ => false
  | EvEptStore _ :: _ => true
  end.

(** Guest memory after [RtlCopyMemory] wrote [bytes] from [dst] on, through
    the translation [tr]. *)
Fixpoint poke (tr : Z -> Z) (mem : Z -> Z) (dst : Z) (bytes : list Z) : Z -> Z :=
  match bytes with
  | [] => mem
  | b :: rest =>
      poke tr (fun a => if a =? tr dst then b else mem a) (wrap64 (dst + 1)) rest
  end.

(** How many global invalidations the journal holds. *)
Fixpoint invalidations (j : list EptEvent) : nat :=
  match j with
  | [] => 0
  | EvInvept :: j' => S (invalidations j')
  | EvEptStore _ :: j' => invalidations j'
  end.

(** The start address in the record the create call is handed, read in the
    address space of the requester. *)
Definition requested_address (context : Z) (m : Machine) : Z :=
  le_decode (take 8 (peek_bytes (set_cr3 (kGuestCr3 m) m) context 48)).

(** The addresses of guest memory the patch of an entry occupies. *)
Definition lands (tables : Z -> Z -> Z) (fp_data : FakePageData) (pa : Z) : Prop :=
  exists i, 0 <= i < 32
            /\ translate tables (target_cr3 fp_data)
                 (wrap64 (patch_address fp_data + i)) = pa.


(** The entry points of the file, as the exit dispatch of the hypervisor
    calls them on one processor. *)
Inductive Call :=
| CallCreate (context : Z)
| CallEnable
| CallDisable
| CallDelete
| CallViolation (fault_va fault_pa : Z)
| CallTrap.

Definition handle (c : Call) : Vmx unit :=
  match c with
  | CallCreate context => do _ <- FpVmCallCreateFakePage context; ret tt
  | CallEnable => do _ <- FpVmCallEnableFakePages; ret tt
  | CallDisable => FpVmCallDisableFakePages
  | CallDelete => FpVmCallDeleteFakePages
  | CallViolation fault_va fault_pa => FpHandleEptViolation fault_va fault_pa
  | CallTrap => FpHandleMonitorTrapFlag
  end.




(** The entry of the second-level table for the page of [fp_data]. *)
Definition entry_of (fp_data : FakePageData) (m : Machine) : EptCommonEntry :=
  ept_data m (EptGetEptPtEntry (pa_base_for_rw fp_data)).

Definition pending (m : Machine) : option FakePageData :=
  last_fp_data (processor_fp_data m).

(** ** More vocabulary for the properties *)

(** The entry the dispatcher takes for a violation at [fault_pa]: none when
    the engine is not active. *)
Definition registered (fault_pa : Z) (m : Machine) : option FakePageData :=
  match shared_fp_data m with
  | None => None
  | Some sh =>
      List.find
        (fun fp_data =>
           Z.shiftr (pa_base_for_rw fp_data) 12 =? Z.shiftr fault_pa 12)
        (all_fp_data sh)
  end.

(** An entry whose patch starts sixteen bytes before the end of its page, in
    the registry of the scenario; and a fetch from that page. *)
Definition late_entry : FakePageData :=
  {| patch_address := 0x1FF0;
     target_cr3 := space_A;
     shadow_page_base_for_exec := 0%nat;
     pa_base_for_rw := 0x55000;
     pa_base_for_exec := 0xFFFF800000000000;
     original_bytes := repeat 0 32 |}.

Definition late : Machine :=
  set_shared (Some {| cpuinfo := []; all_fp_data := [late_entry] |}) created.

Definition on_late_fetch : Machine :=
  vm_exit (qualification false false true true true false true) late.

(** The frame the page tables give the page of an entry. *)
Definition frame_of (tables : Z -> Z -> Z) (fp_data : FakePageData) : Z :=
  tables (target_cr3 fp_data) (Z.shiftr (patch_address fp_data) PAGE_SHIFT).

(** The guest is resumed in the address space [guest_cr3]: the calls it
    makes next find that value in the guest CR3 field. *)
Definition resumed_in (guest_cr3 : Z) (m : Machine) : Machine :=
  {| cr3 := cr3 m; cr0 := cr0 m; kGuestCr3 := guest_cr3;
     kExitQualification := kExitQualification m;
     kCpuBasedVmExecControl := kCpuBasedVmExecControl m;
     host_cpuid := host_cpuid m; page_tables := page_tables m;
     present := present m;
     memory := memory m; pool := pool m; pool_free := pool_free m;
     pool_va := pool_va m; ept_data := ept_data m; journal := journal m;
     shared_fp_data := shared_fp_data m;
     processor_fp_data := processor_fp_data m |}.

(** The registry is well formed: every entry holds a page of the pool and 32
    original bytes, and two entries hold the same page exactly when they are
    on the same page of the same address space. *)
Definition well_formed (m : Machine) : Prop :=
  forall sh, shared_fp_data m = Some sh ->
    forall fp_data, In fp_data (all_fp_data sh) ->
      is_set (pool m !! shadow_page_base_for_exec fp_data) = true
      /\ length (original_bytes fp_data) = 32%nat
      /\ forall other, In other (all_fp_data sh) ->
           shadow_page_base_for_exec other = shadow_page_base_for_exec fp_data
           <-> target_cr3 other = target_cr3 fp_data
               /\ PAGE_ALIGN (patch_address other)
                  = PAGE_ALIGN (patch_address fp_data).

(** The writes [RtlCopyMemory] makes onto guest memory, in order: address
    and byte. *)
Fixpoint writes_of (tr : Z -> Z) (dst : Z) (bytes : list Z) : list (Z * Z) :=
  match bytes with
  | [] => []
  | b :: rest => (tr dst, b) :: writes_of tr (wrap64 (dst + 1)) rest
  end.

Definition apply_writes (ws : list (Z * Z)) (mem : Z -> Z) : Z -> Z :=
  fold_left (fun mem w a => if a =? fst w then snd w else mem a) ws mem.

(** The last entry of the address space [A] in the registry whose page has
    the frame [k]. *)
Definition last_on (A : Z) (tables : Z -> Z -> Z) (k : Z)
    (l : list FakePageData) : option FakePageData :=
  List.find (fun fp_data =>
               (target_cr3 fp_data =? A) && (k =? frame_of tables fp_data))
            (rev l).

(** The bytes the disable call copies for an entry: what its shadow page
    holds at the offset of the patch. *)
Definition patch_bytes (m : Machine) (fp_data : FakePageData) : list Z :=
  match pool m !! shadow_page_base_for_exec fp_data with
  | Some block =>
      map (fun i => block (BYTE_OFFSET (patch_address fp_data) + Z.of_nat i))
          (seq 0 32)
  | None => []
  end.






(** * Properties *)

(** ** The scenario, run

    The create call copies the live page; the enable call puts the original
    bytes back on the live page and leaves the page execute-only on the
    shadow page, which carries the patch; a data read is then let through to
    the original page, which shows the original byte. *)
Example scenario_run :
  result (FpVmCallCreateFakePage 0x7000 boot) = Some true
  /\ shared_fp_data created = Some scenario_registry
  /\ result (FpVmCallEnableFakePages created) = Some STATUS_SUCCESS
  /\ memory created 0x55000 = 0xCC
  /\ memory enabled 0x55000 = 0
  /\ entry_of scenario_entry enabled
     = {| read_access := false; write_access := false; execute_access := true;
          physial_address := UtilPfnFromPa (pa_base_for_exec scenario_entry) |}
  /\ (fun block => block 0) <$> pool enabled !! 0%nat = Some 0xCC
  /\ returns (FpHandleEptViolation 0x1000 0x55000 on_read) = true
  /\ entry_of scenario_entry (final (FpHandleEptViolation 0x1000 0x55000 on_read))
     = {| read_access := true; write_access := false; execute_access := false;
          physial_address := UtilPfnFromPa (pa_base_for_rw scenario_entry) |}
  /\ result (FpVmCallDisableFakePages enabled) = Some tt
  /\ memory (final (FpVmCallDisableFakePages enabled)) 0x55000 = 0xCC.
Proof. vm_compute. repeat split. Qed.

(** ** Page arithmetic *)

Lemma BYTE_OFFSET_mod va : BYTE_OFFSET va = va mod PAGE_SIZE.
Proof.
  unfold BYTE_OFFSET, PAGE_SIZE.
  change (4096 - 1) with (Z.ones 12). now rewrite Z.land_ones.
Qed.

Lemma PAGE_ALIGN_div va : PAGE_ALIGN va = PAGE_SIZE * (va / PAGE_SIZE).
Proof.
  unfold PAGE_ALIGN, PAGE_SIZE.
  change (4096 - 1) with (Z.ones 12).
  change (Z.land va (Z.lnot (Z.ones 12))) with (Z.ldiff va (Z.ones 12)).
  rewrite Z.ldiff_ones_r by lia.
  rewrite Z.shiftl_mul_pow2, Z.shiftr_div_pow2 by lia.
  change (2 ^ 12) with 4096. lia.
Qed.

Lemma BYTE_OFFSET_range va : 0 <= BYTE_OFFSET va < PAGE_SIZE.
Proof. rewrite BYTE_OFFSET_mod. apply Z.mod_pos_bound. reflexivity. Qed.

Lemma PAGE_ALIGN_plus_offset va : PAGE_ALIGN va + BYTE_OFFSET va = va.
Proof.
  rewrite PAGE_ALIGN_div, BYTE_OFFSET_mod.
  symmetry. apply Z.div_mod. discriminate.
Qed.

Lemma wrap64_small z : 0 <= z < 2 ^ 64 -> wrap64 z = z.
Proof. intros H. unfold wrap64. now apply Z.mod_small. Qed.

Lemma wrap64_wrap64_plus a b : wrap64 (wrap64 a + b) = wrap64 (a + b).
Proof. unfold wrap64. now rewrite Zplus_mod_idemp_l. Qed.

Lemma int32_small z : - 2 ^ 31 <= z < 2 ^ 31 -> int32 z = z.
Proof. intros H. unfold int32. rewrite Z.mod_small; lia. Qed.

(** ** Outcomes *)

Lemma returned_final (o : Outcome unit) :
  returns o = true -> o = Done tt (final o).
Proof. destruct o as [[] m|why m]; [reflexivity | discriminate]. Defined.


(** ** Frame rules *)

Lemma keeps_ret {A X} (f : Machine -> X) (a : A) : keeps f (ret a).
Proof. intros m. reflexivity. Qed.

Lemma keeps_halt {A X} (f : Machine -> X) why : keeps f (@halt A why).
Proof. intros m. reflexivity. Qed.

Lemma keeps_bind {A B X} (f : Machine -> X) (c : Vmx A) (k : A -> Vmx B) :
  keeps f c -> (forall a, keeps f (k a)) -> keeps f (bind c k).
Proof.
  intros Hc Hk m. unfold bind. specialize (Hc m).
  destruct (c m) as [a m'|why m']; simpl in *.
  - now rewrite Hk.
  - exact Hc.
Qed.

Lemma keeps_for_each {A X} (f : Machine -> X) (l : list A) body :
  (forall x, keeps f (body x)) -> keeps f (for_each l body).
Proof.
  intros Hb. induction l as [|x l IH]; simpl.
  - apply keeps_ret.
  - apply keeps_bind; auto.
Qed.

Lemma steady_ret {A} (I : Machine -> Prop) (a : A) : steady I (ret a).
Proof. intros m Hm. exact Hm. Qed.

Lemma steady_for_each {A} (I : Machine -> Prop) (l : list A) body :
  (forall x, steady I (body x)) -> steady I (for_each l body).
Proof.
  intros Hb. induction l as [|x l IH]; simpl.
  - apply steady_ret.
  - intros m Hm. unfold bind. specialize (Hb x m Hm).
    destruct (body x m) as [[] m'|why m']; [now apply IH | exact Hb].
Qed.

Create HintDb vmx discriminated.

#[global] Hint Unfold
  NT_ASSERT NT_VERIFY deref deref_entry FppSetMonitorTrapFlag
  FppSaveLastFakePageData
  FppRestoreLastFakePageData FppFindFakePageDataByPage
  FppFindFakePageDataByPPage FppEnableFakePageForExec FppEnableFakePageForRw
  FppDisableFakePage FpHandleMonitorTrapFlag
  FpHandleEptViolation FppCreateFakePageData FpVmCallCreateFakePage
  FpVmCallEnableFakePages FpVmCallDisableFakePages FpVmCallDeleteFakePages
  shadowing unshadowing push_back_cpuinfo for_leaves SaveCpuinfo FpfindCpuid FpHandleCpuid
  __cpuid : vmx.

Create HintDb vmx_blocks discriminated.

#[global] Hint Unfold resynchronize : vmx_blocks.

(** A primitive keeps whatever it does not write: by computation, after the
    cases of its own tests. *)
Ltac keeps_primitive :=
  let m := fresh "m" in
  intros m;
  first
    [ reflexivity
    | cbv [RtlCopyMemory_to_page page_bytes new_Page Page_destroy load final];
      repeat match goal with
             | |- context [pool ?m !! ?p] => destruct (pool m !! p)
             | |- context [match pool_free ?m with O => _ | S _ => _ end] =>
                 destruct (pool_free m) eqn:?
             | |- context [if ?b then _ else _] => destruct b
             end;
      reflexivity ].

Ltac keeps_step :=
  first
    [ apply keeps_ret
    | apply keeps_halt
    | apply keeps_bind; [| intros ?]
    | apply keeps_for_each; intros ?
    | match goal with
      | |- keeps _ (if ?b then _ else _) => destruct b
      | |- keeps _ (match ?x with _ => _ end) => destruct x
      end
    | progress autounfold with vmx
    | progress autounfold with vmx_blocks
    | progress cbv beta zeta ].

Lemma keeps_RtlCopyMemory_to_guest {X} (f : Machine -> X) dst bytes :
  (forall v m, f (set_memory v m) = f m) ->
  keeps f (RtlCopyMemory_to_guest dst bytes).
Proof.
  intros Hf. revert dst. induction bytes as [|b bytes IH]; intros dst; simpl.
  - apply keeps_ret.
  - apply keeps_bind; [| intros; apply IH].
    intros m. simpl. apply Hf.
Qed.

Ltac frame :=
  repeat keeps_step;
  try (apply keeps_RtlCopyMemory_to_guest; reflexivity);
  try keeps_primitive.

(** ** The registry is written by the create and delete calls only *)

Lemma handlers_keep_registry :
  (forall fault_va fault_pa,
      keeps shared_fp_data (FpHandleEptViolation fault_va fault_pa))
  /\ keeps shared_fp_data FpHandleMonitorTrapFlag
  /\ keeps shared_fp_data FpVmCallEnableFakePages
  /\ keeps shared_fp_data FpVmCallDisableFakePages.
Proof. repeat split; intros; frame. Qed.

(** What the two handlers never write. *)
Definition untouched_by_handlers (m : Machine) :=
  (memory m, page_tables m, cr0 m, kGuestCr3 m, kExitQualification m,
   pool_free m, host_cpuid m).

Lemma handlers_keep_the_rest :
  (forall fault_va fault_pa,
      keeps untouched_by_handlers (FpHandleEptViolation fault_va fault_pa))
  /\ keeps untouched_by_handlers FpHandleMonitorTrapFlag.
Proof. unfold untouched_by_handlers. split; intros; frame. Qed.

Lemma create_data_keeps_registry context :
  keeps shared_fp_data (FppCreateFakePageData context).
Proof. frame. Qed.

Lemma destroy_keeps_registry l :
  keeps shared_fp_data (for_each l Page_destroy).
Proof. frame. Qed.

(** C10. The two handlers, and the enable and disable calls, leave the shared
    data block (the registry with every field of every entry) exactly as it
    was, however they end; the handlers also leave guest memory, the page
    tables, CR0, the guest CR3 and the count of free pool pages, so that only
    the bytes of shadow pages, the second-level table and the trap state of
    the processor are theirs to change.  The create call, when it returns,
    has appended one entry and changed nothing else of the registry, and has
    not touched it when it stops; the delete call leaves the entries of the
    other address spaces, in their order. *)
Theorem C10_registry_frame :
  (forall fault_va fault_pa m,
      shared_fp_data (final (FpHandleEptViolation fault_va fault_pa m))
      = shared_fp_data m
      /\ untouched_by_handlers (final (FpHandleEptViolation fault_va fault_pa m))
         = untouched_by_handlers m)
  /\ (forall m,
      shared_fp_data (final (FpHandleMonitorTrapFlag m)) = shared_fp_data m
      /\ untouched_by_handlers (final (FpHandleMonitorTrapFlag m))
         = untouched_by_handlers m)
  /\ (forall m,
      shared_fp_data (final (FpVmCallEnableFakePages m)) = shared_fp_data m)
  /\ (forall m,
      shared_fp_data (final (FpVmCallDisableFakePages m)) = shared_fp_data m)
  /\ (forall context m,
      match FpVmCallCreateFakePage context m with
      | Done _ m' =>
          exists sh fp_data,
            shared_fp_data m = Some sh
            /\ shared_fp_data m'
               = Some {| cpuinfo := cpuinfo sh;
                         all_fp_data := all_fp_data sh ++ [fp_data] |}
      | Halt _ m' => shared_fp_data m' = shared_fp_data m
      end)
  /\ (forall m,
      shared_fp_data (final (FpVmCallDeleteFakePages m))
      = match shared_fp_data m with
        | Some sh =>
            Some {| cpuinfo := cpuinfo sh;
                    all_fp_data :=
                      filter (fun fp_data => target_cr3 fp_data ≠ kGuestCr3 m)
                             (all_fp_data sh) |}
        | None => None
        end).
Proof.
  destruct handlers_keep_registry as (Hv & Ht & He & Hd).
  destruct handlers_keep_the_rest as (Hv' & Ht').
  split; [intros; split; [apply Hv | apply Hv'] |].
  split; [intros; split; [apply Ht | apply Ht'] |].
  split; [exact He |]. split; [exact Hd |]. split.
  - intros context m.
    pose proof (create_data_keeps_registry context m) as Hc.
    unfold FpVmCallCreateFakePage, bind at 1.
    destruct (FppCreateFakePageData context m) as [fp_data m1|why m1];
      simpl in Hc; [| exact Hc].
    unfold bind, get_shared, deref. rewrite Hc.
    destruct (shared_fp_data m) as [sh|]; simpl; eauto.
  - intros m. unfold FpVmCallDeleteFakePages, bind, UtilVmRead_kGuestCr3,
      get_shared, deref.
    destruct (shared_fp_data m) as [sh|] eqn:Hsh; simpl; [| exact Hsh].
    match goal with
    | |- context [for_each ?l Page_destroy ?m1] =>
        pose proof (destroy_keeps_registry l m1) as Hk;
        destruct (for_each l Page_destroy m1); exact Hk
    end.
Qed.

(** ** Running a handler by hand *)

Lemma RtlCopyMemory_to_guest_eq bytes : forall dst m,
  RtlCopyMemory_to_guest dst bytes m
  = Done tt (set_memory
               (poke (translate (page_tables m) (cr3 m)) (memory m) dst bytes) m).
Proof.
  induction bytes as [|b bytes IH]; intros dst m; simpl.
  - now destruct m.
  - unfold bind, store. now rewrite IH.
Qed.

(** Simplification leaves the arithmetic and the named blocks folded. *)
#[local] Arguments RtlCopyMemory_to_guest : simpl never.
#[local] Arguments resynchronize : simpl never.
#[local] Arguments shadowing : simpl never.
#[local] Arguments unshadowing : simpl never.
#[local] Arguments for_each : simpl never.
#[local] Arguments poke : simpl never.
#[local] Arguments peek_bytes : simpl never.
#[local] Arguments PAGE_ALIGN : simpl never.
#[local] Arguments BYTE_OFFSET : simpl never.
#[local] Arguments wrap64 : simpl never.
#[local] Arguments int32 : simpl never.
#[local] Arguments translate : simpl never.
#[local] Arguments UtilPfnFromPa : simpl never.
#[local] Arguments EptGetEptPtEntry : simpl never.
#[local] Arguments Z.to_nat : simpl never.
#[local] Arguments Z.of_nat : simpl never.
#[local] Arguments Z.add : simpl never.
#[local] Arguments Z.sub : simpl never.
#[local] Arguments Z.leb : simpl never.
#[local] Arguments Z.ltb : simpl never.
#[local] Arguments Z.eqb : simpl never.

Ltac crunch :=
  autounfold with vmx;
  cbv [bind ret halt get_shared put_shared get_processor put_processor
       __readcr3 __writecr3 __readcr0 __writecr0 __cpuidex
       UtilVmRead_kGuestCr3 UtilVmRead_kExitQualification
       UtilVmRead_kCpuBasedVmExecControl UtilVmWrite_kCpuBasedVmExecControl
       UtilPaFromVa ept_store ept_load UtilInveptGlobal load store
       RtlCopyMemory_from_guest RtlCopyMemory_to_page page_bytes new_Page
       FppIsFuActive is_set];
  cbn;
  rewrite ?RtlCopyMemory_to_guest_eq;
  cbn.

(** Case analysis on a test of the code whose subject has no test inside. *)
Ltac bool_leaf x :=
  lazymatch x with
  | negb ?y => bool_leaf y
  | ?a && _ => bool_leaf a
  | ?a || _ => bool_leaf a
  | _ => destruct x eqn:?
  end.

Ltac inner_case :=
  match goal with
  | |- context [match ?x with _ => _ end] =>
      lazymatch x with
      | context [match _ with _ => _ end] => fail
      | _ => bool_leaf x
      end
  end.

(** The copy of the dispatcher writes the pool only, and stops only on an
    invalid access, inside the paging context of the entry. *)
Lemma resynchronize_frame fp_data m :
  match resynchronize fp_data m with
  | Done _ m' => exists pl, m' = set_pool pl (pool_free m) m
  | Halt why m' =>
      why = InvalidAccess
      /\ exists pl,
           m' = set_pool pl (pool_free m) (set_cr3 (target_cr3 fp_data) m)
  end.
Proof.
  unfold resynchronize.
  cbv [bind __readcr3 __writecr3 RtlCopyMemory_to_page]. cbn.
  destruct (pool m !! shadow_page_base_for_exec fp_data) as [block|];
    [| split; [| exists (pool m)]; reflexivity].
  destruct (_ && _); cbn; [| split; [| exists (pool m)]; reflexivity].
  rewrite lookup_insert_eq.
  destruct (_ && _); cbn; [| split; [| eexists]; reflexivity].
  eexists; reflexivity.
Qed.

Ltac resynchronize_case :=
  match goal with
  | |- context [resynchronize ?fp ?m] =>
      let H := fresh in
      pose proof (resynchronize_frame fp m) as H;
      destruct (resynchronize fp m) as [[] ?|? ?];
      [ destruct H as [? ->] | destruct H as [-> [? ->]] ]
  end.

Ltac cases :=
  repeat (first [ rewrite lookup_insert_eq
                | rewrite RtlCopyMemory_to_guest_eq
                | rewrite Z.eqb_refl
                | resynchronize_case
                | inner_case ];
          cbn; rewrite ?RtlCopyMemory_to_guest_eq; cbn; try done).

(** ** The paging context and the write protection come back *)

(** [f] is back at its value when [c] returns, and when [c] stops on an
    assertion or a bug check. *)
Definition restores {A X} (f : Machine -> X) (c : Vmx A) : Prop :=
  forall m,
    match c m with
    | Done _ m' => f m' = f m
    | Halt why m' => why <> InvalidAccess -> f m' = f m
    end.

Lemma shadowing_steady (requester_cr3 v : Z) c fp_data :
  steady (fun m => cr3 m = v /\ cr0 m = c) (shadowing requester_cr3 v fp_data).
Proof. intros m [H1 H2]. crunch. cases. Qed.

Lemma unshadowing_steady (requester_cr3 v : Z) c fp_data :
  steady (fun m => cr3 m = v /\ cr0 m = c) (unshadowing requester_cr3 v fp_data).
Proof. intros m [H1 H2]. crunch. cases. Qed.

Ltac enter_loop I body_steady :=
  match goal with
  | |- context [for_each ?l ?body ?m1] =>
      let Hl := fresh "Hl" in
      assert (Hl := steady_for_each I l body body_steady m1);
      cbn in Hl;
      destruct (for_each l body m1) as [[] ?m|?why ?m]
  end.

Lemma enable_outcome m :
  match FpVmCallEnableFakePages m with
  | Done _ m' => cr3 m' = cr3 m /\ cr0 m' = cr0 m
  | Halt why _ => why = InvalidAccess
  end.
Proof.
  unfold FpVmCallEnableFakePages.
  cbv [bind UtilVmRead_kGuestCr3 __readcr3 __readcr0 __writecr0 get_shared
       deref ret halt].
  cbn. destruct (shared_fp_data m) as [sh|]; cbn; [| done].
  enter_loop
    (fun m' => cr3 m' = cr3 m
               /\ cr0 m' = {| wp := false; cr0_other := cr0_other (cr0 m) |})
    (shadowing_steady (kGuestCr3 m) (cr3 m)
       {| wp := false; cr0_other := cr0_other (cr0 m) |});
    cbn; intuition.
Qed.

Lemma disable_outcome m :
  match FpVmCallDisableFakePages m with
  | Done _ m' => cr3 m' = cr3 m /\ cr0 m' = cr0 m
  | Halt why _ => why = InvalidAccess
  end.
Proof.
  unfold FpVmCallDisableFakePages.
  cbv [bind UtilVmRead_kGuestCr3 __readcr3 __readcr0 __writecr0 get_shared
       deref ret halt].
  cbn. destruct (shared_fp_data m) as [sh|]; cbn; [| done].
  enter_loop
    (fun m' => cr3 m' = cr3 m
               /\ cr0 m' = {| wp := false; cr0_other := cr0_other (cr0 m) |})
    (unshadowing_steady (kGuestCr3 m) (cr3 m)
       {| wp := false; cr0_other := cr0_other (cr0 m) |});
    cbn; intuition.
Qed.

(** C9. Each operation that switches the paging context has the value of CR3
    it found back in place when it returns, and also when it stops on an
    assertion or on the bug check of a failed allocation: the create call and
    its helper, the enable and disable calls, the violation dispatcher and
    the single-step handler.  The enable and disable calls have the value of
    CR0 back as well. *)
Theorem C9_paging_context_restored :
  (forall context, restores cr3 (FppCreateFakePageData context))
  /\ (forall context, restores cr3 (FpVmCallCreateFakePage context))
  /\ restores cr3 FpVmCallEnableFakePages
  /\ restores cr0 FpVmCallEnableFakePages
  /\ restores cr3 FpVmCallDisableFakePages
  /\ restores cr0 FpVmCallDisableFakePages
  /\ (forall fault_va fault_pa,
        restores cr3 (FpHandleEptViolation fault_va fault_pa))
  /\ restores cr3 FpHandleMonitorTrapFlag.
Proof.
  repeat split; intros; intros m;
    try (pose proof (enable_outcome m) as H;
         destruct (FpVmCallEnableFakePages m); intuition fail);
    try (pose proof (disable_outcome m) as H;
         destruct (FpVmCallDisableFakePages m); intuition fail);
    crunch; cases.
Qed.


(** ** The copy that resynchronizes the shadow page *)

Lemma resynchronize_lengths va :
  let off := BYTE_OFFSET va in
  int32 (wrap64 (va - PAGE_ALIGN va)) = off
  /\ wrap64 off = off
  /\ (off <= PAGE_SIZE - 32 ->
      int32 (wrap64 (PAGE_SIZE - off - original_bytes_size)) = PAGE_SIZE - 32 - off
      /\ wrap64 (PAGE_SIZE - 32 - off) = PAGE_SIZE - 32 - off).
Proof.
  intros off. pose proof (BYTE_OFFSET_range va) as Hr. fold off in Hr.
  pose proof (PAGE_ALIGN_plus_offset va) as Hs. fold off in Hs.
  unfold PAGE_SIZE, original_bytes_size in *.
  replace (va - PAGE_ALIGN va) with off by lia.
  repeat split; intros;
    rewrite ?wrap64_small, ?int32_small; lia.
Qed.

Lemma PAGE_ALIGN_bounds va :
  0 <= va < 2 ^ 64 -> 0 <= PAGE_ALIGN va /\ PAGE_ALIGN va + PAGE_SIZE <= 2 ^ 64.
Proof.
  intros Hva. rewrite PAGE_ALIGN_div. unfold PAGE_SIZE.
  assert (0 <= va / 4096 < 2 ^ 52).
  { split; [apply Z.div_pos; lia |].
    apply Z.div_lt_upper_bound; [lia |]. change (4096 * 2 ^ 52) with (2 ^ 64). lia. }
  change (2 ^ 64) with (4096 * 2 ^ 52). lia.
Qed.

Lemma resynchronize_ok fp_data m block :
  let off := BYTE_OFFSET (patch_address fp_data) in
  pool m !! shadow_page_base_for_exec fp_data = Some block ->
  off <= PAGE_SIZE - 32 ->
  exists block',
    resynchronize fp_data m
    = Done tt (set_pool (<[shadow_page_base_for_exec fp_data := block']> (pool m))
                        (pool_free m) m)
    /\ (forall i, off <= i < off + 32 -> block' i = block i)
    /\ (0 <= patch_address fp_data < 2 ^ 64 ->
        forall i, 0 <= i < PAGE_SIZE -> ~ off <= i < off + 32 ->
          block' i = memory m (translate (page_tables m) (target_cr3 fp_data)
                                 (PAGE_ALIGN (patch_address fp_data) + i))).
Proof.
  intros off Hpool Hoff.
  destruct (resynchronize_lengths (patch_address fp_data)) as (E1 & E2 & E3).
  destruct (E3 Hoff) as [E4 E5]. clear E3. fold off in E1, E2, E4, E5.
  pose proof (BYTE_OFFSET_range (patch_address fp_data)) as Hr. fold off in Hr.
  unfold resynchronize. rewrite E1, E2, E4, E5.
  cbv [bind __readcr3 __writecr3 RtlCopyMemory_to_page]. cbn.
  rewrite Hpool.
  replace ((0 <=? 0) && (0 + off <=? PAGE_SIZE)) with true
    by (symmetry; apply andb_true_iff; split; apply Z.leb_le; lia).
  cbn. rewrite lookup_insert_eq.
  replace ((0 <=? PAGE_SIZE - (PAGE_SIZE - 32 - off))
           && (PAGE_SIZE - (PAGE_SIZE - 32 - off) + (PAGE_SIZE - 32 - off)
               <=? PAGE_SIZE)) with true
    by (symmetry; apply andb_true_iff; split; apply Z.leb_le; lia).
  cbn. rewrite insert_insert_eq.
  eexists. split; [reflexivity |]. cbv beta. split.
  - intros i Hi.
    replace ((PAGE_SIZE - (PAGE_SIZE - 32 - off) <=? i)
             && (i <? PAGE_SIZE - (PAGE_SIZE - 32 - off) + (PAGE_SIZE - 32 - off)))
      with false
      by (symmetry; apply andb_false_iff; left; apply Z.leb_gt; lia).
    replace ((0 <=? i) && (i <? 0 + off)) with false
      by (symmetry; apply andb_false_iff; right; apply Z.ltb_ge; lia).
    reflexivity.
  - intros Hva i Hi Hout. unfold peek. cbn.
    pose proof (PAGE_ALIGN_bounds _ Hva) as Hb.
    pose proof (PAGE_ALIGN_plus_offset (patch_address fp_data)) as Hs.
    fold off in Hs.
    destruct (Z_lt_le_dec i off) as [Hlt|Hge].
    + replace ((PAGE_SIZE - (PAGE_SIZE - 32 - off) <=? i)
               && (i <? PAGE_SIZE - (PAGE_SIZE - 32 - off) + (PAGE_SIZE - 32 - off)))
        with false
        by (symmetry; apply andb_false_iff; left; apply Z.leb_gt; lia).
      replace ((0 <=? i) && (i <? 0 + off)) with true
        by (symmetry; apply andb_true_iff; split;
            [apply Z.leb_le | apply Z.ltb_lt]; lia).
      rewrite wrap64_small by (unfold PAGE_SIZE in *; lia).
      do 2 f_equal. lia.
    + replace ((PAGE_SIZE - (PAGE_SIZE - 32 - off) <=? i)
               && (i <? PAGE_SIZE - (PAGE_SIZE - 32 - off) + (PAGE_SIZE - 32 - off)))
        with true
        by (symmetry; apply andb_true_iff; split;
            [apply Z.leb_le | apply Z.ltb_lt]; lia).
      rewrite wrap64_wrap64_plus.
      rewrite wrap64_small by (unfold PAGE_SIZE, original_bytes_size in *; lia).
      do 2 f_equal. unfold original_bytes_size. lia.
Qed.

(** ** The pending slot of a processor *)






Lemma dispatcher_permissions fault_va fault_pa m sh fp_data :
  shared_fp_data m = Some sh ->
  List.find (fun fp => Z.shiftr (pa_base_for_rw fp) 12 =? Z.shiftr fault_pa 12)
            (all_fp_data sh) = Some fp_data ->
  caused_by_translation (kExitQualification m) = true ->
  let q := kExitQualification m in
  let entry := entry_of fp_data (final (FpHandleEptViolation fault_va fault_pa m)) in
  write_access entry = qual_write_access q
  /\ read_access entry = qual_read_access q || qual_write_access q
  /\ execute_access entry = qual_execute_access q.
Proof.
  intros Hsh Hfind Hcause. unfold entry_of. crunch.
  rewrite Hsh. cbn. rewrite Hfind, Hcause. cbn.
  cases; rewrite ?Z.eqb_refl; cbn; auto.
Qed.









(** ** The permissions the dispatcher grants *)

(** C1, as the code has it.  On a permission-caused violation of a
    registered page the entry of the page gets: write = the attempted write;
    read = the attempted read or the attempted write; execute = the
    attempted execute.  What was granted before is not consulted. *)
Theorem C1_granted_permissions fault_va fault_pa m sh fp_data :
  shared_fp_data m = Some sh ->
  List.find (fun fp => Z.shiftr (pa_base_for_rw fp) 12 =? Z.shiftr fault_pa 12)
            (all_fp_data sh) = Some fp_data ->
  caused_by_translation (kExitQualification m) = true ->
  write_access
    (entry_of fp_data (final (FpHandleEptViolation fault_va fault_pa m)))
  = qual_write_access (kExitQualification m)
  /\ read_access
       (entry_of fp_data (final (FpHandleEptViolation fault_va fault_pa m)))
     = qual_read_access (kExitQualification m)
       || qual_write_access (kExitQualification m)
  /\ execute_access
       (entry_of fp_data (final (FpHandleEptViolation fault_va fault_pa m)))
     = qual_execute_access (kExitQualification m).
Proof. exact (dispatcher_permissions fault_va fault_pa m sh fp_data). Qed.

Lemma C1_granted_permissions_witness :
  write_access
    (entry_of scenario_entry (final (FpHandleEptViolation 0x1000 0x55000 on_write)))
  = true
  /\ read_access
       (entry_of scenario_entry (final (FpHandleEptViolation 0x1000 0x55000 on_write)))
     = true
  /\ execute_access
       (entry_of scenario_entry (final (FpHandleEptViolation 0x1000 0x55000 on_write)))
     = false.
Proof.
  apply (C1_granted_permissions 0x1000 0x55000 on_write
           scenario_registry scenario_entry);
    vm_compute; reflexivity.
Defined.

(** The claim as written fails twice.  A write to the execute-only page:
    read was not granted, the qualification says so, no read was attempted,
    and read is granted.  Then a fetch from the page: write was granted, the
    qualification says so, and write is taken away. *)
Lemma C1_counterexample :
  (shared_fp_data on_write = Some scenario_registry
   /\ List.find (fun fp => Z.shiftr (pa_base_for_rw fp) 12 =? Z.shiftr 0x55000 12)
                (all_fp_data scenario_registry) = Some scenario_entry
   /\ caused_by_translation (kExitQualification on_write) = true
   /\ read_access (entry_of scenario_entry on_write) = false
   /\ ept_readable (kExitQualification on_write) = false
   /\ qual_read_access (kExitQualification on_write) = false
   /\ read_access
        (entry_of scenario_entry
           (final (FpHandleEptViolation 0x1000 0x55000 on_write))) = true)
  /\ (shared_fp_data on_fetch = Some scenario_registry
      /\ caused_by_translation (kExitQualification on_fetch) = true
      /\ write_access (entry_of scenario_entry on_fetch) = true
      /\ ept_writeable (kExitQualification on_fetch) = true
      /\ write_access
           (entry_of scenario_entry
              (final (FpHandleEptViolation 0x1000 0x55000 on_fetch))) = false).
Proof. vm_compute. repeat split. Qed.

(** ** A violation that is not the translation of a linear address *)

(** C3, as the code has it.  When the qualification says the access was not
    the translation of a linear address, the dispatcher points the entry of
    the page at the original page and denies execution; it leaves the read
    and write permissions of the entry as they were, touches no other entry
    and nothing else of the machine but the journal, and returns. *)
Theorem C3_translation_miss_reset fault_va fault_pa m sh fp_data :
  shared_fp_data m = Some sh ->
  List.find (fun fp => Z.shiftr (pa_base_for_rw fp) 12 =? Z.shiftr fault_pa 12)
            (all_fp_data sh) = Some fp_data ->
  caused_by_translation (kExitQualification m) = false ->
  exists m',
    FpHandleEptViolation fault_va fault_pa m = Done tt m'
    /\ entry_of fp_data m'
       = {| read_access := read_access (entry_of fp_data m);
            write_access := write_access (entry_of fp_data m);
            execute_access := false;
            physial_address := UtilPfnFromPa (pa_base_for_rw fp_data) |}
    /\ (forall k, k <> EptGetEptPtEntry (pa_base_for_rw fp_data) ->
          ept_data m' k = ept_data m k)
    /\ pool m' = pool m
    /\ memory m' = memory m
    /\ cr3 m' = cr3 m
    /\ processor_fp_data m' = processor_fp_data m
    /\ kCpuBasedVmExecControl m' = kCpuBasedVmExecControl m
    /\ shared_fp_data m' = shared_fp_data m.
Proof.
  intros Hsh Hfind Hcause. unfold entry_of. crunch.
  rewrite Hsh. cbn. rewrite Hfind, Hcause. cbn.
  eexists. split; [reflexivity |]. cbn. rewrite !Z.eqb_refl. cbn.
  repeat split; auto.
  intros k Hk. apply Z.eqb_neq in Hk. now rewrite Hk.
Qed.

Lemma C3_translation_miss_reset_witness :
  exists m',
    FpHandleEptViolation 0x1000 0x55000 on_translation_miss = Done tt m'
    /\ entry_of scenario_entry m'
       = {| read_access := read_access (entry_of scenario_entry on_translation_miss);
            write_access := write_access (entry_of scenario_entry on_translation_miss);
            execute_access := false;
            physial_address := UtilPfnFromPa (pa_base_for_rw scenario_entry) |}
    /\ (forall k, k <> EptGetEptPtEntry (pa_base_for_rw scenario_entry) ->
          ept_data m' k = ept_data on_translation_miss k)
    /\ pool m' = pool on_translation_miss
    /\ memory m' = memory on_translation_miss
    /\ cr3 m' = cr3 on_translation_miss
    /\ processor_fp_data m' = processor_fp_data on_translation_miss
    /\ kCpuBasedVmExecControl m' = kCpuBasedVmExecControl on_translation_miss
    /\ shared_fp_data m' = shared_fp_data on_translation_miss.
Proof.
  apply (C3_translation_miss_reset 0x1000 0x55000 on_translation_miss
           scenario_registry scenario_entry);
    vm_compute; reflexivity.
Defined.

(** The claim as written fails on the enabled page: the page was execute-only,
    the qualification is a translation miss, and after the dispatcher the
    entry grants neither read nor write. *)
Lemma C3_counterexample :
  shared_fp_data on_translation_miss = Some scenario_registry
  /\ List.find (fun fp => Z.shiftr (pa_base_for_rw fp) 12 =? Z.shiftr 0x55000 12)
               (all_fp_data scenario_registry) = Some scenario_entry
  /\ caused_by_translation (kExitQualification on_translation_miss) = false
  /\ returns (FpHandleEptViolation 0x1000 0x55000 on_translation_miss) = true
  /\ entry_of scenario_entry
       (final (FpHandleEptViolation 0x1000 0x55000 on_translation_miss))
     = {| read_access := false; write_access := false;
          execute_access := false; physial_address := 0x55 |}.
Proof. vm_compute. repeat split. Qed.

(** ** The branch that confirms execution *)

(** C2.  On a permission-caused violation of a registered page with no
    denied read and no denied write, when the patch lies at most
    [PAGE_SIZE - 32] into its page, the dispatcher leaves in the shadow page:
    at every offset outside the 32 patched bytes, the byte of the live page
    at that offset, read in the address space of the entry; at the 32
    patched offsets, what the shadow page held.  The entry of the page is
    backed by the shadow page, and guest memory is as it was. *)
Theorem C2_resynchronization fault_va fault_pa m sh fp_data :
  shared_fp_data m = Some sh ->
  List.find (fun fp => Z.shiftr (pa_base_for_rw fp) 12 =? Z.shiftr fault_pa 12)
            (all_fp_data sh) = Some fp_data ->
  caused_by_translation (kExitQualification m) = true ->
  qual_write_access (kExitQualification m)
  && negb (ept_writeable (kExitQualification m))
  || qual_read_access (kExitQualification m)
     && negb (ept_readable (kExitQualification m)) = false ->
  0 <= patch_address fp_data < 2 ^ 64 ->
  BYTE_OFFSET (patch_address fp_data) <= PAGE_SIZE - 32 ->
  is_set (pool m !! shadow_page_base_for_exec fp_data) = true ->
  exists block block',
    pool m !! shadow_page_base_for_exec fp_data = Some block
    /\ pool (final (FpHandleEptViolation fault_va fault_pa m))
       !! shadow_page_base_for_exec fp_data = Some block'
    /\ (forall i,
          0 <= i < PAGE_SIZE ->
          ~ BYTE_OFFSET (patch_address fp_data) <= i
            < BYTE_OFFSET (patch_address fp_data) + 32 ->
          block' i
          = memory m (translate (page_tables m) (target_cr3 fp_data)
                        (PAGE_ALIGN (patch_address fp_data) + i)))
    /\ (forall i,
          BYTE_OFFSET (patch_address fp_data) <= i
          < BYTE_OFFSET (patch_address fp_data) + 32 ->
          block' i = block i)
    /\ physial_address
         (entry_of fp_data (final (FpHandleEptViolation fault_va fault_pa m)))
       = UtilPfnFromPa (pa_base_for_exec fp_data)
    /\ memory (final (FpHandleEptViolation fault_va fault_pa m)) = memory m
    /\ forall why m',
         FpHandleEptViolation fault_va fault_pa m = Halt why m' ->
         why = AssertionFailure.
Proof.
  intros Hsh Hfind Hcause Hgranted Hva Hoff Hpage.
  destruct (pool m !! shadow_page_base_for_exec fp_data) as [block|] eqn:Hpool;
    [| discriminate].
  unfold entry_of. crunch.
  rewrite Hsh. cbn. rewrite Hfind, Hcause. cbn. rewrite Hgranted. cbn.
  match goal with
  | |- context [resynchronize ?f ?m1] =>
      destruct (resynchronize_ok f m1 block Hpool Hoff)
        as (block' & -> & Hin & Hout)
  end.
  specialize (Hout Hva). cbn in Hout.
  exists block, block'. split; [reflexivity |].
  cbn. rewrite ?lookup_insert_eq, ?Z.eqb_refl. cbn.
  cases; rewrite ?lookup_insert_eq, ?Z.eqb_refl; cbn;
    repeat split; auto; try discriminate;
    intros ? ? [= <- _]; reflexivity.
Qed.

Lemma C2_resynchronization_witness :
  exists block block',
    pool on_fetch !! 0%nat = Some block
    /\ pool (final (FpHandleEptViolation 0x1000 0x55000 on_fetch)) !! 0%nat
       = Some block'
    /\ (forall i,
          0 <= i < PAGE_SIZE ->
          ~ BYTE_OFFSET 0x1000 <= i < BYTE_OFFSET 0x1000 + 32 ->
          block' i
          = memory on_fetch (translate (page_tables on_fetch) space_A
                               (PAGE_ALIGN 0x1000 + i)))
    /\ (forall i,
          BYTE_OFFSET 0x1000 <= i < BYTE_OFFSET 0x1000 + 32 ->
          block' i = block i)
    /\ physial_address
         (entry_of scenario_entry
            (final (FpHandleEptViolation 0x1000 0x55000 on_fetch)))
       = UtilPfnFromPa (pa_base_for_exec scenario_entry)
    /\ memory (final (FpHandleEptViolation 0x1000 0x55000 on_fetch))
       = memory on_fetch
    /\ forall why m',
         FpHandleEptViolation 0x1000 0x55000 on_fetch = Halt why m' ->
         why = AssertionFailure.
Proof.
  apply (C2_resynchronization 0x1000 0x55000 on_fetch
           scenario_registry scenario_entry);
    try (vm_compute; reflexivity).
  - split; [intros H; discriminate H | reflexivity].
  - intros H; vm_compute in H; discriminate H.
Defined.

(** ** Invalidation of cached translations *)

Lemma dispatcher_never_invalidates fault_va fault_pa m :
  invalidations (journal (final (FpHandleEptViolation fault_va fault_pa m)))
  = invalidations (journal m).
Proof. crunch. cases. Qed.

(** The three helpers that write an entry invalidate before they return. *)
Lemma helpers_invalidate fp_data m :
  stale (journal (final (FppEnableFakePageForExec fp_data m))) = false
  /\ stale (journal (final (FppEnableFakePageForRw fp_data m))) = false
  /\ stale (journal (final (FppDisableFakePage fp_data m))) = false.
Proof. repeat split. Qed.

(** C7 fails in the dispatcher.  The dispatcher never issues a global
    invalidation, whatever it does to the entry.  In the scenario, a write to
    the enabled page: the journal held no store without invalidation; the
    dispatcher returns, having moved the page from the shadow frame to the
    original frame and granted read and write; the stores are the last
    events of the journal.  The helpers [FppEnableFakePageForExec],
    [FppEnableFakePageForRw] and [FppDisableFakePage] all end with the
    invalidation. *)
Theorem C7_dispatcher_does_not_invalidate :
  (forall fault_va fault_pa m,
      invalidations (journal (final (FpHandleEptViolation fault_va fault_pa m)))
      = invalidations (journal m))
  /\ (stale (journal on_write) = false
      /\ entry_of scenario_entry on_write
         = {| read_access := false; write_access := false;
              execute_access := true;
              physial_address := UtilPfnFromPa (pa_base_for_exec scenario_entry) |}
      /\ returns (FpHandleEptViolation 0x1000 0x55000 on_write) = true
      /\ entry_of scenario_entry overridden
         = {| read_access := true; write_access := true;
              execute_access := false;
              physial_address := UtilPfnFromPa (pa_base_for_rw scenario_entry) |}
      /\ stale (journal overridden) = true)
  /\ (forall fp_data m,
        stale (journal (final (FppEnableFakePageForExec fp_data m))) = false
        /\ stale (journal (final (FppEnableFakePageForRw fp_data m))) = false
        /\ stale (journal (final (FppDisableFakePage fp_data m))) = false).
Proof.
  split; [exact dispatcher_never_invalidates |].
  split; [vm_compute; repeat split |].
  exact helpers_invalidate.
Qed.

(** ** The CPUID cache *)

Lemma SaveCpuinfo_strict m :
  exists m', SaveCpuinfo MovedNull m = Halt InvalidAccess m'.
Proof.
  crunch. destruct (shared_fp_data m); cbn; eauto.
Qed.

(** C8 fails.  Read as the language defines it, [SaveCpuinfo] never returns:
    the bound of its first loop is read through [cpu0], which [std::move]
    left null.  Read as a build that still reaches the moved object, it
    returns, and in the scenario (highest standard leaf 2, highest extended
    leaf 0x80000001): the standard leaves and the extended leaf 0x80000001
    are found; the leaf 0x80000000 was captured but is stored under index 0,
    so its lookup finds nothing, and the leaf 0 entry answers first for
    index 0. *)
Theorem C8_cpuid_cache_defects :
  (forall m, exists m', SaveCpuinfo MovedNull m = Halt InvalidAccess m')
  /\ (returns (SaveCpuinfo MovedStale boot) = true
      /\ cpuinfo <$> shared_fp_data cached
         = Some [ {| index := 0; ecx := 0; cpui := [2; 10; 11; 12] |};
                  {| index := 1; ecx := 0; cpui := [1; 0; 0; 0] |};
                  {| index := 2; ecx := 0; cpui := [2; 0; 0; 0] |};
                  {| index := 0; ecx := 0;
                     cpui := [int32 0x80000001; 20; 21; 22] |};
                  {| index := int32 0x80000001; ecx := 0;
                     cpui := [int32 0x80000001; 0; 0; 0] |};
                  {| index := 4; ecx := 1; cpui := [4; 1; 0; 0] |};
                  {| index := 4; ecx := 2; cpui := [4; 2; 0; 0] |};
                  {| index := 4; ecx := 3; cpui := [4; 3; 0; 0] |} ]
      /\ host_cpuid boot (int32 0x80000000) 0 = [int32 0x80000001; 20; 21; 22]
      /\ result (FpHandleCpuid (int32 0x80000000) 0 cached) = Some None
      /\ result (FpHandleCpuid (int32 0x80000001) 0 cached)
         = Some (Some [int32 0x80000001; 0; 0; 0])
      /\ result (FpHandleCpuid 0 0 cached) = Some (Some [2; 10; 11; 12])
      /\ result (FpHandleCpuid 2 0 cached) = Some (Some [2; 0; 0; 0])
      /\ result (FpHandleCpuid 4 2 cached) = Some (Some [4; 2; 0; 0])).
Proof.
  split; [exact SaveCpuinfo_strict |].
  vm_compute. repeat split.
Qed.

(** ** Creating an entry *)

(** C5.  The create helper looks for an entry of the requester's address
    space on the page of the requested address.  When there is one, the new
    entry carries the shadow page of the first such entry, and the pool is
    untouched: no page allocated, none written.  When there is none and the
    pool can give a page, the new entry carries a page that was not in the
    pool, the pool has that one page more, and the page holds the
    [PAGE_SIZE] bytes of the live page; when the pool cannot, the helper
    ends in the bug check. *)
Theorem C5_create_shares_or_allocates context m sh :
  shared_fp_data m = Some sh ->
  match List.find
          (fun fp =>
             (PAGE_ALIGN (patch_address fp)
              =? PAGE_ALIGN (requested_address context m))
             && (target_cr3 fp =? kGuestCr3 m))
          (all_fp_data sh) with
  | Some reusable =>
      exists fp_data m',
        FppCreateFakePageData context m = Done fp_data m'
        /\ patch_address fp_data = requested_address context m
        /\ target_cr3 fp_data = kGuestCr3 m
        /\ shadow_page_base_for_exec fp_data
           = shadow_page_base_for_exec reusable
        /\ pool m' = pool m
        /\ pool_free m' = pool_free m
  | None =>
      match pool_free m with
      | O => exists m',
          FppCreateFakePageData context m = Halt BugCheck m'
          /\ pool m' = pool m
      | S free =>
          exists fp_data m' block,
            FppCreateFakePageData context m = Done fp_data m'
            /\ patch_address fp_data = requested_address context m
            /\ target_cr3 fp_data = kGuestCr3 m
            /\ pool m !! shadow_page_base_for_exec fp_data = None
            /\ pool m' = <[shadow_page_base_for_exec fp_data := block]> (pool m)
            /\ pool_free m' = free
            /\ forall i, 0 <= i < PAGE_SIZE ->
                 block i
                 = memory m
                     (translate (page_tables m) (kGuestCr3 m)
                        (wrap64 (PAGE_ALIGN (requested_address context m) + i)))
      end
  end.
Proof.
  intros Hsh. unfold requested_address. crunch. rewrite Hsh. cbn.
  destruct (find _ _) as [reusable|]; cbn.
  - eauto 10.
  - destruct (pool_free m) as [|free]; cbn; [eauto |].
    rewrite lookup_insert_eq.
    replace ((0 <=? 0) && (0 + PAGE_SIZE <=? PAGE_SIZE)) with true
      by reflexivity.
    cbn. rewrite insert_insert_eq.
    do 3 eexists. split; [reflexivity |]. cbn.
    repeat split; auto.
    + apply not_elem_of_dom, is_fresh.
    + intros i Hi. cbv beta.
      replace ((0 <=? i) && (i <? 0 + PAGE_SIZE)) with true
        by (symmetry; apply andb_true_iff; split;
            [apply Z.leb_le | apply Z.ltb_lt]; lia).
      unfold peek. cbn. do 3 f_equal. lia.
Qed.

(** At boot the registry is empty: the create helper allocates. *)
Lemma C5_create_shares_or_allocates_witness :
  exists fp_data m' block,
    FppCreateFakePageData 0x7000 boot = Done fp_data m'
    /\ patch_address fp_data = requested_address 0x7000 boot
    /\ target_cr3 fp_data = kGuestCr3 boot
    /\ pool boot !! shadow_page_base_for_exec fp_data = None
    /\ pool m' = <[shadow_page_base_for_exec fp_data := block]> (pool boot)
    /\ pool_free m' = 3%nat
    /\ forall i, 0 <= i < PAGE_SIZE ->
         block i
         = memory boot
             (translate (page_tables boot) (kGuestCr3 boot)
                (wrap64 (PAGE_ALIGN (requested_address 0x7000 boot) + i))).
Proof.
  exact (C5_create_shares_or_allocates 0x7000 boot
           FpAllocateSharedProcessorData eq_refl).
Defined.

(** Once the entry is there, a second create call on the same page shares
    its shadow page. *)
Example create_again_shares :
  shadow_page_base_for_exec <$> result (FppCreateFakePageData 0x7000 created)
  = Some (shadow_page_base_for_exec scenario_entry)
  /\ pool_free (final (FppCreateFakePageData 0x7000 created))
     = pool_free created.
Proof. vm_compute. split; reflexivity. Qed.

(** ** Enable, then disable *)

Section Poke.
Variable tr : Z -> Z.

(** The bytes agree with [g] where they land: what [poke] leaves at an
    address is [g] there, or what was there when no byte landed on it. *)
Lemma poke_agree (g : Z -> Z) bytes : forall mem dst,
  wrap64 dst = dst ->
  (forall i, (i < length bytes)%nat ->
     nth i bytes 0 = g (tr (wrap64 (dst + Z.of_nat i)))) ->
  forall pa,
    poke tr mem dst bytes pa = g pa
    \/ (poke tr mem dst bytes pa = mem pa
        /\ forall i, (i < length bytes)%nat ->
             tr (wrap64 (dst + Z.of_nat i)) <> pa).
Proof.
  induction bytes as [|b rest IH]; intros mem dst Hdst Hg pa.
  - right. split; [reflexivity |]. cbn. lia.
  - change (poke tr mem dst (b :: rest))
      with (poke tr (fun a => if a =? tr dst then b else mem a)
              (wrap64 (dst + 1)) rest).
    assert (Hstep : forall i,
               wrap64 (wrap64 (dst + 1) + Z.of_nat i)
               = wrap64 (dst + Z.of_nat (S i))).
    { intros i. rewrite wrap64_wrap64_plus. f_equal. lia. }
    destruct (IH (fun a => if a =? tr dst then b else mem a)
                (wrap64 (dst + 1))) with (pa := pa) as [Hhit|[Hmiss Hnone]].
    + unfold wrap64. now rewrite Zmod_mod.
    + intros i Hi. rewrite Hstep. apply (Hg (S i)). cbn. lia.
    + now left.
    + rewrite Hmiss. destruct (Z.eqb_spec pa (tr dst)) as [->|Hne].
      * left. specialize (Hg 0%nat). cbn in Hg.
        rewrite Z.add_0_r, Hdst in Hg. apply Hg. lia.
      * right. split; [reflexivity |].
        intros [|i] Hi.
        -- rewrite Z.add_0_r, Hdst. congruence.
        -- rewrite <- Hstep. apply Hnone. cbn in Hi. lia.
Qed.

(** [poke] leaves alone every address no byte lands on. *)
Lemma poke_elsewhere bytes : forall mem dst pa,
  wrap64 dst = dst ->
  (forall i, (i < length bytes)%nat ->
     tr (wrap64 (dst + Z.of_nat i)) <> pa) ->
  poke tr mem dst bytes pa = mem pa.
Proof.
  induction bytes as [|b rest IH]; intros mem dst pa Hdst Hpa.
  - reflexivity.
  - change (poke tr mem dst (b :: rest))
      with (poke tr (fun a => if a =? tr dst then b else mem a)
              (wrap64 (dst + 1)) rest).
    rewrite IH.
    + destruct (Z.eqb_spec pa (tr dst)) as [->|Hne]; [| reflexivity].
      specialize (Hpa 0%nat). cbn in Hpa.
      rewrite Z.add_0_r, Hdst in Hpa. exfalso. apply Hpa; [lia | reflexivity].
    + unfold wrap64. now rewrite Zmod_mod.
    + intros i Hi. rewrite wrap64_wrap64_plus.
      replace (dst + 1 + Z.of_nat i) with (dst + Z.of_nat (S i)) by lia.
      apply Hpa. cbn. lia.
Qed.
End Poke.

Lemma for_each_cons {A} (x : A) l body :
  for_each (x :: l) body = (do _ <- body x; for_each l body).
Proof. reflexivity. Qed.

(** What one turn of the loop of the enable call does. *)
Lemma shadowing_run A v fp_data m :
  cr3 m = v ->
  exists m1,
    shadowing A v fp_data m = Done tt m1
    /\ cr3 m1 = v /\ cr0 m1 = cr0 m /\ pool m1 = pool m
    /\ page_tables m1 = page_tables m
    /\ shared_fp_data m1 = shared_fp_data m
    /\ kGuestCr3 m1 = kGuestCr3 m
    /\ memory m1
       = if target_cr3 fp_data =? A
         then poke (translate (page_tables m) (target_cr3 fp_data)) (memory m)
                (patch_address fp_data) (original_bytes fp_data)
         else memory m.
Proof.
  intros Hv. crunch. destruct (target_cr3 fp_data =? A); cbn;
    rewrite ?RtlCopyMemory_to_guest_eq; cbn;
    (eexists; split; [reflexivity |]); cbn; auto 10.
Qed.

(** What one turn of the loop of the disable call does. *)
Lemma unshadowing_run A v fp_data m block :
  cr3 m = v ->
  pool m !! shadow_page_base_for_exec fp_data = Some block ->
  BYTE_OFFSET (patch_address fp_data) <= PAGE_SIZE - 32 ->
  exists m1,
    unshadowing A v fp_data m = Done tt m1
    /\ cr3 m1 = v /\ cr0 m1 = cr0 m /\ pool m1 = pool m
    /\ page_tables m1 = page_tables m
    /\ shared_fp_data m1 = shared_fp_data m
    /\ kGuestCr3 m1 = kGuestCr3 m
    /\ memory m1
       = if target_cr3 fp_data =? A
         then poke (translate (page_tables m) (target_cr3 fp_data)) (memory m)
                (patch_address fp_data)
                (map (fun i => block (BYTE_OFFSET (patch_address fp_data)
                                      + Z.of_nat i))
                     (seq 0 32))
         else memory m.
Proof.
  intros Hv Hpool Hoff.
  pose proof (BYTE_OFFSET_range (patch_address fp_data)) as Hr.
  crunch. destruct (target_cr3 fp_data =? A); cbn.
  - rewrite Hpool.
    replace ((0 <=? BYTE_OFFSET (patch_address fp_data))
             && (BYTE_OFFSET (patch_address fp_data)
                 + Z.of_nat (Z.to_nat original_bytes_size) <=? PAGE_SIZE))
      with true
      by (symmetry; apply andb_true_iff; split; apply Z.leb_le;
          [lia | change (Z.of_nat (Z.to_nat original_bytes_size)) with 32; lia]).
    cbn. rewrite RtlCopyMemory_to_guest_eq. cbn.
    eexists; split; [reflexivity |]; cbn; auto 10.
  - eexists; split; [reflexivity |]; cbn; auto 10.
Qed.

Lemma shadowing_loop A v l : forall m,
  cr3 m = v ->
  (forall fp_data, In fp_data l -> target_cr3 fp_data = A ->
     length (original_bytes fp_data) = 32%nat
     /\ 0 <= patch_address fp_data < 2 ^ 64) ->
  exists m1,
    for_each l (shadowing A v) m = Done tt m1
    /\ cr3 m1 = v /\ cr0 m1 = cr0 m /\ pool m1 = pool m
    /\ page_tables m1 = page_tables m
    /\ shared_fp_data m1 = shared_fp_data m
    /\ kGuestCr3 m1 = kGuestCr3 m
    /\ forall pa,
         (forall fp_data, In fp_data l -> target_cr3 fp_data = A ->
            ~ lands (page_tables m) fp_data pa) ->
         memory m1 pa = memory m pa.
Proof.
  induction l as [|fp_data l IH]; intros m Hv Hwf.
  - exists m. repeat split; auto.
  - rewrite for_each_cons. unfold bind.
    destruct (shadowing_run A v fp_data m Hv)
      as (m1 & -> & Hc3 & Hc0 & Hpl & Hpt & Hsh & Hg & Hmem).
    destruct (IH m1 Hc3) as (m2 & -> & Hc3' & Hc0' & Hpl' & Hpt' & Hsh' & Hg' & Hmem').
    { intros fp Hin. apply Hwf. now right. }
    exists m2. split; [reflexivity |].
    repeat split; try congruence.
    intros pa Hpa. rewrite Hmem'.
    + rewrite Hmem. destruct (Z.eqb_spec (target_cr3 fp_data) A) as [HA|HA];
        [| reflexivity].
      destruct (Hwf fp_data (or_introl eq_refl) HA) as [Hlen Hva].
      apply poke_elsewhere; [now apply wrap64_small |].
      intros i Hi Heq. apply (Hpa fp_data (or_introl eq_refl) HA).
      exists (Z.of_nat i). split; [lia | exact Heq].
    + intros fp Hin HA. rewrite Hpt. apply Hpa; [now right | exact HA].
Qed.

Lemma unshadowing_loop A v (g : Z -> Z) l : forall m,
  cr3 m = v ->
  (forall fp_data, In fp_data l -> target_cr3 fp_data = A ->
     0 <= patch_address fp_data < 2 ^ 64
     /\ BYTE_OFFSET (patch_address fp_data) <= PAGE_SIZE - 32
     /\ exists block,
          pool m !! shadow_page_base_for_exec fp_data = Some block
          /\ forall i, 0 <= i < 32 ->
               block (BYTE_OFFSET (patch_address fp_data) + i)
               = g (translate (page_tables m) A
                      (wrap64 (patch_address fp_data + i)))) ->
  exists m1,
    for_each l (unshadowing A v) m = Done tt m1
    /\ cr3 m1 = v /\ cr0 m1 = cr0 m /\ pool m1 = pool m
    /\ page_tables m1 = page_tables m
    /\ shared_fp_data m1 = shared_fp_data m
    /\ kGuestCr3 m1 = kGuestCr3 m
    /\ forall pa,
         memory m1 pa = g pa
         \/ (memory m1 pa = memory m pa
             /\ forall fp_data, In fp_data l -> target_cr3 fp_data = A ->
                  ~ lands (page_tables m) fp_data pa).
Proof.
  induction l as [|fp_data l IH]; intros m Hv Hwf.
  - exists m. repeat split; auto;
      intros pa; right; (split; [reflexivity |]); intros fp [].
  - rewrite for_each_cons. unfold bind.
    assert (Hrun : exists m1,
               unshadowing A v fp_data m = Done tt m1
               /\ cr3 m1 = v /\ cr0 m1 = cr0 m /\ pool m1 = pool m
               /\ page_tables m1 = page_tables m
               /\ shared_fp_data m1 = shared_fp_data m
               /\ kGuestCr3 m1 = kGuestCr3 m
               /\ forall pa,
                    memory m1 pa = g pa
                    \/ (memory m1 pa = memory m pa
                        /\ (target_cr3 fp_data = A ->
                            ~ lands (page_tables m) fp_data pa))).
    { destruct (Z.eqb_spec (target_cr3 fp_data) A) as [HA|HA].
      - destruct (Hwf fp_data (or_introl eq_refl) HA)
          as (Hva & Hoff & block & Hpool & Hblock).
        destruct (unshadowing_run A v fp_data m block Hv Hpool Hoff)
          as (m1 & -> & Hc3 & Hc0 & Hpl & Hpt & Hsh & Hg & Hmem).
        exists m1. split; [reflexivity |]. repeat split; auto.
        intros pa. rewrite Hmem.
        apply Z.eqb_eq in HA as HA'. rewrite HA'.
        destruct (poke_agree (translate (page_tables m) (target_cr3 fp_data))
                    g
                    (map (fun i => block (BYTE_OFFSET (patch_address fp_data)
                                          + Z.of_nat i)) (seq 0 32))
                    (memory m) (patch_address fp_data)) with (pa := pa)
          as [Hhit|[Hmiss Hnone]].
        + now apply wrap64_small.
        + intros i Hi. rewrite length_map, length_seq in Hi.
          rewrite (nth_indep _ 0 (block (BYTE_OFFSET (patch_address fp_data)
                                         + Z.of_nat 0)))
            by (rewrite length_map, length_seq; exact Hi).
          rewrite (map_nth (fun i => block (BYTE_OFFSET (patch_address fp_data)
                                            + Z.of_nat i))).
          rewrite seq_nth by exact Hi. rewrite HA. apply Hblock. lia.
        + now left.
        + right. split; [exact Hmiss |]. intros _ (i & Hi & Heq).
          apply (Hnone (Z.to_nat i)).
          * rewrite length_map, length_seq. lia.
          * rewrite Z2Nat.id by lia. exact Heq.
      - apply Z.eqb_neq in HA as HA'.
        exists m. unfold unshadowing. rewrite HA'. cbn.
        split; [reflexivity |]. repeat split; auto;
          intros pa; right; (split; [reflexivity | intros; contradiction]). }
    destruct Hrun as (m1 & -> & Hc3 & Hc0 & Hpl & Hpt & Hsh & Hg & Hmem).
    destruct (IH m1 Hc3)
      as (m2 & -> & Hc3' & Hc0' & Hpl' & Hpt' & Hsh' & Hg' & Hmem').
    { intros fp Hin HA. rewrite Hpl, Hpt. apply Hwf; [now right | exact HA]. }
    exists m2. split; [reflexivity |]. repeat split; try congruence.
    intros pa. destruct (Hmem' pa) as [Hhit|[Hsame Hnone]]; [now left |].
    destruct (Hmem pa) as [Hhit|[Hsame' Hnone']].
    + left. congruence.
    + right. split; [congruence |].
      intros fp [<-|Hin] HA; [now apply Hnone' |].
      rewrite <- Hpt. now apply Hnone.
Qed.

(** C6, as the code has it.  Take an enable call followed at once by the
    disable call, in an address space where the patch of every entry lies at
    most [PAGE_SIZE - 32] into its page and the shadow page of every entry
    holds, at the 32 patched offsets, the bytes guest memory holds at the
    patch address (as it does after the create call that allocated the page,
    until either is written).  Then both calls return and every byte of
    guest memory is what it was before the enable call. *)
Theorem C6_enable_disable_round_trip m sh :
  shared_fp_data m = Some sh ->
  (forall fp_data,
      In fp_data (all_fp_data sh) -> target_cr3 fp_data = kGuestCr3 m ->
      length (original_bytes fp_data) = 32%nat
      /\ 0 <= patch_address fp_data < 2 ^ 64
      /\ BYTE_OFFSET (patch_address fp_data) <= PAGE_SIZE - 32
      /\ exists block,
           pool m !! shadow_page_base_for_exec fp_data = Some block
           /\ forall i, 0 <= i < 32 ->
                block (BYTE_OFFSET (patch_address fp_data) + i)
                = memory m (translate (page_tables m) (kGuestCr3 m)
                              (wrap64 (patch_address fp_data + i)))) ->
  exists m1 m2,
    FpVmCallEnableFakePages m = Done STATUS_SUCCESS m1
    /\ FpVmCallDisableFakePages m1 = Done tt m2
    /\ (forall pa, memory m2 pa = memory m pa)
    /\ cr3 m2 = cr3 m
    /\ cr0 m2 = cr0 m.
Proof.
  intros Hsh Hwf.
  set (relaxed := {| wp := false; cr0_other := cr0_other (cr0 m) |}).
  destruct (shadowing_loop (kGuestCr3 m) (cr3 m) (all_fp_data sh)
              (set_cr0 relaxed m) eq_refl)
    as (m1 & Hrun1 & Hc3 & Hc0 & Hpl & Hpt & Hshared & Hg & Hmem1).
  { intros fp Hin HA. destruct (Hwf fp Hin HA) as (? & ? & _). auto. }
  cbn in Hc3, Hc0, Hpl, Hpt, Hshared, Hg, Hmem1.
  destruct (unshadowing_loop (kGuestCr3 m) (cr3 m) (memory m) (all_fp_data sh)
              (set_cr0 relaxed (set_cr0 (cr0 m) m1)) Hc3)
    as (m2 & Hrun2 & Hc3' & Hc0' & Hpl' & Hpt' & Hshared' & Hg' & Hmem2).
  { intros fp Hin HA. cbn. rewrite Hpl, Hpt.
    destruct (Hwf fp Hin HA) as (_ & ? & ? & ?). auto. }
  cbn in Hc3', Hc0', Hpl', Hpt', Hshared', Hg', Hmem2.
  exists (set_cr0 (cr0 m) m1), (set_cr0 (cr0 m) m2).
  split; [| split; [| split; [| split]]].
  - unfold FpVmCallEnableFakePages.
    cbv [bind UtilVmRead_kGuestCr3 __readcr3 __readcr0 __writecr0 get_shared
         deref ret].
    cbn. rewrite Hsh. cbn. fold relaxed. now rewrite Hrun1.
  - unfold FpVmCallDisableFakePages.
    cbv [bind UtilVmRead_kGuestCr3 __readcr3 __readcr0 __writecr0 get_shared
         deref ret].
    cbn. rewrite Hshared, Hsh, Hg, Hc3. cbn. fold relaxed.
    now rewrite Hrun2.
  - intros pa. cbn.
    destruct (Hmem2 pa) as [Hhit|[Hsame Hnone]]; [exact Hhit |].
    rewrite Hsame. apply Hmem1.
    intros fp Hin HA. rewrite <- Hpt. now apply Hnone.
  - cbn. congruence.
  - reflexivity.
Qed.

Lemma created_page : pool created !! 0%nat = Some scenario_block.
Proof. reflexivity. Qed.

(** After the create call of the scenario the shadow page is a copy of the
    live page: the round trip holds there. *)
Lemma C6_enable_disable_round_trip_witness :
  exists m1 m2,
    FpVmCallEnableFakePages created = Done STATUS_SUCCESS m1
    /\ FpVmCallDisableFakePages m1 = Done tt m2
    /\ (forall pa, memory m2 pa = memory created pa)
    /\ cr3 m2 = cr3 created
    /\ cr0 m2 = cr0 created.
Proof.
  apply (C6_enable_disable_round_trip created scenario_registry).
  - vm_compute; reflexivity.
  - intros fp_data [<-|[]] _.
    split; [reflexivity |].
    split; [split; [intros H; discriminate H | reflexivity] |].
    split; [intros H; discriminate H |].
    exists scenario_block. split; [exact created_page |].
    intros i Hi.
    change (BYTE_OFFSET (patch_address scenario_entry)) with 0.
    change (memory created) with scenario_memory.
    change (page_tables created) with scenario_tables.
    change (kGuestCr3 created) with space_A.
    change (patch_address scenario_entry) with 0x1000.
    unfold scenario_block.
    replace ((0 <=? 0 + i) && (0 + i <? 0 + PAGE_SIZE)) with true
      by (symmetry; apply andb_true_iff; split;
          [apply Z.leb_le | apply Z.ltb_lt]; unfold PAGE_SIZE; lia).
    do 3 f_equal. lia.
Defined.

(** The claim as written fails on the enabled page.  Enable and then disable
    it once more: both calls return; the first byte of the live page was the
    original byte 0 before the enable call, and is the patch byte 0xCC after
    the disable call. *)
Lemma C6_counterexample :
  shared_fp_data enabled = Some scenario_registry
  /\ kGuestCr3 enabled = target_cr3 scenario_entry
  /\ translate (page_tables enabled) (target_cr3 scenario_entry)
       (patch_address scenario_entry) = 0x55000
  /\ returns (FpVmCallEnableFakePages enabled) = true
  /\ returns (FpVmCallDisableFakePages
                (final (FpVmCallEnableFakePages enabled))) = true
  /\ memory enabled 0x55000 = 0
  /\ memory (final (FpVmCallDisableFakePages
                      (final (FpVmCallEnableFakePages enabled)))) 0x55000
     = 0xCC.
Proof. vm_compute. repeat split. Qed.

(** * Further properties *)

(** ** Frames and pages *)

Lemma frame_of_translate tables root va :
  UtilPfnFromPa (translate tables root va) = tables root (Z.shiftr va PAGE_SHIFT).
Proof.
  unfold UtilPfnFromPa, translate, PAGE_SHIFT.
  rewrite Z.shiftr_lor, Z.shiftr_shiftl_l by lia.
  replace (12 - 12) with 0 by lia. rewrite Z.shiftl_0_r.
  rewrite BYTE_OFFSET_mod.
  pose proof (Z.mod_pos_bound va PAGE_SIZE eq_refl) as Hr.
  rewrite (Z.shiftr_div_pow2 (va mod PAGE_SIZE)) by lia.
  change (2 ^ 12) with PAGE_SIZE.
  rewrite (Z.div_small (va mod PAGE_SIZE)) by exact Hr. apply Z.lor_0_r.
Qed.

Lemma page_of_PAGE_ALIGN va off :
  0 <= off < PAGE_SIZE ->
  Z.shiftr (PAGE_ALIGN va + off) PAGE_SHIFT = Z.shiftr va PAGE_SHIFT.
Proof.
  intros Hoff. unfold PAGE_SHIFT. rewrite !Z.shiftr_div_pow2 by lia.
  rewrite PAGE_ALIGN_div. change (2 ^ 12) with PAGE_SIZE.
  unfold PAGE_SIZE in *.
  rewrite Z.mul_comm, Z.div_add_l by lia.
  rewrite (Z.div_small off) by lia. lia.
Qed.

(** ** Violations the engine does not handle *)

Lemma violation_unregistered fault_va fault_pa m :
  registered fault_pa m = None ->
  FpHandleEptViolation fault_va fault_pa m = Done tt m.
Proof.
  unfold registered. intros Hnone. crunch.
  destruct (shared_fp_data m) as [sh|]; cbn; [| reflexivity].
  now rewrite Hnone.
Qed.

(** X1.  A violation the engine has no entry for is none of its business:
    when the shared data block is absent, or no entry of the registry has
    its original page on the frame of the faulting physical address, the
    dispatcher returns and the machine is exactly as it was: no entry of the
    second-level table written, nothing journalled, no trap armed. *)
Theorem X1_violation_elsewhere_is_ignored fault_va fault_pa m :
  registered fault_pa m = None ->
  FpHandleEptViolation fault_va fault_pa m = Done tt m.
Proof. exact (violation_unregistered fault_va fault_pa m). Qed.

Lemma X1_violation_elsewhere_is_ignored_witness :
  FpHandleEptViolation 0x1000 0x56000 enabled = Done tt enabled.
Proof.
  apply (X1_violation_elsewhere_is_ignored 0x1000 0x56000 enabled).
  vm_compute; reflexivity.
Defined.

(** ** A denied read or write *)

(** X2.  A denied read or write shows the original page.  On a
    permission-caused violation of a registered page where a read or a write
    was attempted and not permitted, the entry of the page ends with: write =
    the attempted write, read = the attempted read or write, execute = the
    attempted execute, backed by the original page.  No other entry of the
    second-level table changes; the shadow pages, guest memory and CR3 are as
    they were.  The dispatcher returns, unless the access was also a fetch
    and an entry was already pending on this processor. *)
Theorem X2_denied_access_shows_original fault_va fault_pa m fp_data :
  registered fault_pa m = Some fp_data ->
  caused_by_translation (kExitQualification m) = true ->
  qual_write_access (kExitQualification m)
  && negb (ept_writeable (kExitQualification m))
  || qual_read_access (kExitQualification m)
     && negb (ept_readable (kExitQualification m)) = true ->
  let q := kExitQualification m in
  let o := FpHandleEptViolation fault_va fault_pa m in
  entry_of fp_data (final o)
  = {| read_access := qual_read_access q || qual_write_access q;
       write_access := qual_write_access q;
       execute_access := qual_execute_access q;
       physial_address := UtilPfnFromPa (pa_base_for_rw fp_data) |}
  /\ (forall k, k <> EptGetEptPtEntry (pa_base_for_rw fp_data) ->
        ept_data (final o) k = ept_data m k)
  /\ pool (final o) = pool m
  /\ memory (final o) = memory m
  /\ cr3 (final o) = cr3 m
  /\ returns o
     = negb ((qual_read_access q || qual_write_access q)
             && qual_execute_access q && is_set (pending m)).
Proof.
  unfold registered. intros Hfind Hcause Hdenied.
  destruct (shared_fp_data m) as [sh|] eqn:Hsh; [| discriminate].
  unfold entry_of, pending. crunch.
  rewrite Hsh. cbn. rewrite Hfind, Hcause. cbn. rewrite Hdenied. cbn.
  rewrite !Z.eqb_refl. cbn.
  destruct (qual_read_access _), (qual_write_access _),
    (qual_execute_access _); cbn;
    try destruct (last_fp_data (processor_fp_data m)); cbn;
    rewrite ?Z.eqb_refl; cbn;
    repeat split; auto;
    try (intros k Hk; apply Z.eqb_neq in Hk; now rewrite Hk).
Qed.

Lemma X2_denied_access_shows_original_witness :
  entry_of scenario_entry (final (FpHandleEptViolation 0x1000 0x55000 on_read))
  = {| read_access := true; write_access := false; execute_access := false;
       physial_address := UtilPfnFromPa (pa_base_for_rw scenario_entry) |}
  /\ pool (final (FpHandleEptViolation 0x1000 0x55000 on_read)) = pool on_read
  /\ returns (FpHandleEptViolation 0x1000 0x55000 on_read) = true.
Proof.
  assert (H1 : registered 0x55000 on_read = Some scenario_entry)
    by (vm_compute; reflexivity).
  assert (H2 : caused_by_translation (kExitQualification on_read) = true)
    by reflexivity.
  assert (H3 : qual_write_access (kExitQualification on_read)
               && negb (ept_writeable (kExitQualification on_read))
               || qual_read_access (kExitQualification on_read)
                  && negb (ept_readable (kExitQualification on_read)) = true)
    by reflexivity.
  destruct (X2_denied_access_shows_original 0x1000 0x55000 on_read scenario_entry
              H1 H2 H3) as (He & _ & Hp & _ & _ & Hr).
  split; [exact He |]. split; [exact Hp | exact Hr].
Defined.

(** ** The controls of the processor *)

(** X3.  Of the processor-based controls, the file writes the monitor trap
    flag and nothing else: every entry point leaves the other bits as they
    were, and the create, enable, disable and delete calls leave the flag as
    well, however they end. *)
Theorem X3_only_the_trap_flag_is_written c :
  keeps (fun m => procctl_other (kCpuBasedVmExecControl m)) (handle c)
  /\ match c with
     | CallViolation _ _ | CallTrap => True
     | _ => keeps kCpuBasedVmExecControl (handle c)
     end.
Proof.
  destruct c; unfold handle; split; try exact I; try (frame; fail);
    intros m; crunch; cases.
Qed.

(** ** A patch in the last bytes of its page *)

Lemma overrun_length va :
  let off := BYTE_OFFSET va in
  PAGE_SIZE - 32 < off ->
  int32 (wrap64 (PAGE_SIZE - off - original_bytes_size)) = PAGE_SIZE - 32 - off
  /\ wrap64 (PAGE_SIZE - 32 - off) = 2 ^ 64 - (off + 32 - PAGE_SIZE).
Proof.
  intros off Hoff. pose proof (BYTE_OFFSET_range va) as Hr. fold off in Hr.
  unfold PAGE_SIZE, original_bytes_size in *.
  assert (Hw : forall z, -32 < z < 0 -> wrap64 z = 2 ^ 64 + z).
  { intros z Hz. unfold wrap64.
    replace z with ((2 ^ 64 + z) + (-1) * 2 ^ 64) at 1 by lia.
    rewrite Z_mod_plus_full. apply Z.mod_small. lia. }
  split.
  - rewrite Hw by lia. unfold int32.
    replace (2 ^ 64 + (4096 - off - 32) + 2 ^ 31)
      with ((4096 - off - 32 + 2 ^ 31) + 2 ^ 32 * 2 ^ 32) by lia.
    rewrite Z_mod_plus_full, Z.mod_small by lia. lia.
  - rewrite Hw by lia. lia.
Qed.

Lemma resynchronize_overrun fp_data m block :
  pool m !! shadow_page_base_for_exec fp_data = Some block ->
  PAGE_SIZE - 32 < BYTE_OFFSET (patch_address fp_data) ->
  exists pl,
    resynchronize fp_data m
    = Halt InvalidAccess
        (set_pool pl (pool_free m) (set_cr3 (target_cr3 fp_data) m)).
Proof.
  intros Hpool Hoff.
  destruct (resynchronize_lengths (patch_address fp_data)) as (E1 & E2 & _).
  destruct (overrun_length (patch_address fp_data) Hoff) as [E4 E5].
  pose proof (BYTE_OFFSET_range (patch_address fp_data)) as Hr.
  cbv zeta in E1, E2, E4, E5.
  unfold resynchronize. rewrite E1, E2, E4, E5.
  cbv [bind __readcr3 __writecr3 RtlCopyMemory_to_page]. cbn.
  rewrite Hpool.
  replace ((0 <=? 0) && (0 + BYTE_OFFSET (patch_address fp_data) <=? PAGE_SIZE))
    with true
    by (symmetry; apply andb_true_iff; split; apply Z.leb_le; lia).
  cbn. rewrite lookup_insert_eq.
  match goal with
  | |- context [if ?a && ?b then _ else _] =>
      replace b with false
        by (symmetry; apply Z.leb_gt; unfold PAGE_SIZE in *; lia)
  end.
  rewrite andb_false_r. eexists. reflexivity.
Qed.

(** X4.  A patch that starts in the last 31 bytes of its page breaks the
    copy of the branch that confirms execution.  The length of the second
    copy, [PAGE_SIZE - len - 32] held in an [int] and handed over as a
    [size_t], is 2^64 less the number of bytes the patch sticks out of the
    page, and the copy starts past the end of the shadow page.  The
    dispatcher does not return from it: it stops on the invalid access,
    inside the address space of the entry. *)
Theorem X4_patch_at_page_end_overruns fault_va fault_pa m fp_data :
  registered fault_pa m = Some fp_data ->
  caused_by_translation (kExitQualification m) = true ->
  qual_write_access (kExitQualification m)
  && negb (ept_writeable (kExitQualification m))
  || qual_read_access (kExitQualification m)
     && negb (ept_readable (kExitQualification m)) = false ->
  is_set (pool m !! shadow_page_base_for_exec fp_data) = true ->
  PAGE_SIZE - 32 < BYTE_OFFSET (patch_address fp_data) ->
  wrap64 (int32 (wrap64 (PAGE_SIZE - BYTE_OFFSET (patch_address fp_data)
                          - original_bytes_size)))
  = 2 ^ 64 - (BYTE_OFFSET (patch_address fp_data) + 32 - PAGE_SIZE)
  /\ PAGE_SIZE
     < PAGE_SIZE
       - int32 (wrap64 (PAGE_SIZE - BYTE_OFFSET (patch_address fp_data)
                        - original_bytes_size))
  /\ exists m',
       FpHandleEptViolation fault_va fault_pa m = Halt InvalidAccess m'
       /\ cr3 m' = target_cr3 fp_data.
Proof.
  unfold registered. intros Hfind Hcause Hgranted Hpage Hoff.
  destruct (overrun_length (patch_address fp_data) Hoff) as [E1 E2].
  cbv zeta in E1, E2.
  split; [now rewrite E1, E2 |].
  split; [rewrite E1; lia |].
  destruct (shared_fp_data m) as [sh|] eqn:Hsh; [| discriminate].
  destruct (pool m !! shadow_page_base_for_exec fp_data) as [block|] eqn:Hpool;
    [| discriminate].
  crunch.
  rewrite Hsh. cbn. rewrite Hfind, Hcause. cbn. rewrite Hgranted. cbn.
  match goal with
  | |- context [resynchronize ?f ?m1] =>
      destruct (resynchronize_overrun f m1 block Hpool Hoff) as (pl & ->)
  end.
  eexists. split; reflexivity.
Qed.

Lemma X4_patch_at_page_end_overruns_witness :
  wrap64 (int32 (wrap64 (PAGE_SIZE - BYTE_OFFSET (patch_address late_entry)
                          - original_bytes_size)))
  = 2 ^ 64 - (BYTE_OFFSET (patch_address late_entry) + 32 - PAGE_SIZE)
  /\ PAGE_SIZE
     < PAGE_SIZE
       - int32 (wrap64 (PAGE_SIZE - BYTE_OFFSET (patch_address late_entry)
                        - original_bytes_size))
  /\ exists m',
       FpHandleEptViolation 0x1FF0 0x55FF0 on_late_fetch = Halt InvalidAccess m'
       /\ cr3 m' = target_cr3 late_entry.
Proof.
  apply (X4_patch_at_page_end_overruns 0x1FF0 0x55FF0 on_late_fetch late_entry);
    vm_compute; reflexivity.
Defined.

(** ** Searching the registry *)

Lemma find_app {A} (f : A -> bool) l1 l2 :
  List.find f (l1 ++ l2)
  = match List.find f l1 with
    | Some x => Some x
    | None => List.find f l2
    end.
Proof.
  induction l1 as [|x l1 IH]; cbn; [reflexivity |].
  destruct (f x); [reflexivity | exact IH].
Qed.

Lemma find_is_some {A} (f : A -> bool) l x :
  In x l -> f x = true -> exists y, List.find f l = Some y.
Proof.
  intros Hin Hx. destruct (List.find f l) as [y|] eqn:Hfind; [eauto |].
  rewrite (find_none _ _ Hfind x Hin) in Hx. discriminate.
Qed.

(** ** What the create call leaves *)

Lemma create_outcome context m sh :
  shared_fp_data m = Some sh ->
  let start := requested_address context m in
  match FpVmCallCreateFakePage context m with
  | Done r m' =>
      r = true
      /\ exists fp_data,
           shared_fp_data m'
           = Some {| cpuinfo := cpuinfo sh;
                     all_fp_data := all_fp_data sh ++ [fp_data] |}
           /\ patch_address fp_data = start
           /\ target_cr3 fp_data = kGuestCr3 m
           /\ pa_base_for_rw fp_data
              = translate (page_tables m) (kGuestCr3 m) (PAGE_ALIGN start)
           /\ pa_base_for_exec fp_data
              = translate (page_tables m) (cr3 m)
                  (pool_va m (shadow_page_base_for_exec fp_data))
           /\ original_bytes fp_data
              = drop 16 (peek_bytes (set_cr3 (kGuestCr3 m) m) context 48)
           /\ kGuestCr3 m' = kGuestCr3 m
           /\ page_tables m' = page_tables m
           /\ match List.find
                      (fun fp =>
                         (PAGE_ALIGN (patch_address fp) =? PAGE_ALIGN start)
                         && (target_cr3 fp =? kGuestCr3 m))
                      (all_fp_data sh) with
              | Some reusable =>
                  shadow_page_base_for_exec fp_data
                  = shadow_page_base_for_exec reusable
                  /\ pool m' = pool m
              | None =>
                  pool m !! shadow_page_base_for_exec fp_data = None
                  /\ exists block,
                       pool m'
                       = <[shadow_page_base_for_exec fp_data := block]> (pool m)
              end
  | Halt why m' =>
      why = BugCheck /\ pool_free m = 0%nat /\ shared_fp_data m' = shared_fp_data m
  end.
Proof.
  intros Hsh. unfold requested_address. crunch. rewrite Hsh. cbn.
  destruct (find _ _) as [reusable|]; cbn.
  - rewrite Hsh. cbn. split; [reflexivity |]. eexists. split; [reflexivity |].
    cbn. auto 10.
  - destruct (pool_free m) as [|free]; cbn; [auto |].
    rewrite lookup_insert_eq.
    replace ((0 <=? 0) && (0 + PAGE_SIZE <=? PAGE_SIZE)) with true
      by reflexivity.
    cbn. rewrite Hsh. cbn. rewrite insert_insert_eq.
    split; [reflexivity |]. eexists. split; [reflexivity |].
    cbn. repeat split; auto.
    + apply not_elem_of_dom, is_fresh.
    + eexists; reflexivity.
Qed.

Lemma result_final {A} (o : Outcome A) a :
  result o = Some a -> o = Done a (final o).
Proof. destruct o; cbn; [intros [= ->]; reflexivity | discriminate]. Defined.

Lemma create_needs_registry context m :
  shared_fp_data m = None -> returns (FpVmCallCreateFakePage context m) = false.
Proof. intros Hsh. crunch. rewrite Hsh. reflexivity. Qed.

Lemma frame_of_page_base tables root va :
  Z.shiftr (translate tables root (PAGE_ALIGN va)) 12
  = tables root (Z.shiftr va PAGE_SHIFT).
Proof.
  change (Z.shiftr (translate tables root (PAGE_ALIGN va)) 12)
    with (UtilPfnFromPa (translate tables root (PAGE_ALIGN va))).
  rewrite frame_of_translate.
  rewrite <- (Z.add_0_r (PAGE_ALIGN va)).
  now rewrite page_of_PAGE_ALIGN by (unfold PAGE_SIZE; lia).
Qed.

(** X6.  An entry the create call has appended is found again.  The
    original page it records is the frame the page tables of the requester
    give the page of the requested address, which is the entry of the
    second-level table that the enable and disable helpers address too.  A
    lookup by page for the requested address, in the address space of the
    requester, finds an entry on that page that holds the same shadow page as
    the new entry; and a violation at the physical address of any byte of
    that page finds an entry whose original page is that frame. *)
Theorem X6_created_entry_is_found context m r m' :
  FpVmCallCreateFakePage context m = Done r m' ->
  let start := requested_address context m in
  exists sh fp_data,
    shared_fp_data m'
    = Some {| cpuinfo := cpuinfo sh; all_fp_data := all_fp_data sh ++ [fp_data] |}
    /\ shared_fp_data m = Some sh
    /\ patch_address fp_data = start
    /\ target_cr3 fp_data = kGuestCr3 m'
    /\ EptGetEptPtEntry (pa_base_for_rw fp_data)
       = frame_of (page_tables m') fp_data
    /\ (exists found,
          FppFindFakePageDataByPage (shared_fp_data m') start m'
          = Done (Some found) m'
          /\ target_cr3 found = kGuestCr3 m'
          /\ PAGE_ALIGN (patch_address found) = PAGE_ALIGN start
          /\ shadow_page_base_for_exec found
             = shadow_page_base_for_exec fp_data)
    /\ (forall off, 0 <= off < PAGE_SIZE ->
          exists found,
            registered
              (translate (page_tables m') (kGuestCr3 m') (PAGE_ALIGN start + off))
              m' = Some found
            /\ EptGetEptPtEntry (pa_base_for_rw found)
               = frame_of (page_tables m') fp_data).
Proof.
  intros Hrun start.
  destruct (shared_fp_data m) as [sh|] eqn:Hsh;
    [| pose proof (create_needs_registry context m Hsh) as Hno;
       rewrite Hrun in Hno; discriminate].
  pose proof (create_outcome context m sh Hsh) as Hc.
  rewrite Hrun in Hc. cbv zeta in Hc. fold start in Hc.
  destruct Hc as (_ & fp & Hreg & Hpatch & Htarget & Hrw & _ & _ & Hg & Htab & Hpage).
  assert (Hkey : EptGetEptPtEntry (pa_base_for_rw fp) = frame_of (page_tables m') fp).
  { unfold EptGetEptPtEntry, frame_of. rewrite Hrw, Htab, Htarget, Hpatch.
    apply frame_of_page_base. }
  exists sh, fp. rewrite Hg.
  split; [exact Hreg |]. split; [reflexivity |]. split; [exact Hpatch |].
  split; [exact Htarget |]. split; [exact Hkey |]. split.
  - unfold FppFindFakePageDataByPage.
    cbv [bind UtilVmRead_kGuestCr3 deref ret]. rewrite Hreg, Hg. cbn.
    rewrite find_app.
    destruct (find _ (all_fp_data sh)) as [reusable|] eqn:Hfind.
    + destruct Hpage as [Hshare _].
      apply find_some in Hfind as [_ Hp].
      apply andb_true_iff in Hp as [Hp1 Hp2].
      apply Z.eqb_eq in Hp1, Hp2. eauto 10.
    + cbn. rewrite Hpatch, Htarget, !Z.eqb_refl. cbn.
      exists fp. rewrite Hpatch. auto.
  - intros off Hoff. unfold registered. rewrite Hreg. cbn.
    assert (Hhit : (fun fp_data =>
                      Z.shiftr (pa_base_for_rw fp_data) 12
                      =? Z.shiftr (translate (page_tables m') (kGuestCr3 m)
                                     (PAGE_ALIGN start + off)) 12) fp = true).
    { apply Z.eqb_eq.
      change (Z.shiftr (pa_base_for_rw fp) 12)
        with (EptGetEptPtEntry (pa_base_for_rw fp)).
      rewrite Hkey. unfold frame_of.
      change (Z.shiftr (translate (page_tables m') (kGuestCr3 m)
                          (PAGE_ALIGN start + off)) 12)
        with (UtilPfnFromPa (translate (page_tables m') (kGuestCr3 m)
                               (PAGE_ALIGN start + off))).
      rewrite frame_of_translate, page_of_PAGE_ALIGN by exact Hoff.
      now rewrite Htarget, Hpatch. }
    match goal with
    | |- context [find ?f ?l] =>
        destruct (find_is_some f l fp) as (found & Hfound);
          [apply in_or_app; right; left; reflexivity | exact Hhit |]
    end.
    exists found. split; [exact Hfound |].
    apply find_some in Hfound as [_ Hp]. apply Z.eqb_eq in Hp.
    unfold EptGetEptPtEntry, UtilPfnFromPa, PAGE_SHIFT. rewrite Hp.
    change (Z.shiftr (translate (page_tables m') (kGuestCr3 m)
                        (PAGE_ALIGN start + off)) 12)
      with (UtilPfnFromPa (translate (page_tables m') (kGuestCr3 m)
                             (PAGE_ALIGN start + off))).
    rewrite frame_of_translate, page_of_PAGE_ALIGN by exact Hoff.
    unfold frame_of. now rewrite Htarget, Hpatch.
Qed.

Lemma X6_created_entry_is_found_witness :
  exists sh fp_data,
    shared_fp_data created
    = Some {| cpuinfo := cpuinfo sh; all_fp_data := all_fp_data sh ++ [fp_data] |}
    /\ shared_fp_data boot = Some sh
    /\ patch_address fp_data = requested_address 0x7000 boot
    /\ target_cr3 fp_data = kGuestCr3 created
    /\ EptGetEptPtEntry (pa_base_for_rw fp_data)
       = frame_of (page_tables created) fp_data
    /\ (exists found,
          FppFindFakePageDataByPage (shared_fp_data created)
            (requested_address 0x7000 boot) created
          = Done (Some found) created
          /\ target_cr3 found = kGuestCr3 created
          /\ PAGE_ALIGN (patch_address found)
             = PAGE_ALIGN (requested_address 0x7000 boot)
          /\ shadow_page_base_for_exec found
             = shadow_page_base_for_exec fp_data)
    /\ (forall off, 0 <= off < PAGE_SIZE ->
          exists found,
            registered
              (translate (page_tables created) (kGuestCr3 created)
                 (PAGE_ALIGN (requested_address 0x7000 boot) + off))
              created = Some found
            /\ EptGetEptPtEntry (pa_base_for_rw found)
               = frame_of (page_tables created) fp_data).
Proof.
  apply (X6_created_entry_is_found 0x7000 boot true created).
  unfold created at 1.
  apply (result_final (FpVmCallCreateFakePage 0x7000 boot) true).
  vm_compute; reflexivity.
Defined.

(** ** The registry stays well formed *)

Lemma keeps_page_RtlCopyMemory_to_page (q : nat) p dst_off src len :
  keeps (fun m => is_set (pool m !! q)) (RtlCopyMemory_to_page p dst_off src len).
Proof.
  intros m. unfold RtlCopyMemory_to_page.
  destruct (pool m !! p) as [block|] eqn:Hp; [| reflexivity].
  destruct (_ && _); [| reflexivity].
  cbn. destruct (decide (p = q)) as [->|Hne].
  - unfold PagePtr in *. now rewrite lookup_insert_eq, Hp.
  - now rewrite lookup_insert_ne.
Qed.

Lemma keeps_page_bytes {X} (f : Machine -> X) p off len :
  keeps f (page_bytes p off len).
Proof.
  intros m. unfold page_bytes.
  destruct (pool m !! p); [destruct (_ && _) |]; reflexivity.
Qed.

Lemma keeps_load {X} (f : Machine -> X) va : keeps f (load va).
Proof. intros m. unfold load. destruct (present _ _ _); reflexivity. Qed.

Lemma handlers_keep_pages c (q : nat) :
  match c with
  | CallCreate _ | CallDelete => True
  | _ => keeps (fun m => is_set (pool m !! q)) (handle c)
         /\ keeps shared_fp_data (handle c)
  end.
Proof.
  destruct c; try exact I; unfold handle; split;
    repeat keeps_step;
    try (apply keeps_RtlCopyMemory_to_guest; reflexivity);
    try apply keeps_page_RtlCopyMemory_to_page;
    try apply keeps_page_bytes;
    try apply keeps_load;
    try keeps_primitive.
Qed.

Lemma well_formed_transfer m m' :
  shared_fp_data m' = shared_fp_data m ->
  (forall q : nat, is_set (pool m' !! q) = is_set (pool m !! q)) ->
  well_formed m -> well_formed m'.
Proof.
  intros Hsh Hpool Hwf sh Hsh' fp Hin. rewrite Hsh in Hsh'.
  rewrite Hpool. exact (Hwf sh Hsh' fp Hin).
Qed.

Lemma destroy_loop l : forall m,
  NoDup l ->
  (forall p, p ∈ l -> is_set (pool m !! p) = true) ->
  exists m',
    for_each l Page_destroy m = Done tt m'
    /\ (forall p, pool m' !! p = if decide (p ∈ l) then None else pool m !! p)
    /\ pool_free m' = (pool_free m + length l)%nat.
Proof.
  induction l as [|x l IH]; intros m Hnd Hin.
  - exists m. split; [reflexivity |]. split; [| cbn; lia].
    intros p. destruct (decide (p ∈ [])) as [H|_]; [| reflexivity].
    now apply not_elem_of_nil in H.
  - apply NoDup_cons in Hnd as [Hx Hnd].
    rewrite for_each_cons. unfold bind, Page_destroy at 1.
    pose proof (Hin x (list_elem_of_here _ _)) as Hpx.
    destruct (pool m !! x) as [block|] eqn:Hpool; [| discriminate].
    destruct (IH (set_pool (delete x (pool m)) (S (pool_free m)) m) Hnd)
      as (m' & -> & Hp & Hfree).
    { intros p Hp. cbn. rewrite lookup_delete_ne by (intros ->; contradiction).
      apply Hin. now apply list_elem_of_further. }
    exists m'. split; [reflexivity |]. split; [| cbn in *; lia].
    intros p. rewrite Hp. cbn.
    destruct (decide (p ∈ l)) as [Hl|Hl].
    + rewrite decide_True by now apply list_elem_of_further. reflexivity.
    + destruct (decide (p = x)) as [->|Hne].
      * rewrite decide_True by apply list_elem_of_here. apply lookup_delete_eq.
      * rewrite decide_False by (rewrite elem_of_cons; tauto).
        now apply lookup_delete_ne.
Qed.

Lemma delete_keeps_the_rest :
  keeps (fun m => (memory m, ept_data m, journal m, page_tables m, kGuestCr3 m,
                   cr3 m, cr0 m, processor_fp_data m,
                   kCpuBasedVmExecControl m))
        FpVmCallDeleteFakePages.
Proof. frame. Qed.

Lemma delete_outcome m sh :
  shared_fp_data m = Some sh ->
  (forall fp_data, In fp_data (all_fp_data sh) ->
     is_set (pool m !! shadow_page_base_for_exec fp_data) = true) ->
  let kept := filter (fun fp_data => target_cr3 fp_data ≠ kGuestCr3 m)
                     (all_fp_data sh) in
  let erased := filter (fun fp_data => target_cr3 fp_data = kGuestCr3 m)
                       (all_fp_data sh) in
  exists m',
    FpVmCallDeleteFakePages m = Done tt m'
    /\ shared_fp_data m' = Some {| cpuinfo := cpuinfo sh; all_fp_data := kept |}
    /\ (forall p, pool m' !! p
                  = if decide (p ∈ orphaned erased kept) then None
                    else pool m !! p)
    /\ pool_free m' = (pool_free m + length (orphaned erased kept))%nat.
Proof.
  intros Hsh Hpages kept erased.
  cbv [FpVmCallDeleteFakePages bind UtilVmRead_kGuestCr3 get_shared].
  rewrite Hsh. cbv [deref ret put_shared bind]. fold kept erased.
  set (m1 := set_shared (Some {| cpuinfo := cpuinfo sh; all_fp_data := kept |}) m).
  destruct (destroy_loop (orphaned erased kept) m1) as (m' & Hrun & Hpool & Hfree).
  { apply NoDup_filter, NoDup_remove_dups. }
  { intros p Hp. apply list_elem_of_filter in Hp as [_ Hp].
    apply elem_of_remove_dups, list_elem_of_fmap in Hp as (fp & -> & Hp).
    apply list_elem_of_filter in Hp as [_ Hp].
    apply Hpages, list_elem_of_In, Hp. }
  exists m'. split; [exact Hrun |].
  pose proof (destroy_keeps_registry (orphaned erased kept) m1) as Hreg.
  rewrite Hrun in Hreg. cbn in Hreg.
  split; [exact Hreg |]. split; [exact Hpool | exact Hfree].
Qed.

Lemma peek_bytes_length m va len : length (peek_bytes m va len) = len.
Proof. unfold peek_bytes. now rewrite length_map, length_seq. Qed.

Lemma well_formed_after_create context m r m' :
  well_formed m -> FpVmCallCreateFakePage context m = Done r m' ->
  well_formed m'.
Proof.
  intros Hwf Hrun.
  destruct (shared_fp_data m) as [sh|] eqn:Hsh;
    [| pose proof (create_needs_registry context m Hsh) as Hno;
       rewrite Hrun in Hno; discriminate].
  pose proof (create_outcome context m sh Hsh) as Hc.
  rewrite Hrun in Hc. cbv zeta in Hc.
  set (start := requested_address context m) in *.
  destruct Hc as (_ & fp & Hreg & Hpatch & Htarget & _ & _ & Horig & _ & _ & Hpage).
  specialize (Hwf sh Hsh).
  assert (Hold : forall e, In e (all_fp_data sh) ->
            is_set (pool m' !! shadow_page_base_for_exec e) = true).
  { intros e He. destruct (Hwf e He) as (Hp & _).
    destruct (find _ _) as [reusable|].
    - destruct Hpage as [_ ->]. exact Hp.
    - destruct Hpage as (_ & block & ->). unfold PagePtr in *.
      destruct (decide (shadow_page_base_for_exec fp = shadow_page_base_for_exec e))
        as [->|Hne]; [now rewrite lookup_insert_eq |].
      now rewrite lookup_insert_ne. }
  assert (Hnew : is_set (pool m' !! shadow_page_base_for_exec fp) = true
                 /\ forall e, In e (all_fp_data sh) ->
                      shadow_page_base_for_exec e = shadow_page_base_for_exec fp
                      <-> target_cr3 e = target_cr3 fp
                          /\ PAGE_ALIGN (patch_address e)
                             = PAGE_ALIGN (patch_address fp)).
  { rewrite Htarget, Hpatch.
    destruct (find _ _) as [reusable|] eqn:Hfind.
    - destruct Hpage as [Hshare Hpool].
      apply find_some in Hfind as [Hin Hp].
      apply andb_true_iff in Hp as [Hp1 Hp2]. apply Z.eqb_eq in Hp1, Hp2.
      rewrite Hshare. split; [now apply Hold |].
      intros e He. destruct (Hwf reusable Hin) as (_ & _ & Hiff).
      rewrite (Hiff e He), Hp1, Hp2. reflexivity.
    - destruct Hpage as (Hfresh & block & Hpool).
      split; [unfold PagePtr in *; now rewrite Hpool, lookup_insert_eq |].
      intros e He. destruct (Hwf e He) as (Hp & _). split.
      + intros Heq. unfold PagePtr in *. rewrite Heq, Hfresh in Hp. discriminate.
      + intros [H1 H2]. pose proof (find_none _ _ Hfind e He) as Hno.
        cbv beta in Hno. rewrite H1, H2, !Z.eqb_refl in Hno. discriminate. }
  destruct Hnew as [Hnew_page Hnew_iff].
  intros sh' Hsh' e He. rewrite Hreg in Hsh'. injection Hsh' as <-.
  cbn in He. apply in_app_or in He as [He|[<-|[]]].
  - destruct (Hwf e He) as (_ & Hlen & Hiff).
    split; [now apply Hold |]. split; [exact Hlen |].
    intros other Hother. cbn in Hother.
    apply in_app_or in Hother as [Hother|[<-|[]]]; [now apply Hiff |].
    destruct (Hnew_iff e He) as [H1 H2]. split.
    + intros Heq. symmetry in Heq. destruct (H1 Heq). split; congruence.
    + intros [Ha Hb]. symmetry. apply H2. split; congruence.
  - split; [exact Hnew_page |]. split.
    + rewrite Horig, length_drop, peek_bytes_length. reflexivity.
    + intros other Hother. cbn in Hother.
      apply in_app_or in Hother as [Hother|[<-|[]]]; [now apply Hnew_iff |].
      tauto.
Qed.

Lemma well_formed_after_delete m m' :
  well_formed m -> FpVmCallDeleteFakePages m = Done tt m' -> well_formed m'.
Proof.
  intros Hwf Hrun.
  destruct (shared_fp_data m) as [sh|] eqn:Hsh.
  2: { revert Hrun. cbv [FpVmCallDeleteFakePages bind UtilVmRead_kGuestCr3 get_shared].
       rewrite Hsh. discriminate. }
  specialize (Hwf sh Hsh).
  destruct (delete_outcome m sh Hsh) as (m'' & Hrun' & Hreg & Hpool & _).
  { intros fp Hfp. now destruct (Hwf fp Hfp). }
  rewrite Hrun in Hrun'. injection Hrun' as <-.
  intros sh' Hsh' e He. rewrite Hreg in Hsh'. injection Hsh' as <-.
  cbn in He. apply list_elem_of_In in He as He'.
  apply list_elem_of_filter in He' as [_ Hin]. apply list_elem_of_In in Hin.
  destruct (Hwf e Hin) as (Hp & Hlen & Hiff).
  split; [| split; [exact Hlen |]].
  - rewrite Hpool. rewrite decide_False; [exact Hp |].
    intros Horph. apply list_elem_of_filter in Horph as [Hnot _].
    apply Hnot, list_elem_of_fmap_2, list_elem_of_In, He.
  - intros other Hother. cbn in Hother.
    apply list_elem_of_In, list_elem_of_filter in Hother as [_ Hother].
    apply Hiff, list_elem_of_In, Hother.
Qed.

(** X7.  The registry stays well formed.  If every entry holds a page of
    the pool and 32 original bytes, and two entries hold the same page
    exactly when they are on the same page of the same address space, then
    the same is true after every entry point that returns: the create,
    enable, disable and delete calls, the violation dispatcher and the
    single-step handler. *)
Theorem X7_registry_stays_well_formed c m m' :
  well_formed m -> handle c m = Done tt m' -> well_formed m'.
Proof.
  intros Hwf Hrun.
  destruct c as [context| | | |fault_va fault_pa|].
  1: { unfold handle, bind in Hrun.
       destruct (FpVmCallCreateFakePage context m) as [r m1|] eqn:Hc;
         [| discriminate].
       injection Hrun as <-. exact (well_formed_after_create _ _ _ _ Hwf Hc). }
  3: exact (well_formed_after_delete _ _ Hwf Hrun).
  all: apply (well_formed_transfer m m'); [| | exact Hwf].
  all: match goal with
       | |- shared_fp_data _ = _ =>
           match type of Hrun with
           | handle ?c _ = _ =>
               pose proof (proj2 (handlers_keep_pages c 0%nat) m) as H;
               rewrite Hrun in H; exact H
           end
       | |- forall q, _ =>
           intros q;
           match type of Hrun with
           | handle ?c _ = _ =>
               pose proof (proj1 (handlers_keep_pages c q) m) as H;
               rewrite Hrun in H; exact H
           end
       end.
Qed.

Lemma X7_registry_stays_well_formed_witness :
  well_formed (final (handle (CallCreate 0x7000) boot)).
Proof.
  apply (X7_registry_stays_well_formed (CallCreate 0x7000) boot).
  - intros sh [= <-] fp [].
  - apply (returned_final (handle (CallCreate 0x7000) boot)).
    vm_compute; reflexivity.
Defined.

(** ** After the delete call *)

Lemma find_filter {A} (f : A -> bool) (P : A -> Prop)
    `{forall x, Decision (P x)} (l : list A) :
  List.find f (filter P l) = List.find (fun x => bool_decide (P x) && f x) l.
Proof.
  induction l as [|x l IH]; [reflexivity |].
  rewrite filter_cons. cbn.
  destruct (decide (P x)) as [Hx|Hx].
  - rewrite bool_decide_eq_true_2 by exact Hx. cbn.
    destruct (f x); [reflexivity | exact IH].
  - rewrite bool_decide_eq_false_2 by exact Hx. cbn. exact IH.
Qed.

Lemma find_ext_all {A} (f g : A -> bool) l :
  (forall x, f x = g x) -> List.find f l = List.find g l.
Proof.
  intros Hfg. induction l as [|x l IH]; [reflexivity |].
  cbn. rewrite Hfg, IH. reflexivity.
Qed.

Lemma find_never {A} (f : A -> bool) l :
  (forall x, f x = false) -> List.find f l = None.
Proof.
  intros Hf. induction l as [|x l IH]; [reflexivity |].
  cbn. now rewrite Hf.
Qed.

Lemma filter_all {A} (P : A -> Prop) `{forall x, Decision (P x)} (l : list A) :
  (forall x, x ∈ l -> P x) -> filter P l = l.
Proof.
  induction l as [|x l IH]; intros Hall; [reflexivity |].
  rewrite filter_cons, decide_True by apply Hall, list_elem_of_here.
  f_equal. apply IH. intros y Hy. now apply Hall, list_elem_of_further.
Qed.

Lemma filter_none {A} (P : A -> Prop) `{forall x, Decision (P x)} (l : list A) :
  (forall x, x ∈ l -> ~ P x) -> filter P l = [].
Proof.
  induction l as [|x l IH]; intros Hall; [reflexivity |].
  rewrite filter_cons, decide_False by apply Hall, list_elem_of_here.
  apply IH. intros y Hy. now apply Hall, list_elem_of_further.
Qed.

Lemma delete_registry m :
  shared_fp_data (final (FpVmCallDeleteFakePages m))
  = match shared_fp_data m with
    | Some sh =>
        Some {| cpuinfo := cpuinfo sh;
                all_fp_data :=
                  filter (fun fp_data => target_cr3 fp_data ≠ kGuestCr3 m)
                         (all_fp_data sh) |}
    | None => None
    end.
Proof.
  unfold FpVmCallDeleteFakePages, bind, UtilVmRead_kGuestCr3, get_shared, deref.
  destruct (shared_fp_data m) as [sh|] eqn:Hsh; simpl; [| exact Hsh].
  match goal with
  | |- context [for_each ?l Page_destroy ?m1] =>
      pose proof (destroy_keeps_registry l m1) as Hk;
      destruct (for_each l Page_destroy m1); exact Hk
  end.
Qed.

(** X8.  After the delete call returns, no lookup by page in the address
    space of the requester finds an entry, whatever the address; a lookup by
    page in another address space finds what it found before; and a second
    delete call returns at once, leaving the registry, the pool and the count
    of free pages as the first one left them. *)
Theorem X8_deleted_entries_are_not_found m m' :
  FpVmCallDeleteFakePages m = Done tt m' ->
  (forall address,
      FppFindFakePageDataByPage (shared_fp_data m') address m' = Done None m')
  /\ (forall other address,
        other <> kGuestCr3 m ->
        result (FppFindFakePageDataByPage (shared_fp_data m') address
                  (resumed_in other m'))
        = result (FppFindFakePageDataByPage (shared_fp_data m) address
                    (resumed_in other m)))
  /\ exists m'',
       FpVmCallDeleteFakePages m' = Done tt m''
       /\ shared_fp_data m'' = shared_fp_data m'
       /\ pool m'' = pool m'
       /\ pool_free m'' = pool_free m'.
Proof.
  intros Hrun.
  pose proof (delete_registry m) as Hreg.
  pose proof (delete_keeps_the_rest m) as Hrest.
  rewrite Hrun in Hreg, Hrest. cbn in Hreg, Hrest.
  assert (Hg : kGuestCr3 m' = kGuestCr3 m) by congruence. clear Hrest.
  destruct (shared_fp_data m) as [sh|] eqn:Hsh.
  2: { revert Hrun.
       cbv [FpVmCallDeleteFakePages bind UtilVmRead_kGuestCr3 get_shared].
       rewrite Hsh. discriminate. }
  split; [| split].
  - intros address. unfold FppFindFakePageDataByPage.
    cbv [bind UtilVmRead_kGuestCr3 deref ret]. rewrite Hreg, Hg. cbn.
    rewrite find_filter, find_never; [reflexivity |].
    intros fp. cbv beta.
    destruct (Z.eqb_spec (target_cr3 fp) (kGuestCr3 m)) as [Heq|Hne].
    + rewrite bool_decide_eq_false_2 by tauto. reflexivity.
    + now rewrite !andb_false_r.
  - intros other address Hother. unfold FppFindFakePageDataByPage.
    cbv [bind UtilVmRead_kGuestCr3 deref ret]. rewrite Hreg. cbn.
    rewrite find_filter. f_equal. apply find_ext_all. intros fp. cbv beta.
    destruct (Z.eqb_spec (target_cr3 fp) other) as [Heq|Hne].
    + rewrite bool_decide_eq_true_2 by congruence. reflexivity.
    + now rewrite !andb_false_r.
  - cbv [FpVmCallDeleteFakePages bind UtilVmRead_kGuestCr3 get_shared].
    rewrite Hreg, Hg. cbv [deref ret put_shared bind].
    rewrite (filter_none (fun fp => target_cr3 fp = kGuestCr3 m)).
    2: { intros fp Hfp. apply list_elem_of_filter in Hfp as [Hne _]. exact Hne. }
    rewrite (filter_all (fun fp => target_cr3 fp ≠ kGuestCr3 m)).
    2: { intros fp Hfp. apply list_elem_of_filter in Hfp as [Hne _]. exact Hne. }
    eexists. split; [reflexivity |]. cbn. auto.
Qed.

Lemma X8_deleted_entries_are_not_found_witness :
  (forall address,
      FppFindFakePageDataByPage
        (shared_fp_data (final (FpVmCallDeleteFakePages enabled))) address
        (final (FpVmCallDeleteFakePages enabled))
      = Done None (final (FpVmCallDeleteFakePages enabled)))
  /\ (forall other address,
        other <> kGuestCr3 enabled ->
        result (FppFindFakePageDataByPage
                  (shared_fp_data (final (FpVmCallDeleteFakePages enabled)))
                  address
                  (resumed_in other (final (FpVmCallDeleteFakePages enabled))))
        = result (FppFindFakePageDataByPage (shared_fp_data enabled) address
                    (resumed_in other enabled)))
  /\ exists m'',
       FpVmCallDeleteFakePages (final (FpVmCallDeleteFakePages enabled))
       = Done tt m''
       /\ shared_fp_data m''
          = shared_fp_data (final (FpVmCallDeleteFakePages enabled))
       /\ pool m'' = pool (final (FpVmCallDeleteFakePages enabled))
       /\ pool_free m'' = pool_free (final (FpVmCallDeleteFakePages enabled)).
Proof.
  apply (X8_deleted_entries_are_not_found enabled).
  apply (returned_final (FpVmCallDeleteFakePages enabled)).
  vm_compute; reflexivity.
Defined.

(** X9.  On a well-formed registry the delete call returns, and releases
    exactly the shadow pages of the entries it erases: the page of every
    entry of the requester is gone from the pool, the page of every other
    entry is in the pool with its bytes as they were, and so is every page no
    entry holds; the count of free pages grows by the number of distinct
    pages released.  The call writes neither the second-level table, nor
    guest memory, nor the pending slot: a page left enabled stays backed by
    the frame of a released page. *)
Theorem X9_delete_releases_the_pages m sh :
  well_formed m ->
  shared_fp_data m = Some sh ->
  exists m',
    FpVmCallDeleteFakePages m = Done tt m'
    /\ (forall fp_data, In fp_data (all_fp_data sh) ->
          pool m' !! shadow_page_base_for_exec fp_data
          = if decide (target_cr3 fp_data = kGuestCr3 m) then None
            else pool m !! shadow_page_base_for_exec fp_data)
    /\ (forall p : PagePtr,
          (forall fp_data, In fp_data (all_fp_data sh) ->
             shadow_page_base_for_exec fp_data <> p) ->
          pool m' !! p = pool m !! p)
    /\ pool_free m'
       = (pool_free m
          + length (remove_dups
                      (shadow_page_base_for_exec
                         <$> filter (fun fp_data =>
                                       target_cr3 fp_data = kGuestCr3 m)
                                    (all_fp_data sh))))%nat
    /\ ept_data m' = ept_data m
    /\ journal m' = journal m
    /\ memory m' = memory m
    /\ pending m' = pending m.
Proof.
  intros Hwf Hsh. specialize (Hwf sh Hsh).
  destruct (delete_outcome m sh Hsh) as (m' & Hrun & Hreg & Hpool & Hfree).
  { intros fp Hfp. now destruct (Hwf fp Hfp). }
  pose proof (delete_keeps_the_rest m) as Hrest.
  rewrite Hrun in Hrest. cbn in Hrest.
  set (kept := filter (fun fp => target_cr3 fp ≠ kGuestCr3 m) (all_fp_data sh)) in *.
  set (erased := filter (fun fp => target_cr3 fp = kGuestCr3 m) (all_fp_data sh)) in *.
  assert (Hmine : forall fp, In fp (all_fp_data sh) ->
            target_cr3 fp = kGuestCr3 m ->
            shadow_page_base_for_exec fp ∈ orphaned erased kept).
  { intros fp Hin Hg. apply list_elem_of_filter. split.
    - intros Hk. apply list_elem_of_fmap in Hk as (k & Heq & Hk).
      apply list_elem_of_filter in Hk as [Hne Hk]. apply list_elem_of_In in Hk.
      destruct (Hwf fp Hin) as (_ & _ & Hiff).
      destruct (proj1 (Hiff k Hk)) as [Ht _]; [now symmetry |]. congruence.
    - apply elem_of_remove_dups, list_elem_of_fmap_2, list_elem_of_filter.
      split; [exact Hg | now apply list_elem_of_In]. }
  assert (Hin_orph : forall p, p ∈ orphaned erased kept ->
            exists fp, In fp (all_fp_data sh) /\ shadow_page_base_for_exec fp = p
                       /\ target_cr3 fp = kGuestCr3 m).
  { intros p Hp. apply list_elem_of_filter in Hp as [_ Hp].
    apply elem_of_remove_dups, list_elem_of_fmap in Hp as (fp & -> & Hp).
    apply list_elem_of_filter in Hp as [Hg Hp]. apply list_elem_of_In in Hp.
    eauto. }
  exists m'. split; [exact Hrun |]. split; [| split; [| split]].
  - intros fp Hin. rewrite Hpool.
    destruct (decide (target_cr3 fp = kGuestCr3 m)) as [Hg|Hg].
    + now rewrite decide_True by now apply Hmine.
    + rewrite decide_False; [reflexivity |].
      intros Horph. apply list_elem_of_filter in Horph as [Hnot _].
      apply Hnot, list_elem_of_fmap_2, list_elem_of_filter.
      split; [exact Hg | now apply list_elem_of_In].
  - intros p Hp. rewrite Hpool, decide_False; [reflexivity |].
    intros Horph. destruct (Hin_orph p Horph) as (fp & Hin & Heq & _).
    exact (Hp fp Hin Heq).
  - rewrite Hfree. f_equal. unfold orphaned. f_equal.
    apply filter_all. intros p Hp Hk.
    apply elem_of_remove_dups, list_elem_of_fmap in Hp as (fp & -> & Hp).
    apply list_elem_of_filter in Hp as [Hg Hp]. apply list_elem_of_In in Hp.
    pose proof (Hmine fp Hp Hg) as Horph.
    apply list_elem_of_filter in Horph as [Hnot _]. exact (Hnot Hk).
  - unfold pending. repeat split; congruence.
Qed.

Lemma X9_delete_releases_the_pages_witness :
  exists m',
    FpVmCallDeleteFakePages enabled = Done tt m'
    /\ (forall fp_data, In fp_data (all_fp_data scenario_registry) ->
          pool m' !! shadow_page_base_for_exec fp_data
          = if decide (target_cr3 fp_data = kGuestCr3 enabled) then None
            else pool enabled !! shadow_page_base_for_exec fp_data)
    /\ (forall p : PagePtr,
          (forall fp_data, In fp_data (all_fp_data scenario_registry) ->
             shadow_page_base_for_exec fp_data <> p) ->
          pool m' !! p = pool enabled !! p)
    /\ pool_free m'
       = (pool_free enabled
          + length (remove_dups
                      (shadow_page_base_for_exec
                         <$> filter (fun fp_data =>
                                       target_cr3 fp_data = kGuestCr3 enabled)
                                    (all_fp_data scenario_registry))))%nat
    /\ ept_data m' = ept_data enabled
    /\ journal m' = journal enabled
    /\ memory m' = memory enabled
    /\ pending m' = pending enabled.
Proof.
  apply (X9_delete_releases_the_pages enabled scenario_registry).
  - intros sh Hsh fp Hfp.
    assert (sh = scenario_registry) as ->
      by (vm_compute in Hsh; injection Hsh as <-; reflexivity).
    destruct Hfp as [<-|[]].
    split; [reflexivity |]. split; [reflexivity |].
    intros other [<-|[]]. tauto.
  - vm_compute; reflexivity.
Defined.

(** ** What the enable and disable calls do to the second-level table *)

Lemma key_of_patch tables fp_data :
  EptGetEptPtEntry
    (translate tables (target_cr3 fp_data) (patch_address fp_data))
  = frame_of tables fp_data.
Proof. apply frame_of_translate. Qed.

Lemma key_of_page_base tables fp_data :
  EptGetEptPtEntry
    (translate tables (target_cr3 fp_data) (PAGE_ALIGN (patch_address fp_data)))
  = frame_of tables fp_data.
Proof. apply frame_of_page_base. Qed.

Lemma pfn_of_page_base tables fp_data :
  UtilPfnFromPa
    (translate tables (target_cr3 fp_data) (PAGE_ALIGN (patch_address fp_data)))
  = frame_of tables fp_data.
Proof. apply frame_of_page_base. Qed.

Lemma poke_writes tr bytes : forall mem dst,
  poke tr mem dst bytes = apply_writes (writes_of tr dst bytes) mem.
Proof.
  induction bytes as [|b rest IH]; intros mem dst; [reflexivity |].
  change (poke tr mem dst (b :: rest))
    with (poke tr (fun a => if a =? tr dst then b else mem a)
            (wrap64 (dst + 1)) rest).
  rewrite IH. reflexivity.
Qed.

Lemma apply_writes_app ws1 ws2 mem :
  apply_writes (ws1 ++ ws2) mem = apply_writes ws2 (apply_writes ws1 mem).
Proof. apply fold_left_app. Qed.

Lemma apply_writes_last ws : forall mem a,
  apply_writes ws mem a
  = match List.find (fun w => a =? fst w) (rev ws) with
    | Some w => snd w
    | None => mem a
    end.
Proof.
  induction ws as [|w ws IH]; intros mem a; [reflexivity |].
  change (apply_writes (w :: ws) mem)
    with (apply_writes ws (fun a => if a =? fst w then snd w else mem a)).
  rewrite IH. cbn [rev]. rewrite find_app.
  destruct (find _ (rev ws)); [reflexivity |].
  cbn [List.find]. destruct (a =? fst w); reflexivity.
Qed.

Lemma apply_writes_twice ws mem a :
  apply_writes ws (apply_writes ws mem) a = apply_writes ws mem a.
Proof.
  rewrite (apply_writes_last ws (apply_writes ws mem)).
  rewrite (apply_writes_last ws mem).
  destruct (find _ (rev ws)); reflexivity.
Qed.

Lemma last_on_cons A tables k fp_data l :
  last_on A tables k (fp_data :: l)
  = match last_on A tables k l with
    | Some later => Some later
    | None =>
        if (target_cr3 fp_data =? A) && (k =? frame_of tables fp_data)
        then Some fp_data else None
    end.
Proof. unfold last_on. cbn [rev]. rewrite find_app. reflexivity. Qed.

(** A loop over the registry whose turn, for an entry of the address space
    [A], writes one entry of the second-level table and makes the writes
    [ws] onto guest memory, and does nothing for another entry. *)
Section Replay.
Variables (A v : Z) (body : FakePageData -> Vmx unit).
Variable written : FakePageData -> Z -> EptCommonEntry -> EptCommonEntry.
Variable ready : Machine -> FakePageData -> Prop.
Variable ws : Machine -> FakePageData -> list (Z * Z).

Hypothesis written_again : forall fp_data other k e,
  written fp_data k (written other k e) = written fp_data k e.
Hypothesis ready_stable : forall m m1 fp_data,
  pool m1 = pool m -> ready m fp_data -> ready m1 fp_data.
Hypothesis ws_stable : forall m m1 fp_data,
  page_tables m1 = page_tables m -> pool m1 = pool m ->
  ws m1 fp_data = ws m fp_data.
Hypothesis body_run : forall fp_data m,
  cr3 m = v ->
  (target_cr3 fp_data = A -> ready m fp_data) ->
  exists m1,
    body fp_data m = Done tt m1
    /\ (cr3 m1 = v /\ cr0 m1 = cr0 m /\ page_tables m1 = page_tables m
        /\ pool m1 = pool m /\ pool_free m1 = pool_free m
        /\ shared_fp_data m1 = shared_fp_data m
        /\ kGuestCr3 m1 = kGuestCr3 m)
    /\ (forall k,
          ept_data m1 k
          = if (target_cr3 fp_data =? A) && (k =? frame_of (page_tables m) fp_data)
            then written fp_data k (ept_data m k)
            else ept_data m k)
    /\ memory m1
       = apply_writes (if target_cr3 fp_data =? A then ws m fp_data else [])
           (memory m)
    /\ (if target_cr3 fp_data =? A then stale (journal m1) = false
        else journal m1 = journal m).

Lemma replay_loop l : forall m,
  cr3 m = v ->
  (forall fp_data, In fp_data l -> target_cr3 fp_data = A -> ready m fp_data) ->
  exists m1,
    for_each l body m = Done tt m1
    /\ (cr3 m1 = v /\ cr0 m1 = cr0 m /\ page_tables m1 = page_tables m
        /\ pool m1 = pool m /\ pool_free m1 = pool_free m
        /\ shared_fp_data m1 = shared_fp_data m
        /\ kGuestCr3 m1 = kGuestCr3 m)
    /\ (forall k,
          ept_data m1 k
          = match last_on A (page_tables m) k l with
            | Some fp_data => written fp_data k (ept_data m k)
            | None => ept_data m k
            end)
    /\ memory m1
       = apply_writes
           (concat (map (fun fp_data =>
                           if target_cr3 fp_data =? A then ws m fp_data else [])
                        l))
           (memory m)
    /\ (stale (journal m1) = false
        \/ journal m1 = journal m
           /\ forall fp_data, In fp_data l -> target_cr3 fp_data <> A).
Proof.
  induction l as [|fp l IH]; intros m Hv Hready.
  - exists m. split; [reflexivity |]. split; [auto 10 |].
    split; [reflexivity |]. split; [reflexivity |].
    right. split; [reflexivity | intros ? []].
  - rewrite for_each_cons. unfold bind.
    destruct (body_run fp m Hv) as (m1 & -> & Hsame & Hept & Hmem & Hj).
    { intros HA. apply Hready; [now left | exact HA]. }
    destruct Hsame as (Hc3 & Hc0 & Hpt & Hpl & Hfr & Hsh & Hg).
    destruct (IH m1 Hc3) as (m2 & -> & Hsame' & Hept' & Hmem' & Hj').
    { intros fp' Hin HA. apply (ready_stable m); [exact Hpl |].
      apply Hready; [now right | exact HA]. }
    destruct Hsame' as (Hc3' & Hc0' & Hpt' & Hpl' & Hfr' & Hsh' & Hg').
    exists m2. split; [reflexivity |]. split; [| split; [| split]].
    + repeat split; congruence.
    + intros k. rewrite Hept', Hpt, last_on_cons, Hept.
      destruct (last_on A (page_tables m) k l) as [later|].
      * destruct (_ && _); [apply written_again | reflexivity].
      * destruct (_ && _); reflexivity.
    + rewrite Hmem', Hmem. cbn [map concat]. rewrite apply_writes_app.
      f_equal. f_equal. apply map_ext. intros fp'.
      now rewrite (ws_stable m m1 fp') by assumption.
    + destruct Hj' as [Hst|[Hsame' Hnone]]; [now left |].
      destruct (Z.eqb_spec (target_cr3 fp) A) as [HA|HA].
      * left. congruence.
      * right. split; [congruence |].
        intros fp' [<-|Hin]; [exact HA | now apply Hnone].
Qed.

(** The loop, run twice, leaves what it leaves run once. *)
Lemma replay_twice l m :
  cr3 m = v ->
  (forall fp_data, In fp_data l -> target_cr3 fp_data = A -> ready m fp_data) ->
  forall c,
  exists m1 m2,
    for_each l body m = Done tt m1
    /\ for_each l body (set_cr0 c m1) = Done tt m2
    /\ (cr3 m2 = v /\ cr3 m1 = v /\ cr0 m2 = c /\ cr0 m1 = cr0 m
        /\ pool m2 = pool m /\ pool m1 = pool m
        /\ pool_free m2 = pool_free m /\ pool_free m1 = pool_free m
        /\ shared_fp_data m2 = shared_fp_data m
        /\ shared_fp_data m1 = shared_fp_data m
        /\ kGuestCr3 m1 = kGuestCr3 m)
    /\ (forall k, ept_data m2 k = ept_data m1 k)
    /\ (forall pa, memory m2 pa = memory m1 pa).
Proof.
  intros Hv Hready c.
  destruct (replay_loop l m Hv Hready)
    as (m1 & Hrun1 & Hsame & Hept & Hmem & _).
  destruct Hsame as (Hc3 & Hc0 & Hpt & Hpl & Hfr & Hsh & Hg).
  destruct (replay_loop l (set_cr0 c m1))
    as (m2 & Hrun2 & Hsame' & Hept' & Hmem' & _).
  { exact Hc3. }
  { intros fp Hin HA. apply (ready_stable m); [exact Hpl | now apply Hready]. }
  destruct Hsame' as (Hc3' & Hc0' & Hpt' & Hpl' & Hfr' & Hsh' & Hg').
  cbn in Hc0', Hpt', Hpl', Hfr', Hsh', Hg', Hept', Hmem'.
  exists m1, m2. split; [exact Hrun1 |]. split; [exact Hrun2 |].
  split; [| split].
  - repeat split; congruence.
  - intros k. rewrite Hept', Hept, Hpt.
    destruct (last_on A (page_tables m) k l); [apply written_again | reflexivity].
  - intros pa. rewrite Hmem', Hmem.
    replace (concat (map (fun fp => if target_cr3 fp =? A
                                    then ws (set_cr0 c m1) fp else []) l))
      with (concat (map (fun fp => if target_cr3 fp =? A
                                   then ws m fp else []) l)).
    + apply apply_writes_twice.
    + f_equal. apply map_ext. intros fp.
      now rewrite (ws_stable m (set_cr0 c m1) fp) by assumption.
Qed.
End Replay.

Lemma shadowing_turn A v fp_data m :
  cr3 m = v ->
  exists m1,
    shadowing A v fp_data m = Done tt m1
    /\ (cr3 m1 = v /\ cr0 m1 = cr0 m /\ page_tables m1 = page_tables m
        /\ pool m1 = pool m /\ pool_free m1 = pool_free m
        /\ shared_fp_data m1 = shared_fp_data m
        /\ kGuestCr3 m1 = kGuestCr3 m)
    /\ (forall k,
          ept_data m1 k
          = if (target_cr3 fp_data =? A) && (k =? frame_of (page_tables m) fp_data)
            then {| read_access := false; write_access := false;
                    execute_access := execute_access (ept_data m k);
                    physial_address := UtilPfnFromPa (pa_base_for_exec fp_data) |}
            else ept_data m k)
    /\ memory m1
       = apply_writes
           (if target_cr3 fp_data =? A
            then writes_of (translate (page_tables m) (target_cr3 fp_data))
                   (patch_address fp_data) (original_bytes fp_data)
            else [])
           (memory m)
    /\ (if target_cr3 fp_data =? A then stale (journal m1) = false
        else journal m1 = journal m).
Proof.
  intros Hv. crunch. destruct (target_cr3 fp_data =? A); cbn;
    rewrite ?RtlCopyMemory_to_guest_eq; cbn;
    (eexists; split; [reflexivity |]); cbn;
    (split; [auto 10 |]); (split; [| split; [| reflexivity]]);
    try reflexivity.
  - intros k. rewrite key_of_patch.
    destruct (k =? frame_of (page_tables m) fp_data); reflexivity.
  - apply poke_writes.
Qed.

Lemma unshadowing_turn A v fp_data m :
  cr3 m = v ->
  (target_cr3 fp_data = A ->
   is_set (pool m !! shadow_page_base_for_exec fp_data) = true
   /\ BYTE_OFFSET (patch_address fp_data) <= PAGE_SIZE - 32) ->
  exists m1,
    unshadowing A v fp_data m = Done tt m1
    /\ (cr3 m1 = v /\ cr0 m1 = cr0 m /\ page_tables m1 = page_tables m
        /\ pool m1 = pool m /\ pool_free m1 = pool_free m
        /\ shared_fp_data m1 = shared_fp_data m
        /\ kGuestCr3 m1 = kGuestCr3 m)
    /\ (forall k,
          ept_data m1 k
          = if (target_cr3 fp_data =? A) && (k =? frame_of (page_tables m) fp_data)
            then {| read_access := true; write_access := true;
                    execute_access := execute_access (ept_data m k);
                    physial_address := k |}
            else ept_data m k)
    /\ memory m1
       = apply_writes
           (if target_cr3 fp_data =? A
            then writes_of (translate (page_tables m) (target_cr3 fp_data))
                   (patch_address fp_data) (patch_bytes m fp_data)
            else [])
           (memory m)
    /\ (if target_cr3 fp_data =? A then stale (journal m1) = false
        else journal m1 = journal m).
Proof.
  intros Hv Hok.
  pose proof (BYTE_OFFSET_range (patch_address fp_data)) as Hr.
  unfold patch_bytes.
  crunch. destruct (Z.eqb_spec (target_cr3 fp_data) A) as [HA|HA]; cbn.
  - destruct (Hok HA) as [Hpage Hoff].
    destruct (pool m !! shadow_page_base_for_exec fp_data) as [block|];
      [| discriminate].
    replace ((0 <=? BYTE_OFFSET (patch_address fp_data))
             && (BYTE_OFFSET (patch_address fp_data)
                 + Z.of_nat (Z.to_nat original_bytes_size) <=? PAGE_SIZE))
      with true
      by (symmetry; apply andb_true_iff; split; apply Z.leb_le;
          [lia | change (Z.of_nat (Z.to_nat original_bytes_size)) with 32; lia]).
    cbn. rewrite RtlCopyMemory_to_guest_eq. cbn.
    eexists; split; [reflexivity |]; cbn.
    split; [auto 10 |]. split; [| split; [| reflexivity]].
    + intros k. rewrite key_of_page_base, pfn_of_page_base.
      destruct (Z.eqb_spec k (frame_of (page_tables m) fp_data)) as [->|];
        reflexivity.
    + apply poke_writes.
  - eexists; split; [reflexivity |]; cbn; auto 10.
Qed.

Lemma last_on_found A tables l fp_data :
  In fp_data l -> target_cr3 fp_data = A ->
  exists last,
    last_on A tables (frame_of tables fp_data) l = Some last.
Proof.
  intros Hin HA. unfold last_on.
  apply (find_is_some _ (rev l) fp_data); [now apply in_rev in Hin |].
  apply Z.eqb_eq in HA. now rewrite HA, Z.eqb_refl.
Qed.

Lemma last_on_is A tables k l last :
  last_on A tables k l = Some last ->
  In last l /\ target_cr3 last = A /\ frame_of tables last = k.
Proof.
  unfold last_on. intros Hfind. apply find_some in Hfind as [Hin Hp].
  apply andb_true_iff in Hp as [H1 H2]. apply Z.eqb_eq in H1, H2.
  apply in_rev in Hin. auto.
Qed.

Lemma enable_table m sh :
  shared_fp_data m = Some sh ->
  exists m',
    FpVmCallEnableFakePages m = Done STATUS_SUCCESS m'
    /\ (forall k,
          ept_data m' k
          = match last_on (kGuestCr3 m) (page_tables m) k (all_fp_data sh) with
            | Some fp_data =>
                {| read_access := false; write_access := false;
                   execute_access := execute_access (ept_data m k);
                   physial_address := UtilPfnFromPa (pa_base_for_exec fp_data) |}
            | None => ept_data m k
            end)
    /\ pool m' = pool m
    /\ (stale (journal m') = false
        \/ journal m' = journal m
           /\ forall fp_data, In fp_data (all_fp_data sh) ->
                target_cr3 fp_data <> kGuestCr3 m).
Proof.
  intros Hsh.
  set (relaxed := {| wp := false; cr0_other := cr0_other (cr0 m) |}).
  destruct (replay_loop (kGuestCr3 m) (cr3 m) (shadowing (kGuestCr3 m) (cr3 m))
              (fun fp k e =>
                 {| read_access := false; write_access := false;
                    execute_access := execute_access e;
                    physial_address := UtilPfnFromPa (pa_base_for_exec fp) |})
              (fun _ _ => True)
              (fun m0 fp =>
                 writes_of (translate (page_tables m0) (target_cr3 fp))
                   (patch_address fp) (original_bytes fp)))
    with (l := all_fp_data sh) (m := set_cr0 relaxed m)
    as (m1 & Hrun & Hsame & Hept & _ & Hj).
  { reflexivity. }
  { auto. }
  { intros m0 m1 fp Hpt _. now rewrite Hpt. }
  { intros fp m0 Hv _. exact (shadowing_turn (kGuestCr3 m) (cr3 m) fp m0 Hv). }
  { reflexivity. }
  { auto. }
  destruct Hsame as (_ & _ & _ & Hpool & _).
  exists (set_cr0 (cr0 m) m1). split; [| split; [exact Hept | split; assumption]].
  unfold FpVmCallEnableFakePages.
  cbv [bind UtilVmRead_kGuestCr3 __readcr3 __readcr0 __writecr0 get_shared
       deref ret].
  cbn. rewrite Hsh. cbn. fold relaxed. now rewrite Hrun.
Qed.

(** X10.  The enable call always returns when the shared data block is
    there.  It leaves every entry of the second-level table as it was,
    except at the frames of the pages of the entries of the requester: there
    read and write are denied, execute is what it was (the call never grants
    it), and the backing is the shadow frame of the last such entry on that
    frame.  The shadow pages are not written.  If an entry was written, the
    last event journalled is the global invalidation. *)
Theorem X10_enable_makes_execute_only m sh :
  shared_fp_data m = Some sh ->
  exists m',
    FpVmCallEnableFakePages m = Done STATUS_SUCCESS m'
    /\ (forall k,
          ept_data m' k
          = match last_on (kGuestCr3 m) (page_tables m) k (all_fp_data sh) with
            | Some fp_data =>
                {| read_access := false; write_access := false;
                   execute_access := execute_access (ept_data m k);
                   physial_address := UtilPfnFromPa (pa_base_for_exec fp_data) |}
            | None => ept_data m k
            end)
    /\ (forall fp_data, In fp_data (all_fp_data sh) ->
          target_cr3 fp_data = kGuestCr3 m ->
          read_access (ept_data m' (frame_of (page_tables m) fp_data)) = false
          /\ write_access (ept_data m' (frame_of (page_tables m) fp_data)) = false)
    /\ pool m' = pool m
    /\ (stale (journal m') = false
        \/ journal m' = journal m
           /\ forall fp_data, In fp_data (all_fp_data sh) ->
                target_cr3 fp_data <> kGuestCr3 m).
Proof.
  intros Hsh. destruct (enable_table m sh Hsh) as (m' & Hrun & Hept & Hpool & Hj).
  exists m'. split; [exact Hrun |]. split; [exact Hept |].
  split; [| split; assumption].
  intros fp Hin HA. rewrite Hept.
  destruct (last_on_found (kGuestCr3 m) (page_tables m) _ fp Hin HA)
    as (last & ->).
  split; reflexivity.
Qed.

Lemma X10_enable_makes_execute_only_witness :
  exists m',
    FpVmCallEnableFakePages created = Done STATUS_SUCCESS m'
    /\ (forall k,
          ept_data m' k
          = match last_on (kGuestCr3 created) (page_tables created) k
                    (all_fp_data scenario_registry) with
            | Some fp_data =>
                {| read_access := false; write_access := false;
                   execute_access := execute_access (ept_data created k);
                   physial_address := UtilPfnFromPa (pa_base_for_exec fp_data) |}
            | None => ept_data created k
            end)
    /\ (forall fp_data, In fp_data (all_fp_data scenario_registry) ->
          target_cr3 fp_data = kGuestCr3 created ->
          read_access (ept_data m' (frame_of (page_tables created) fp_data))
          = false
          /\ write_access (ept_data m' (frame_of (page_tables created) fp_data))
             = false)
    /\ pool m' = pool created
    /\ (stale (journal m') = false
        \/ journal m' = journal created
           /\ forall fp_data, In fp_data (all_fp_data scenario_registry) ->
                target_cr3 fp_data <> kGuestCr3 created).
Proof.
  apply (X10_enable_makes_execute_only created scenario_registry).
  vm_compute; reflexivity.
Defined.

Lemma disable_table m sh :
  shared_fp_data m = Some sh ->
  (forall fp_data, In fp_data (all_fp_data sh) ->
     target_cr3 fp_data = kGuestCr3 m ->
     is_set (pool m !! shadow_page_base_for_exec fp_data) = true
     /\ BYTE_OFFSET (patch_address fp_data) <= PAGE_SIZE - 32) ->
  exists m',
    FpVmCallDisableFakePages m = Done tt m'
    /\ (forall k,
          ept_data m' k
          = match last_on (kGuestCr3 m) (page_tables m) k (all_fp_data sh) with
            | Some _ =>
                {| read_access := true; write_access := true;
                   execute_access := execute_access (ept_data m k);
                   physial_address := k |}
            | None => ept_data m k
            end)
    /\ pool m' = pool m
    /\ (stale (journal m') = false
        \/ journal m' = journal m
           /\ forall fp_data, In fp_data (all_fp_data sh) ->
                target_cr3 fp_data <> kGuestCr3 m).
Proof.
  intros Hsh Hready.
  set (relaxed := {| wp := false; cr0_other := cr0_other (cr0 m) |}).
  destruct (replay_loop (kGuestCr3 m) (cr3 m) (unshadowing (kGuestCr3 m) (cr3 m))
              (fun fp k e =>
                 {| read_access := true; write_access := true;
                    execute_access := execute_access e;
                    physial_address := k |})
              (fun m0 fp =>
                 is_set (pool m0 !! shadow_page_base_for_exec fp) = true
                 /\ BYTE_OFFSET (patch_address fp) <= PAGE_SIZE - 32)
              (fun m0 fp =>
                 writes_of (translate (page_tables m0) (target_cr3 fp))
                   (patch_address fp) (patch_bytes m0 fp)))
    with (l := all_fp_data sh) (m := set_cr0 relaxed m)
    as (m1 & Hrun & Hsame & Hept & _ & Hj).
  { reflexivity. }
  { intros m0 m1 fp Hpl. now rewrite Hpl. }
  { intros m0 m1 fp Hpt Hpl. unfold patch_bytes. now rewrite Hpt, Hpl. }
  { intros fp m0 Hv Hok.
    exact (unshadowing_turn (kGuestCr3 m) (cr3 m) fp m0 Hv Hok). }
  { reflexivity. }
  { exact Hready. }
  destruct Hsame as (_ & _ & _ & Hpool & _).
  exists (set_cr0 (cr0 m) m1). split; [| split; [| split; assumption]].
  - unfold FpVmCallDisableFakePages.
    cbv [bind UtilVmRead_kGuestCr3 __readcr3 __readcr0 __writecr0 get_shared
         deref ret].
    cbn. rewrite Hsh. cbn. fold relaxed. now rewrite Hrun.
  - intros k.
    change (ept_data (set_cr0 (cr0 m) m1) k) with (ept_data m1 k).
    rewrite Hept.
    change (page_tables (set_cr0 relaxed m)) with (page_tables m).
    destruct (last_on _ _ _ _); reflexivity.
Qed.

(** X11.  When the shadow page of every entry of the requester is in the
    pool and its patch lies at most [PAGE_SIZE - 32] into its page, the
    disable call returns, and the entry of the second-level table for the
    page of each such entry grants read and write and maps the frame onto
    itself; execute is what it was (the call never restores it).  Every other
    entry of the table is as it was, the shadow pages are not written, and if
    an entry was written the last event journalled is the global
    invalidation. *)
Theorem X11_disable_restores_read_write m sh :
  shared_fp_data m = Some sh ->
  (forall fp_data, In fp_data (all_fp_data sh) ->
     target_cr3 fp_data = kGuestCr3 m ->
     is_set (pool m !! shadow_page_base_for_exec fp_data) = true
     /\ BYTE_OFFSET (patch_address fp_data) <= PAGE_SIZE - 32) ->
  exists m',
    FpVmCallDisableFakePages m = Done tt m'
    /\ (forall fp_data, In fp_data (all_fp_data sh) ->
          target_cr3 fp_data = kGuestCr3 m ->
          ept_data m' (frame_of (page_tables m) fp_data)
          = {| read_access := true; write_access := true;
               execute_access :=
                 execute_access (ept_data m (frame_of (page_tables m) fp_data));
               physial_address := frame_of (page_tables m) fp_data |})
    /\ (forall k,
          (forall fp_data, In fp_data (all_fp_data sh) ->
             target_cr3 fp_data = kGuestCr3 m ->
             frame_of (page_tables m) fp_data <> k) ->
          ept_data m' k = ept_data m k)
    /\ pool m' = pool m
    /\ (stale (journal m') = false
        \/ journal m' = journal m
           /\ forall fp_data, In fp_data (all_fp_data sh) ->
                target_cr3 fp_data <> kGuestCr3 m).
Proof.
  intros Hsh Hready.
  destruct (disable_table m sh Hsh Hready) as (m' & Hrun & Hept & Hpool & Hj).
  exists m'. split; [exact Hrun |]. split; [| split; [| split; assumption]].
  - intros fp Hin HA. rewrite Hept.
    destruct (last_on_found (kGuestCr3 m) (page_tables m) _ fp Hin HA)
      as (last & ->).
    reflexivity.
  - intros k Hk. rewrite Hept.
    destruct (last_on _ _ _ _) as [last|] eqn:Hlast; [| reflexivity].
    apply last_on_is in Hlast as (Hin & HA & Hf).
    now destruct (Hk last Hin HA).
Qed.

Lemma X11_disable_restores_read_write_witness :
  exists m',
    FpVmCallDisableFakePages enabled = Done tt m'
    /\ (forall fp_data, In fp_data (all_fp_data scenario_registry) ->
          target_cr3 fp_data = kGuestCr3 enabled ->
          ept_data m' (frame_of (page_tables enabled) fp_data)
          = {| read_access := true; write_access := true;
               execute_access :=
                 execute_access
                   (ept_data enabled (frame_of (page_tables enabled) fp_data));
               physial_address := frame_of (page_tables enabled) fp_data |})
    /\ (forall k,
          (forall fp_data, In fp_data (all_fp_data scenario_registry) ->
             target_cr3 fp_data = kGuestCr3 enabled ->
             frame_of (page_tables enabled) fp_data <> k) ->
          ept_data m' k = ept_data enabled k)
    /\ pool m' = pool enabled
    /\ (stale (journal m') = false
        \/ journal m' = journal enabled
           /\ forall fp_data, In fp_data (all_fp_data scenario_registry) ->
                target_cr3 fp_data <> kGuestCr3 enabled).
Proof.
  apply (X11_disable_restores_read_write enabled scenario_registry).
  - vm_compute; reflexivity.
  - intros fp [<-|[]] _. split; [reflexivity |].
    intros H; vm_compute in H; discriminate H.
Defined.

(** ** What the enable call leaves in guest memory *)

Lemma offset_of_translate tables root va :
  BYTE_OFFSET (translate tables root va) = BYTE_OFFSET va.
Proof.
  unfold translate. rewrite (BYTE_OFFSET_mod (Z.lor _ _)).
  pose proof (BYTE_OFFSET_range va) as Hr.
  unfold PAGE_SIZE, PAGE_SHIFT in *.
  change 4096 with (2 ^ 12). rewrite <- Z.land_ones by lia.
  rewrite Z.land_lor_distr_l, !Z.land_ones by lia.
  rewrite Z.shiftl_mul_pow2, Z_mod_mult by lia.
  rewrite Z.lor_0_l. apply Z.mod_small. change (2 ^ 12) with 4096. lia.
Qed.

Lemma translate_apart tables root va i j :
  0 <= i < j -> j < PAGE_SIZE ->
  translate tables root (va + i) <> translate tables root (va + j).
Proof.
  intros Hij Hj Heq.
  apply (f_equal BYTE_OFFSET) in Heq.
  rewrite !offset_of_translate, !BYTE_OFFSET_mod in Heq.
  unfold PAGE_SIZE in *.
  assert (Hd : (va + j - (va + i)) mod 4096 = 0)
    by (rewrite Zminus_mod, Heq, Z.sub_diag; reflexivity).
  replace (va + j - (va + i)) with (j - i) in Hd by lia.
  rewrite Z.mod_small in Hd by lia. lia.
Qed.

Section PokeHit.
Variable tr : Z -> Z.

(** A byte that no later byte of the copy lands on is what [poke] leaves. *)
Lemma poke_hit bytes : forall mem dst (i : nat),
  wrap64 dst = dst ->
  (i < length bytes)%nat ->
  (forall j, (i < j < length bytes)%nat ->
     tr (wrap64 (dst + Z.of_nat j)) <> tr (wrap64 (dst + Z.of_nat i))) ->
  poke tr mem dst bytes (tr (wrap64 (dst + Z.of_nat i))) = nth i bytes 0.
Proof.
  induction bytes as [|b rest IH]; intros mem dst i Hdst Hi Hapart;
    [cbn in Hi; lia |].
  change (poke tr mem dst (b :: rest))
    with (poke tr (fun a => if a =? tr dst then b else mem a)
            (wrap64 (dst + 1)) rest).
  assert (Hstep : forall k,
             wrap64 (wrap64 (dst + 1) + Z.of_nat k)
             = wrap64 (dst + Z.of_nat (S k))).
  { intros k. rewrite wrap64_wrap64_plus. f_equal. lia. }
  assert (Hw : wrap64 (wrap64 (dst + 1)) = wrap64 (dst + 1))
    by (unfold wrap64; now rewrite Zmod_mod).
  destruct i as [|i].
  - rewrite poke_elsewhere.
    + replace (wrap64 (dst + Z.of_nat 0)) with dst
        by (rewrite Z.add_0_r; now symmetry).
      now rewrite Z.eqb_refl.
    + exact Hw.
    + intros k Hk. rewrite Hstep. apply Hapart. cbn. lia.
  - rewrite <- Hstep. cbn [nth]. apply IH.
    + exact Hw.
    + cbn in Hi. lia.
    + intros j Hj. rewrite !Hstep. apply Hapart. cbn. lia.
Qed.
End PokeHit.

Lemma for_each_app {A} (l1 l2 : list A) body m :
  for_each (l1 ++ l2) body m
  = match for_each l1 body m with
    | Done _ m1 => for_each l2 body m1
    | Halt why m1 => Halt why m1
    end.
Proof.
  revert m. induction l1 as [|x l1 IH]; intros m; [reflexivity |].
  cbn [app]. rewrite !for_each_cons. unfold bind.
  destruct (body x m) as [[] m1|why m1]; [apply IH | reflexivity].
Qed.

Lemma enable_leaves_original_bytes m sh before fp_data after :
  shared_fp_data m = Some sh ->
  all_fp_data sh = before ++ fp_data :: after ->
  target_cr3 fp_data = kGuestCr3 m ->
  length (original_bytes fp_data) = 32%nat ->
  0 <= patch_address fp_data /\ patch_address fp_data + 32 <= 2 ^ 64 ->
  (forall later, In later after -> target_cr3 later = kGuestCr3 m ->
     length (original_bytes later) = 32%nat
     /\ 0 <= patch_address later < 2 ^ 64
     /\ forall i, 0 <= i < 32 ->
          ~ lands (page_tables m) later
              (translate (page_tables m) (kGuestCr3 m)
                 (patch_address fp_data + i))) ->
  exists m',
    FpVmCallEnableFakePages m = Done STATUS_SUCCESS m'
    /\ forall i, 0 <= i < 32 ->
         memory m' (translate (page_tables m) (kGuestCr3 m)
                      (patch_address fp_data + i))
         = nth (Z.to_nat i) (original_bytes fp_data) 0.
Proof.
  intros Hsh Hsplit HA Hlen Hva Hafter.
  set (relaxed := {| wp := false; cr0_other := cr0_other (cr0 m) |}).
  set (A := kGuestCr3 m) in *. set (v := cr3 m).
  destruct (replay_loop A v (shadowing A v)
              (fun fp k e =>
                 {| read_access := false; write_access := false;
                    execute_access := execute_access e;
                    physial_address := UtilPfnFromPa (pa_base_for_exec fp) |})
              (fun _ _ => True)
              (fun m0 fp =>
                 writes_of (translate (page_tables m0) (target_cr3 fp))
                   (patch_address fp) (original_bytes fp)))
    with (l := before) (m := set_cr0 relaxed m)
    as (m1 & Hrun1 & (Hc3 & _ & Hpt & _) & _).
  { reflexivity. }
  { auto. }
  { intros m0 m1 fp Hpt _. now rewrite Hpt. }
  { intros fp m0 Hv _. exact (shadowing_turn A v fp m0 Hv). }
  { reflexivity. }
  { auto. }
  destruct (shadowing_run A v fp_data m1 Hc3)
    as (m2 & Hrun2 & Hc3' & _ & _ & Hpt' & _ & _ & Hmem2).
  apply Z.eqb_eq in HA as HA'. rewrite HA' in Hmem2.
  destruct (shadowing_loop A v after m2 Hc3')
    as (m3 & Hrun3 & _ & Hc0 & _ & _ & _ & _ & Hmem3).
  { intros later Hin Hl. destruct (Hafter later Hin Hl) as (? & ? & _). auto. }
  cbn in Hpt. rewrite Hpt in Hpt'.
  exists (set_cr0 (cr0 m) m3). split.
  - unfold FpVmCallEnableFakePages.
    cbv [bind UtilVmRead_kGuestCr3 __readcr3 __readcr0 __writecr0 get_shared
         deref ret].
    cbn. rewrite Hsh. cbn. fold relaxed A v.
    rewrite Hsplit, for_each_app, Hrun1, for_each_cons. unfold bind.
    now rewrite Hrun2, Hrun3.
  - intros i Hi. cbn. rewrite Hmem3.
    + rewrite Hmem2, Hpt, HA.
      assert (Hw : forall k, 0 <= k < 32 ->
                wrap64 (patch_address fp_data + k) = patch_address fp_data + k)
        by (intros k Hk; apply wrap64_small; lia).
      rewrite <- (Hw i Hi). rewrite <- (Z2Nat.id i) at 1 by lia.
      apply poke_hit.
      * apply wrap64_small. lia.
      * lia.
      * intros j Hj. rewrite !Hw by lia.
        intros Heq. symmetry in Heq. revert Heq.
        apply translate_apart; unfold PAGE_SIZE; lia.
    + intros later Hin Hl. rewrite Hpt'.
      destruct (Hafter later Hin Hl) as (_ & _ & Hno). now apply Hno.
Qed.


(** X12.  The enable call conceals the patch.  For an entry of the
    requester whose 32 patched bytes no later entry of the requester writes
    over, guest memory holds after the call, at the patch address in the
    address space of the requester, the 32 original bytes of the entry, byte
    for byte. *)
Theorem X12_enable_conceals_the_patch m sh before fp_data after :
  shared_fp_data m = Some sh ->
  all_fp_data sh = before ++ fp_data :: after ->
  target_cr3 fp_data = kGuestCr3 m ->
  length (original_bytes fp_data) = 32%nat ->
  0 <= patch_address fp_data /\ patch_address fp_data + 32 <= 2 ^ 64 ->
  (forall later, In later after -> target_cr3 later = kGuestCr3 m ->
     length (original_bytes later) = 32%nat
     /\ 0 <= patch_address later < 2 ^ 64
     /\ forall i, 0 <= i < 32 ->
          ~ lands (page_tables m) later
              (translate (page_tables m) (kGuestCr3 m)
                 (patch_address fp_data + i))) ->
  exists m',
    FpVmCallEnableFakePages m = Done STATUS_SUCCESS m'
    /\ forall i, 0 <= i < 32 ->
         memory m' (translate (page_tables m) (kGuestCr3 m)
                      (patch_address fp_data + i))
         = nth (Z.to_nat i) (original_bytes fp_data) 0.
Proof. exact (enable_leaves_original_bytes m sh before fp_data after). Qed.

Lemma X12_enable_conceals_the_patch_witness :
  exists m',
    FpVmCallEnableFakePages created = Done STATUS_SUCCESS m'
    /\ forall i, 0 <= i < 32 ->
         memory m' (translate (page_tables created) (kGuestCr3 created)
                      (patch_address scenario_entry + i))
         = nth (Z.to_nat i) (original_bytes scenario_entry) 0.
Proof.
  apply (X12_enable_conceals_the_patch created scenario_registry [] scenario_entry []).
  - vm_compute; reflexivity.
  - reflexivity.
  - reflexivity.
  - reflexivity.
  - split; [intros H; discriminate H | intros H; discriminate H].
  - intros later [].
Defined.

(** ** What the disable call leaves in guest memory *)

Lemma unshadowing_elsewhere A v l : forall m,
  cr3 m = v ->
  (forall fp_data, In fp_data l -> target_cr3 fp_data = A ->
     is_set (pool m !! shadow_page_base_for_exec fp_data) = true
     /\ BYTE_OFFSET (patch_address fp_data) <= PAGE_SIZE - 32
     /\ 0 <= patch_address fp_data < 2 ^ 64) ->
  exists m1,
    for_each l (unshadowing A v) m = Done tt m1
    /\ cr0 m1 = cr0 m
    /\ forall pa,
         (forall fp_data, In fp_data l -> target_cr3 fp_data = A ->
            ~ lands (page_tables m) fp_data pa) ->
         memory m1 pa = memory m pa.
Proof.
  induction l as [|fp l IH]; intros m Hv Hready.
  - exists m. repeat split; auto.
  - rewrite for_each_cons. unfold bind.
    assert (Hrun : exists m1,
               unshadowing A v fp m = Done tt m1
               /\ cr3 m1 = v /\ cr0 m1 = cr0 m /\ pool m1 = pool m
               /\ page_tables m1 = page_tables m
               /\ forall pa,
                    (target_cr3 fp = A -> ~ lands (page_tables m) fp pa) ->
                    memory m1 pa = memory m pa).
    { destruct (Z.eqb_spec (target_cr3 fp) A) as [HA|HA].
      - destruct (Hready fp (or_introl eq_refl) HA) as (Hpage & Hoff & Hva).
        destruct (pool m !! shadow_page_base_for_exec fp) as [block|] eqn:Hpool;
          [| discriminate].
        destruct (unshadowing_run A v fp m block Hv Hpool Hoff)
          as (m1 & -> & Hc3 & Hc0 & Hpl & Hpt & _ & _ & Hmem).
        exists m1. split; [reflexivity |]. repeat split; auto.
        intros pa Hpa. rewrite Hmem.
        apply Z.eqb_eq in HA as HA'. rewrite HA'.
        apply poke_elsewhere; [now apply wrap64_small |].
        intros i Hi Heq. rewrite length_map, length_seq in Hi.
        apply (Hpa HA). exists (Z.of_nat i). split; [lia | exact Heq].
      - apply Z.eqb_neq in HA as HA'.
        exists m. unfold unshadowing. rewrite HA'. cbn.
        split; [reflexivity |]. repeat split; auto. }
    destruct Hrun as (m1 & -> & Hc3 & Hc0 & Hpl & Hpt & Hmem).
    destruct (IH m1 Hc3) as (m2 & -> & Hc0' & Hmem').
    { intros fp' Hin HA. rewrite Hpl. apply Hready; [now right | exact HA]. }
    exists m2. split; [reflexivity |]. split; [congruence |].
    intros pa Hpa. rewrite Hmem'.
    + apply Hmem. intros HA. apply Hpa; [now left | exact HA].
    + intros fp' Hin HA. rewrite Hpt. apply Hpa; [now right | exact HA].
Qed.

(** X13.  The disable call reveals the patch.  For an entry of the
    requester whose 32 patched bytes no later entry of the requester writes
    over, guest memory holds after the call, at the patch address in the
    address space of the requester, the 32 bytes the shadow page of the entry
    holds at the offset of the patch. *)
Theorem X13_disable_reveals_the_patch m sh before fp_data after block :
  shared_fp_data m = Some sh ->
  all_fp_data sh = before ++ fp_data :: after ->
  target_cr3 fp_data = kGuestCr3 m ->
  0 <= patch_address fp_data /\ patch_address fp_data + 32 <= 2 ^ 64 ->
  pool m !! shadow_page_base_for_exec fp_data = Some block ->
  (forall other, In other (all_fp_data sh) -> target_cr3 other = kGuestCr3 m ->
     is_set (pool m !! shadow_page_base_for_exec other) = true
     /\ BYTE_OFFSET (patch_address other) <= PAGE_SIZE - 32) ->
  (forall later, In later after -> target_cr3 later = kGuestCr3 m ->
     0 <= patch_address later < 2 ^ 64
     /\ forall i, 0 <= i < 32 ->
          ~ lands (page_tables m) later
              (translate (page_tables m) (kGuestCr3 m)
                 (patch_address fp_data + i))) ->
  exists m',
    FpVmCallDisableFakePages m = Done tt m'
    /\ forall i, 0 <= i < 32 ->
         memory m' (translate (page_tables m) (kGuestCr3 m)
                      (patch_address fp_data + i))
         = block (BYTE_OFFSET (patch_address fp_data) + i).
Proof.
  intros Hsh Hsplit HA Hva Hblock Hready Hafter.
  set (relaxed := {| wp := false; cr0_other := cr0_other (cr0 m) |}).
  set (A := kGuestCr3 m) in *. set (v := cr3 m).
  assert (Hin : forall e, In e before \/ e = fp_data \/ In e after ->
                  In e (all_fp_data sh)).
  { intros e He. rewrite Hsplit. apply in_or_app.
    destruct He as [He|[->|He]]; [now left | right; now left | right; now right]. }
  destruct (replay_loop A v (unshadowing A v)
              (fun fp k e =>
                 {| read_access := true; write_access := true;
                    execute_access := execute_access e;
                    physial_address := k |})
              (fun m0 fp =>
                 is_set (pool m0 !! shadow_page_base_for_exec fp) = true
                 /\ BYTE_OFFSET (patch_address fp) <= PAGE_SIZE - 32)
              (fun m0 fp =>
                 writes_of (translate (page_tables m0) (target_cr3 fp))
                   (patch_address fp) (patch_bytes m0 fp)))
    with (l := before) (m := set_cr0 relaxed m)
    as (m1 & Hrun1 & (Hc3 & _ & Hpt & Hpl & _) & _).
  { reflexivity. }
  { intros m0 m1 fp Hpl. now rewrite Hpl. }
  { intros m0 m1 fp Hpt Hpl. unfold patch_bytes. now rewrite Hpt, Hpl. }
  { intros fp m0 Hv Hok. exact (unshadowing_turn A v fp m0 Hv Hok). }
  { reflexivity. }
  { intros e He HAe. apply Hready; auto. }
  cbn in Hpt, Hpl.
  destruct (Hready fp_data (Hin _ (or_intror (or_introl eq_refl))) HA)
    as [_ Hoff].
  destruct (unshadowing_run A v fp_data m1 block Hc3)
    as (m2 & Hrun2 & Hc3' & _ & Hpl' & Hpt' & _ & _ & Hmem2);
    [now rewrite Hpl | exact Hoff |].
  apply Z.eqb_eq in HA as HA'. rewrite HA' in Hmem2.
  destruct (unshadowing_elsewhere A v after m2 Hc3')
    as (m3 & Hrun3 & _ & Hmem3).
  { intros later Hl HAl. rewrite Hpl', Hpl.
    destruct (Hready later (Hin _ (or_intror (or_intror Hl))) HAl) as [? ?].
    destruct (Hafter later Hl HAl) as [? _]. auto. }
  rewrite Hpt in Hpt'.
  exists (set_cr0 (cr0 m) m3). split.
  - unfold FpVmCallDisableFakePages.
    cbv [bind UtilVmRead_kGuestCr3 __readcr3 __readcr0 __writecr0 get_shared
         deref ret].
    cbn. rewrite Hsh. cbn. fold relaxed A v.
    rewrite Hsplit, for_each_app, Hrun1, for_each_cons. unfold bind.
    now rewrite Hrun2, Hrun3.
  - intros i Hi. cbn. rewrite Hmem3.
    + rewrite Hmem2, Hpt, HA.
      assert (Hw : forall k, 0 <= k < 32 ->
                wrap64 (patch_address fp_data + k) = patch_address fp_data + k)
        by (intros k Hk; apply wrap64_small; lia).
      rewrite <- (Hw i Hi). rewrite <- (Z2Nat.id i) at 1 by lia.
      rewrite poke_hit.
      * rewrite (nth_indep _ 0 (block (BYTE_OFFSET (patch_address fp_data)
                                       + Z.of_nat 0)))
          by (rewrite length_map, length_seq; lia).
        rewrite (map_nth (fun i => block (BYTE_OFFSET (patch_address fp_data)
                                          + Z.of_nat i))).
        rewrite seq_nth by lia. cbn [Nat.add]. now rewrite Z2Nat.id by lia.
      * apply wrap64_small. lia.
      * rewrite length_map, length_seq. lia.
      * intros j Hj. rewrite length_map, length_seq in Hj. rewrite !Hw by lia.
        intros Heq. symmetry in Heq. revert Heq.
        apply translate_apart; unfold PAGE_SIZE; lia.
    + intros later Hl HAl. rewrite Hpt'.
      destruct (Hafter later Hl HAl) as (_ & Hno). now apply Hno.
Qed.

Lemma X13_disable_reveals_the_patch_witness :
  exists m',
    FpVmCallDisableFakePages enabled = Done tt m'
    /\ forall i, 0 <= i < 32 ->
         memory m' (translate (page_tables enabled) (kGuestCr3 enabled)
                      (patch_address scenario_entry + i))
         = scenario_block (BYTE_OFFSET (patch_address scenario_entry) + i).
Proof.
  apply (X13_disable_reveals_the_patch enabled scenario_registry []
           scenario_entry [] scenario_block).
  - vm_compute; reflexivity.
  - reflexivity.
  - reflexivity.
  - split; [intros H; discriminate H | intros H; discriminate H].
  - reflexivity.
  - intros other [<-|[]] _. split; [reflexivity |].
    intros H; vm_compute in H; discriminate H.
  - intros later [].
Defined.

(** ** Create, then enable *)

Lemma nth_peek_bytes m va len i :
  (i < len)%nat ->
  nth i (peek_bytes m va len) 0 = peek m (wrap64 (va + Z.of_nat i)).
Proof.
  intros Hi. unfold peek_bytes.
  rewrite (nth_indep _ 0 (peek m (wrap64 (va + Z.of_nat 0))))
    by (rewrite length_map, length_seq; exact Hi).
  rewrite (map_nth (fun i => peek m (wrap64 (va + Z.of_nat i)))).
  now rewrite seq_nth.
Qed.

(** X15.  Create, then enable.  After a create call that returns, the
    enable call returns, and guest memory holds at the requested address, in
    the address space of the requester, the 32 bytes that lay at offset 16 of
    the record the create call was handed: the new entry is the last of the
    registry, so no other entry writes over it. *)
Theorem X15_create_then_enable_shows_the_record context m r m1 :
  FpVmCallCreateFakePage context m = Done r m1 ->
  0 <= requested_address context m
  /\ requested_address context m + 32 <= 2 ^ 64 ->
  exists m2,
    FpVmCallEnableFakePages m1 = Done STATUS_SUCCESS m2
    /\ forall i, 0 <= i < 32 ->
         memory m2 (translate (page_tables m) (kGuestCr3 m)
                      (requested_address context m + i))
         = memory m (translate (page_tables m) (kGuestCr3 m)
                       (wrap64 (context + (16 + i)))).
Proof.
  intros Hrun Hva.
  destruct (shared_fp_data m) as [sh|] eqn:Hsh;
    [| pose proof (create_needs_registry context m Hsh) as Hno;
       rewrite Hrun in Hno; discriminate].
  pose proof (create_outcome context m sh Hsh) as Hc.
  rewrite Hrun in Hc. cbv zeta in Hc.
  destruct Hc as (_ & fp & Hreg & Hpatch & Htarget & _ & _ & Horig & Hg & Htab & _).
  destruct (enable_leaves_original_bytes m1
              {| cpuinfo := cpuinfo sh; all_fp_data := all_fp_data sh ++ [fp] |}
              (all_fp_data sh) fp []) as (m2 & Hrun2 & Hmem).
  - exact Hreg.
  - reflexivity.
  - congruence.
  - rewrite Horig, length_drop, peek_bytes_length. reflexivity.
  - now rewrite Hpatch.
  - intros later [].
  - exists m2. split; [exact Hrun2 |]. intros i Hi.
    specialize (Hmem i Hi). rewrite Htab, Hg, Hpatch in Hmem.
    rewrite Hmem, Horig. rewrite nth_skipn, nth_peek_bytes by lia.
    unfold peek. cbn. do 3 f_equal. lia.
Qed.

Lemma X15_create_then_enable_shows_the_record_witness :
  exists m2,
    FpVmCallEnableFakePages created = Done STATUS_SUCCESS m2
    /\ forall i, 0 <= i < 32 ->
         memory m2 (translate (page_tables boot) (kGuestCr3 boot)
                      (requested_address 0x7000 boot + i))
         = memory boot (translate (page_tables boot) (kGuestCr3 boot)
                          (wrap64 (0x7000 + (16 + i)))).
Proof.
  apply (X15_create_then_enable_shows_the_record 0x7000 boot true created).
  - unfold created.
    apply (result_final (FpVmCallCreateFakePage 0x7000 boot) true).
    vm_compute; reflexivity.
  - split; [intros H; vm_compute in H; discriminate H
           | intros H; vm_compute in H; discriminate H].
Defined.

(** ** One entry of the second-level table per exit *)

(** X16.  One entry of the second-level table per exit.  The violation
    dispatcher leaves every entry as it was but the one of the original page
    of the registry entry it found; the single-step handler leaves every
    entry as it was but the one of the page of the pending entry; however
    they end. *)
Theorem X16_handlers_write_one_entry :
  (forall fault_va fault_pa m k,
      (forall fp_data, registered fault_pa m = Some fp_data ->
         k <> EptGetEptPtEntry (pa_base_for_rw fp_data)) ->
      ept_data (final (FpHandleEptViolation fault_va fault_pa m)) k
      = ept_data m k)
  /\ (forall m k,
        (forall fp_data, pending m = Some fp_data ->
           k <> frame_of (page_tables m) fp_data) ->
        ept_data (final (FpHandleMonitorTrapFlag m)) k = ept_data m k).
Proof.
  split.
  - intros fault_va fault_pa m k Hk. unfold registered in Hk. crunch.
    destruct (shared_fp_data m) as [sh|]; cbn; [| reflexivity].
    destruct (find _ _) as [fp|]; cbn; [| reflexivity].
    specialize (Hk fp eq_refl). apply Z.eqb_neq in Hk.
    cases; rewrite ?Hk; reflexivity.
  - intros m k Hk. unfold pending in Hk. crunch.
    destruct (shared_fp_data m) as [sh|]; cbn; [| reflexivity].
    destruct (last_fp_data (processor_fp_data m)) as [fp|]; cbn;
      [| reflexivity].
    specialize (Hk fp eq_refl). rewrite <- key_of_patch in Hk.
    apply Z.eqb_neq in Hk.
    destruct (bool_decide _); cbn; [| reflexivity].
    destruct (present m _ _); cbn; [| reflexivity].
    now rewrite Hk.
Qed.

(** ** Calling twice *)

(** X17.  The enable call, made twice in a row, leaves what it leaves made
    once: both calls return, and guest memory, the second-level table, the
    shadow pages, the registry, CR3 and CR0 are after the second call as they
    were after the first. *)
Theorem X17_enable_twice m sh :
  shared_fp_data m = Some sh ->
  exists m1 m2,
    FpVmCallEnableFakePages m = Done STATUS_SUCCESS m1
    /\ FpVmCallEnableFakePages m1 = Done STATUS_SUCCESS m2
    /\ (forall pa, memory m2 pa = memory m1 pa)
    /\ (forall k, ept_data m2 k = ept_data m1 k)
    /\ pool m2 = pool m1
    /\ shared_fp_data m2 = shared_fp_data m1
    /\ cr3 m2 = cr3 m1
    /\ cr0 m2 = cr0 m1.
Proof.
  intros Hsh.
  set (relaxed := {| wp := false; cr0_other := cr0_other (cr0 m) |}).
  destruct (replay_twice (kGuestCr3 m) (cr3 m) (shadowing (kGuestCr3 m) (cr3 m))
              (fun fp k e =>
                 {| read_access := false; write_access := false;
                    execute_access := execute_access e;
                    physial_address := UtilPfnFromPa (pa_base_for_exec fp) |})
              (fun _ _ => True)
              (fun m0 fp =>
                 writes_of (translate (page_tables m0) (target_cr3 fp))
                   (patch_address fp) (original_bytes fp)))
    with (l := all_fp_data sh) (m := set_cr0 relaxed m) (c := relaxed)
    as (ma & mb & Hrun1 & Hrun2 & Hsame & Hept & Hmem).
  { reflexivity. }
  { auto. }
  { intros m0 m1 fp Hpt _. now rewrite Hpt. }
  { intros fp m0 Hv _. exact (shadowing_turn (kGuestCr3 m) (cr3 m) fp m0 Hv). }
  { reflexivity. }
  { auto. }
  destruct Hsame
    as (Hc3b & Hc3 & Hc0b & Hc0a & Hplb & Hpla & _ & _ & Hshb & Hsha & Hga).
  cbn in Hc0a, Hplb, Hpla, Hshb, Hsha, Hga.
  exists (set_cr0 (cr0 m) ma), (set_cr0 (cr0 m) mb).
  split; [| split; [| split; [| split; [| split; [| split; [| split]]]]]].
  - unfold FpVmCallEnableFakePages.
    cbv [bind UtilVmRead_kGuestCr3 __readcr3 __readcr0 __writecr0 get_shared
         deref ret].
    cbn. rewrite Hsh. cbn. fold relaxed. now rewrite Hrun1.
  - unfold FpVmCallEnableFakePages.
    cbv [bind UtilVmRead_kGuestCr3 __readcr3 __readcr0 __writecr0 get_shared
         deref ret].
    cbn. rewrite Hsha, Hsh, Hga, Hc3. cbn. fold relaxed.
    change (set_cr0 relaxed (set_cr0 (cr0 m) ma)) with (set_cr0 relaxed ma).
    now rewrite Hrun2.
  - exact Hmem.
  - exact Hept.
  - cbn. congruence.
  - cbn. congruence.
  - cbn. congruence.
  - reflexivity.
Qed.

Lemma X17_enable_twice_witness :
  exists m1 m2,
    FpVmCallEnableFakePages created = Done STATUS_SUCCESS m1
    /\ FpVmCallEnableFakePages m1 = Done STATUS_SUCCESS m2
    /\ (forall pa, memory m2 pa = memory m1 pa)
    /\ (forall k, ept_data m2 k = ept_data m1 k)
    /\ pool m2 = pool m1
    /\ shared_fp_data m2 = shared_fp_data m1
    /\ cr3 m2 = cr3 m1
    /\ cr0 m2 = cr0 m1.
Proof.
  apply (X17_enable_twice created scenario_registry).
  vm_compute; reflexivity.
Defined.

(** X18.  The disable call, made twice in a row on entries whose shadow
    pages are in the pool and whose patches lie at most [PAGE_SIZE - 32] into
    their pages, leaves what it leaves made once: both calls return, and
    guest memory, the second-level table, the shadow pages, the registry, CR3
    and CR0 are after the second call as they were after the first. *)
Theorem X18_disable_twice m sh :
  shared_fp_data m = Some sh ->
  (forall fp_data, In fp_data (all_fp_data sh) ->
     target_cr3 fp_data = kGuestCr3 m ->
     is_set (pool m !! shadow_page_base_for_exec fp_data) = true
     /\ BYTE_OFFSET (patch_address fp_data) <= PAGE_SIZE - 32) ->
  exists m1 m2,
    FpVmCallDisableFakePages m = Done tt m1
    /\ FpVmCallDisableFakePages m1 = Done tt m2
    /\ (forall pa, memory m2 pa = memory m1 pa)
    /\ (forall k, ept_data m2 k = ept_data m1 k)
    /\ pool m2 = pool m1
    /\ shared_fp_data m2 = shared_fp_data m1
    /\ cr3 m2 = cr3 m1
    /\ cr0 m2 = cr0 m1.
Proof.
  intros Hsh Hready.
  set (relaxed := {| wp := false; cr0_other := cr0_other (cr0 m) |}).
  destruct (replay_twice (kGuestCr3 m) (cr3 m) (unshadowing (kGuestCr3 m) (cr3 m))
              (fun fp k e =>
                 {| read_access := true; write_access := true;
                    execute_access := execute_access e;
                    physial_address := k |})
              (fun m0 fp =>
                 is_set (pool m0 !! shadow_page_base_for_exec fp) = true
                 /\ BYTE_OFFSET (patch_address fp) <= PAGE_SIZE - 32)
              (fun m0 fp =>
                 writes_of (translate (page_tables m0) (target_cr3 fp))
                   (patch_address fp) (patch_bytes m0 fp)))
    with (l := all_fp_data sh) (m := set_cr0 relaxed m) (c := relaxed)
    as (ma & mb & Hrun1 & Hrun2 & Hsame & Hept & Hmem).
  { reflexivity. }
  { intros m0 m1 fp Hpl. now rewrite Hpl. }
  { intros m0 m1 fp Hpt Hpl. unfold patch_bytes. now rewrite Hpt, Hpl. }
  { intros fp m0 Hv Hok.
    exact (unshadowing_turn (kGuestCr3 m) (cr3 m) fp m0 Hv Hok). }
  { reflexivity. }
  { exact Hready. }
  destruct Hsame
    as (Hc3b & Hc3 & Hc0b & Hc0a & Hplb & Hpla & _ & _ & Hshb & Hsha & Hga).
  cbn in Hc0a, Hplb, Hpla, Hshb, Hsha, Hga.
  exists (set_cr0 (cr0 m) ma), (set_cr0 (cr0 m) mb).
  split; [| split; [| split; [| split; [| split; [| split; [| split]]]]]].
  - unfold FpVmCallDisableFakePages.
    cbv [bind UtilVmRead_kGuestCr3 __readcr3 __readcr0 __writecr0 get_shared
         deref ret].
    cbn. rewrite Hsh. cbn. fold relaxed. now rewrite Hrun1.
  - unfold FpVmCallDisableFakePages.
    cbv [bind UtilVmRead_kGuestCr3 __readcr3 __readcr0 __writecr0 get_shared
         deref ret].
    cbn. rewrite Hsha, Hsh, Hga, Hc3. cbn. fold relaxed.
    change (set_cr0 relaxed (set_cr0 (cr0 m) ma)) with (set_cr0 relaxed ma).
    now rewrite Hrun2.
  - exact Hmem.
  - exact Hept.
  - cbn. congruence.
  - cbn. congruence.
  - cbn. congruence.
  - reflexivity.
Qed.

Lemma X18_disable_twice_witness :
  exists m1 m2,
    FpVmCallDisableFakePages enabled = Done tt m1
    /\ FpVmCallDisableFakePages m1 = Done tt m2
    /\ (forall pa, memory m2 pa = memory m1 pa)
    /\ (forall k, ept_data m2 k = ept_data m1 k)
    /\ pool m2 = pool m1
    /\ shared_fp_data m2 = shared_fp_data m1
    /\ cr3 m2 = cr3 m1
    /\ cr0 m2 = cr0 m1.
Proof.
  apply (X18_disable_twice enabled scenario_registry).
  - vm_compute; reflexivity.
  - intros fp [<-|[]] _. split; [reflexivity |].
    intros H; vm_compute in H; discriminate H.
Defined.

(** ** What the dispatcher does not look at *)

Lemma resynchronize_resumed g fp_data m :
  resynchronize fp_data (resumed_in g m)
  = match resynchronize fp_data m with
    | Done a m' => Done a (resumed_in g m')
    | Halt why m' => Halt why (resumed_in g m')
    end.
Proof.
  unfold resynchronize.
  cbv [bind __readcr3 __writecr3 RtlCopyMemory_to_page]. cbn.
  destruct (pool m !! shadow_page_base_for_exec fp_data) as [block|];
    [| reflexivity].
  destruct (_ && _); cbn; [| reflexivity].
  rewrite !lookup_insert_eq.
  destruct (_ && _); cbn; reflexivity.
Qed.

(** X20.  The dispatcher sees the frame only.  It reads neither the faulting
    linear address, nor the offset of the faulting physical address in its
    page, nor the guest CR3: called for another linear address, for another
    physical address on the same frame, with the guest in another address
    space, it ends the same way, in the same machine. *)
Theorem X20_dispatcher_sees_the_frame_only fault_va fault_pa other_va other_pa g m :
  Z.shiftr other_pa 12 = Z.shiftr fault_pa 12 ->
  FpHandleEptViolation other_va other_pa (resumed_in g m)
  = match FpHandleEptViolation fault_va fault_pa m with
    | Done a m' => Done a (resumed_in g m')
    | Halt why m' => Halt why (resumed_in g m')
    end.
Proof.
  intros Hframe. crunch. rewrite Hframe.
  destruct (shared_fp_data m) as [sh|]; cbn; [| reflexivity].
  destruct (find _ _) as [fp|]; cbn; [| reflexivity].
  destruct (caused_by_translation _); cbn; [| reflexivity].
  destruct (_ || _); cbn.
  - rewrite ?Z.eqb_refl. cbn.
    destruct (_ && _); cbn; [| reflexivity].
    destruct (last_fp_data _); reflexivity.
  - match goal with
    | |- context [resynchronize fp ?m1] =>
        match m1 with
        | context C [resumed_in g m] =>
            let m0 := context C [m] in
            change m1 with (resumed_in g m0)
        end
    end.
    rewrite resynchronize_resumed.
    match goal with
    | |- context [resynchronize ?f ?m1] =>
        destruct (resynchronize f m1) as [[] m2|why m2]
    end; cbn; [| reflexivity].
    rewrite ?Z.eqb_refl. cbn.
    destruct (_ && _); cbn; [| reflexivity].
    destruct (last_fp_data _); reflexivity.
Qed.

Lemma X20_dispatcher_sees_the_frame_only_witness :
  FpHandleEptViolation 0 0x55FFF (resumed_in space_vmm on_read)
  = match FpHandleEptViolation 0x1000 0x55000 on_read with
    | Done a m' => Done a (resumed_in space_vmm m')
    | Halt why m' => Halt why (resumed_in space_vmm m')
    end.
Proof.
  apply (X20_dispatcher_sees_the_frame_only 0x1000 0x55000 0 0x55FFF
           space_vmm on_read).
  reflexivity.
Defined.

(** ** What the calls leave alone *)

(** X21.  The create call does not activate anything: however it ends, guest
    memory, the second-level table and its journal, the processor-based
    controls, the data block of the processor, the page tables and CR0 are
    as it found them.  It writes the pool and the registry only. *)
Theorem X21_create_does_not_activate context :
  keeps (fun m => (memory m, ept_data m, journal m, kCpuBasedVmExecControl m,
                   processor_fp_data m, page_tables m, cr0 m))
        (FpVmCallCreateFakePage context).
Proof. frame. Qed.

Lemma enable_elsewhere m sh :
  shared_fp_data m = Some sh ->
  (forall fp_data, In fp_data (all_fp_data sh) ->
     target_cr3 fp_data = kGuestCr3 m ->
     length (original_bytes fp_data) = 32%nat
     /\ 0 <= patch_address fp_data < 2 ^ 64) ->
  exists m',
    FpVmCallEnableFakePages m = Done STATUS_SUCCESS m'
    /\ forall pa,
         (forall fp_data, In fp_data (all_fp_data sh) ->
            target_cr3 fp_data = kGuestCr3 m ->
            ~ lands (page_tables m) fp_data pa) ->
         memory m' pa = memory m pa.
Proof.
  intros Hsh Hok.
  set (relaxed := {| wp := false; cr0_other := cr0_other (cr0 m) |}).
  destruct (shadowing_loop (kGuestCr3 m) (cr3 m) (all_fp_data sh)
              (set_cr0 relaxed m) eq_refl Hok)
    as (m1 & Hrun & _ & _ & _ & _ & _ & _ & Hmem).
  exists (set_cr0 (cr0 m) m1). split; [| exact Hmem].
  unfold FpVmCallEnableFakePages.
  cbv [bind UtilVmRead_kGuestCr3 __readcr3 __readcr0 __writecr0 get_shared
       deref ret].
  cbn. rewrite Hsh. cbn. fold relaxed. now rewrite Hrun.
Qed.

Lemma disable_elsewhere m sh :
  shared_fp_data m = Some sh ->
  (forall fp_data, In fp_data (all_fp_data sh) ->
     target_cr3 fp_data = kGuestCr3 m ->
     is_set (pool m !! shadow_page_base_for_exec fp_data) = true
     /\ BYTE_OFFSET (patch_address fp_data) <= PAGE_SIZE - 32
     /\ 0 <= patch_address fp_data < 2 ^ 64) ->
  exists m',
    FpVmCallDisableFakePages m = Done tt m'
    /\ forall pa,
         (forall fp_data, In fp_data (all_fp_data sh) ->
            target_cr3 fp_data = kGuestCr3 m ->
            ~ lands (page_tables m) fp_data pa) ->
         memory m' pa = memory m pa.
Proof.
  intros Hsh Hok.
  set (relaxed := {| wp := false; cr0_other := cr0_other (cr0 m) |}).
  destruct (unshadowing_elsewhere (kGuestCr3 m) (cr3 m) (all_fp_data sh)
              (set_cr0 relaxed m) eq_refl Hok)
    as (m1 & Hrun & _ & Hmem).
  exists (set_cr0 (cr0 m) m1). split; [| exact Hmem].
  unfold FpVmCallDisableFakePages.
  cbv [bind UtilVmRead_kGuestCr3 __readcr3 __readcr0 __writecr0 get_shared
       deref ret].
  cbn. rewrite Hsh. cbn. fold relaxed. now rewrite Hrun.
Qed.

(** X22.  The enable call and the disable call write guest memory at the
    patched bytes of the entries of the requester and nowhere else: when
    these entries have 32 original bytes, a shadow page in the pool and a
    patch at most [PAGE_SIZE - 32] into its page, both calls return, and
    every physical address on which no patched byte of such an entry lands
    holds after either call what it held before. *)
Theorem X22_enable_and_disable_write_the_patches_only m sh :
  shared_fp_data m = Some sh ->
  (forall fp_data, In fp_data (all_fp_data sh) ->
     target_cr3 fp_data = kGuestCr3 m ->
     length (original_bytes fp_data) = 32%nat
     /\ is_set (pool m !! shadow_page_base_for_exec fp_data) = true
     /\ BYTE_OFFSET (patch_address fp_data) <= PAGE_SIZE - 32
     /\ 0 <= patch_address fp_data < 2 ^ 64) ->
  exists m1 m2,
    FpVmCallEnableFakePages m = Done STATUS_SUCCESS m1
    /\ FpVmCallDisableFakePages m = Done tt m2
    /\ forall pa,
         (forall fp_data, In fp_data (all_fp_data sh) ->
            target_cr3 fp_data = kGuestCr3 m ->
            ~ lands (page_tables m) fp_data pa) ->
         memory m1 pa = memory m pa /\ memory m2 pa = memory m pa.
Proof.
  intros Hsh Hok.
  destruct (enable_elsewhere m sh Hsh) as (m1 & Hrun1 & Hmem1).
  { intros fp Hin HA. destruct (Hok fp Hin HA) as (? & _ & _ & ?). auto. }
  destruct (disable_elsewhere m sh Hsh) as (m2 & Hrun2 & Hmem2).
  { intros fp Hin HA. destruct (Hok fp Hin HA) as (_ & ? & ? & ?). auto. }
  exists m1, m2. split; [exact Hrun1 |]. split; [exact Hrun2 |].
  intros pa Hpa. split; [now apply Hmem1 | now apply Hmem2].
Qed.

Lemma X22_enable_and_disable_write_the_patches_only_witness :
  exists m1 m2,
    FpVmCallEnableFakePages created = Done STATUS_SUCCESS m1
    /\ FpVmCallDisableFakePages created = Done tt m2
    /\ forall pa,
         (forall fp_data, In fp_data (all_fp_data scenario_registry) ->
            target_cr3 fp_data = kGuestCr3 created ->
            ~ lands (page_tables created) fp_data pa) ->
         memory m1 pa = memory created pa /\ memory m2 pa = memory created pa.
Proof.
  apply (X22_enable_and_disable_write_the_patches_only created scenario_registry).
  - vm_compute; reflexivity.
  - intros fp [<-|[]] _.
    split; [reflexivity |]. split; [reflexivity |].
    split; [intros H; vm_compute in H; discriminate H |].
    split; [intros H; discriminate H | reflexivity].
Defined.
